(** * Ruby/SerialPort, POSIX backend: a shallow embedding of
      [ext/native/posix_serialport_impl.c] and the properties of its
      attribute codec, custom-baud side channel and read-timeout mapper. *)

From Stdlib Require Import ZArith List String Lia Bool.
From stdpp Require Import base list.
Import ListNotations.
Local Open Scope string_scope.
Local Open Scope Z_scope.

(** ** Ruby values and exceptions *)

(** The hash keys [sBaud] ... [sReadTimeout] the extension looks up. *)
Inductive sym : Type :=
  sBaud | sDataBits | sStopBits | sParity | sFlowControl | sReadTimeout.

Inductive VALUE : Type :=
| Qnil
| Fixnum (n : Z)
| Str (s : string)
| Hash (h : sym -> VALUE)
| File
| Object (id : nat).

Inductive rtype : Type :=
  T_NIL | T_FIXNUM | T_STRING | T_HASH | T_FILE | T_OBJECT.

Definition TYPE (v : VALUE) : rtype :=
  match v with
  | Qnil => T_NIL
  | Fixnum _ => T_FIXNUM
  | Str _ => T_STRING
  | Hash _ => T_HASH
  | File => T_FILE
  | Object _ => T_OBJECT
  end.

Definition rtype_eqb (a b : rtype) : bool :=
  match a, b with
  | T_NIL, T_NIL | T_FIXNUM, T_FIXNUM | T_STRING, T_STRING
  | T_HASH, T_HASH | T_FILE, T_FILE | T_OBJECT, T_OBJECT => true
  | _, _ => false
  end.

Definition NIL_P (v : VALUE) : bool :=
  match v with Qnil => true | _ => false end.

(** A hash is seen through [rb_hash_aref] alone, with the six keys above:
    it is the function from a key to its value, [Qnil] where absent. *)
Definition rb_hash_aref (h : sym -> VALUE) (k : sym) : VALUE := h k.

Inductive exn : Type :=
| rb_eArgError (msg : string)
| rb_eTypeError (msg : string)
| rb_eIOError (msg : string)
| rb_eRangeError (msg : string)
| rb_sys_fail (what : string).

(** ** Build configuration

    Everything the C file takes from headers that are not part of it:
    the [OS_*] macro, the <termios.h> and <linux/serial.h> constants
    (absent ones are [None], as [#ifdef] sees them) and the constants of
    [serialport.h]; and [RUBY_1_9], which the build script defines for
    Ruby 1.9 and later. *)

Inductive os_kind : Type :=
  OS_LINUX | OS_CYGWIN | OS_FREEBSD | OS_NETBSD | OS_OPENBSD | OS_DARWIN
| OS_SOLARIS | OS_AIX | OS_IRIX.

Class build : Type := {
  os : os_kind;
  RUBY_1_9 : bool;
  B50 : Z; B75 : Z; B110 : Z; B134 : Z; B150 : Z; B200 : Z; B300 : Z;
  B600 : Z; B1200 : Z; B1800 : Z; B2400 : Z; B4800 : Z; B9600 : Z;
  B19200 : Z; B38400 : Z;
  B57600 : option Z; B76800 : option Z; B115200 : option Z;
  B230400 : option Z;
  CSIZE : Z; CS5 : Z; CS6 : Z; CS7 : Z; CS8 : Z;
  CSTOPB : Z; PARENB : Z; PARODD : Z;
  CRTSCTS : option Z;
  CLOCAL : Z; CREAD : Z; HUPCL : Z;
  IXON : Z; IXOFF : Z; IXANY : Z;
  VTIME : nat; VMIN : nat;
  ASYNC_SPD_MASK : Z; ASYNC_SPD_CUST : Z;
  NONE : Z; HARD : Z; SOFT : Z; EVEN : Z; ODD : Z
}.

(** [#ifdef CRTSCTS / #define HAVE_FLOWCONTROL_HARD 1] *)
Definition HAVE_FLOWCONTROL_HARD {P : build} : bool :=
  match CRTSCTS with Some _ => true | None => false end.

(** ** Kernel-side data *)

Record termios : Type := mk_termios {
  c_iflag : Z;
  c_oflag : Z;
  c_cflag : Z;
  c_lflag : Z;
  c_cc : list Z;
  c_ispeed : Z;
  c_ospeed : Z
}.

Definition with_iflag (v : Z) (t : termios) : termios :=
  mk_termios v (c_oflag t) (c_cflag t) (c_lflag t) (c_cc t)
             (c_ispeed t) (c_ospeed t).
Definition with_oflag (v : Z) (t : termios) : termios :=
  mk_termios (c_iflag t) v (c_cflag t) (c_lflag t) (c_cc t)
             (c_ispeed t) (c_ospeed t).
Definition with_cflag (v : Z) (t : termios) : termios :=
  mk_termios (c_iflag t) (c_oflag t) v (c_lflag t) (c_cc t)
             (c_ispeed t) (c_ospeed t).
Definition with_lflag (v : Z) (t : termios) : termios :=
  mk_termios (c_iflag t) (c_oflag t) (c_cflag t) v (c_cc t)
             (c_ispeed t) (c_ospeed t).

(** [cc_t] is an unsigned char: a store keeps the low eight bits. *)
Definition cc_t (v : Z) : Z := v mod 256.

(** [params.c_cc[i] = v] and [params.c_cc[i]]. *)
Definition set_cc (i : nat) (v : Z) (t : termios) : termios :=
  mk_termios (c_iflag t) (c_oflag t) (c_cflag t) (c_lflag t)
             (<[i := cc_t v]> (c_cc t)) (c_ispeed t) (c_ospeed t).
Definition get_cc (i : nat) (t : termios) : Z := default 0 (c_cc t !! i).

(** libc's [cfsetispeed], [cfsetospeed] and [cfgetospeed], at the level
    of their POSIX contract: the speed is stored in the structure and
    read back from it; the framing flags are not involved. *)
Definition cfsetispeed (speed : Z) (t : termios) : termios :=
  mk_termios (c_iflag t) (c_oflag t) (c_cflag t) (c_lflag t) (c_cc t)
             speed (c_ospeed t).
Definition cfsetospeed (speed : Z) (t : termios) : termios :=
  mk_termios (c_iflag t) (c_oflag t) (c_cflag t) (c_lflag t) (c_cc t)
             (c_ispeed t) speed.
Definition cfgetospeed (t : termios) : Z := c_ospeed t.

(** The three fields of Linux's [struct serial_struct] the file uses. *)
Record serial_struct : Type := mk_serial {
  flags : Z;
  custom_divisor : Z;
  baud_base : Z
}.

(** ** The world: device, session and system-call log *)

Inductive event : Type :=
| EvOpen (path : string)
| EvClose
| EvFcntl
| EvTcgetattr
| EvTcsetattr (t : termios)
| EvTIOCGSERIAL
| EvTIOCSSERIAL (s : serial_struct)
| EvIOSSIOSPEED (speed : Z).

(** Which system calls succeed on this descriptor. *)
Record oracle : Type := mk_oracle {
  open_ok : string -> bool;
  isatty_ok : bool;
  tcgetattr_ok : bool;
  tcsetattr_ok : bool;
  tiocgserial_ok : bool;
  tiocsserial_ok : bool;
  iossiospeed_ok : bool;
  fdopen_ok : bool
}.

Record world : Type := mk_world {
  tty : termios;             (* the line's attributes, as the kernel holds them *)
  serial : serial_struct;    (* the driver's serial_struct (Linux) *)
  iv_custom_baud : VALUE;    (* self's instance variable "custom_baud" (Darwin) *)
  sys : oracle;
  trace : list event         (* system calls issued, newest first *)
}.

Definition log (e : event) (w : world) : world :=
  mk_world (tty w) (serial w) (iv_custom_baud w) (sys w) (e :: trace w).
Definition put_tty (t : termios) (w : world) : world :=
  mk_world t (serial w) (iv_custom_baud w) (sys w) (trace w).
Definition put_serial (s : serial_struct) (w : world) : world :=
  mk_world (tty w) s (iv_custom_baud w) (sys w) (trace w).
Definition put_iv (v : VALUE) (w : world) : world :=
  mk_world (tty w) (serial w) v (sys w) (trace w).

(** ** A state-and-exception monad for the C functions

    [Raise] is [rb_raise]/[rb_sys_fail] (a non-local exit); [Undefined]
    is a C operation without defined behaviour. *)

Inductive outcome (A : Type) : Type :=
| Ok (a : A)
| Raise (e : exn)
| Undefined (what : string).
Arguments Ok {A} a.
Arguments Raise {A} e.
Arguments Undefined {A} what.

Definition M (A : Type) : Type := world -> outcome A * world.

Definition ret {A} (a : A) : M A := fun w => (Ok a, w).
Definition rb_raise {A} (e : exn) : M A := fun w => (Raise e, w).
Definition undefined {A} (what : string) : M A := fun w => (Undefined what, w).
Definition bind {A B} (m : M A) (k : A -> M B) : M B :=
  fun w =>
    match m w with
    | (Ok a, w') => k a w'
    | (Raise e, w') => (Raise e, w')
    | (Undefined u, w') => (Undefined u, w')
    end.

Notation "'let!' x ':=' c 'in' k" := (bind c (fun x => k))
  (at level 10, x pattern, c at level 100, k at level 200).
Notation "c ';;' k" := (bind c (fun _ => k))
  (at level 100, k at level 200, right associativity).

(** ** System calls *)

Definition sys_open (path : string) : M bool :=
  fun w => (Ok (open_ok (sys w) path), log (EvOpen path) w).
Definition isatty : M bool :=
  fun w => (Ok (isatty_ok (sys w)), w).
Definition close : M unit := fun w => (Ok tt, log EvClose w).
Definition fcntl_blocking : M unit := fun w => (Ok tt, log EvFcntl w).

(** [tcgetattr(fd, &params)]: [None] stands for the result -1. *)
Definition tcgetattr : M (option termios) :=
  fun w =>
    (Ok (if tcgetattr_ok (sys w) then Some (tty w) else None),
     log EvTcgetattr w).

(** [tcsetattr(fd, TCSANOW, &params)]: [false] stands for -1, and then
    the line keeps its attributes. *)
Definition tcsetattr (params : termios) : M bool :=
  fun w =>
    if tcsetattr_ok (sys w)
    then (Ok true, put_tty params (log (EvTcsetattr params) w))
    else (Ok false, log (EvTcsetattr params) w).

Definition ioctl_TIOCGSERIAL : M (option serial_struct) :=
  fun w =>
    (Ok (if tiocgserial_ok (sys w) then Some (serial w) else None),
     log EvTIOCGSERIAL w).

Definition ioctl_TIOCSSERIAL (s : serial_struct) : M bool :=
  fun w =>
    if tiocsserial_ok (sys w)
    then (Ok true, put_serial s (log (EvTIOCSSERIAL s) w))
    else (Ok false, log (EvTIOCSSERIAL s) w).

Definition ioctl_IOSSIOSPEED (speed : Z) : M bool :=
  fun w => (Ok (iossiospeed_ok (sys w)), log (EvIOSSIOSPEED speed) w).

Definition rb_iv_get_custom_baud : M VALUE :=
  fun w => (Ok (iv_custom_baud w), w).
Definition rb_iv_set_custom_baud (v : VALUE) : M unit :=
  fun w => (Ok tt, put_iv v w).

Definition sTcgetattr : string := "tcgetattr".
Definition sTcsetattr : string := "tcsetattr".

(** ** Ruby's C API *)

Definition INT_MIN : Z := - 2 ^ 31.
Definition INT_MAX : Z := 2 ^ 31 - 1.

(** [Check_Type(v, t)] raises a [TypeError] unless [v] has type [t]. *)
Definition Check_Type (v : VALUE) (t : rtype) : M unit :=
  if rtype_eqb (TYPE v) t then ret tt
  else rb_raise (rb_eTypeError "wrong argument type").

(** [FIX2INT(v)]: a [RangeError] for a Fixnum that does not fit an [int];
    the file applies it to Fixnums only. *)
Definition FIX2INT (v : VALUE) : M Z :=
  match v with
  | Fixnum n =>
      if (INT_MIN <=? n) && (n <=? INT_MAX) then ret n
      else rb_raise (rb_eRangeError "integer too big to convert to int")
  | _ => undefined "FIX2INT of a non-Fixnum"
  end.

(** [rb_fdopen(fd, mode)] of Ruby 1.8: [fdopen] on the descriptor, and
    [rb_sys_fail(0)] (a system error without a message) when no stream
    can be made; the descriptor stays open either way. *)
Definition rb_fdopen : M unit :=
  fun w =>
    if fdopen_ok (sys w) then (Ok tt, w) else (Raise (rb_sys_fail ""), w).

Definition INT2FIX (n : Z) : VALUE := Fixnum n.
Definition FIXNUM_P (v : VALUE) : bool := rtype_eqb (TYPE v) T_FIXNUM.

(** [argv[i]], read only where [argc] says it exists. *)
Definition arg (argv : list VALUE) (i : nat) : VALUE :=
  default Qnil (argv !! i).

(** [x & m] as a C condition. *)
Definition tst (x m : Z) : bool := negb (Z.land x m =? 0).

(** ** Custom baud rate, Linux: the divisor of [struct serial_struct] *)

Module Linux.
Section WithBuild.
Context {P : build}.

Definition set_custom_baud_rate (baud : Z) : M Z :=
  if baud <=? 0 then rb_raise (rb_eArgError "invalid baud rate")
  else
    let! r := ioctl_TIOCGSERIAL in
    match r with
    | None =>
        rb_raise
          (rb_eArgError "unable to execute TIOCGSERIAL ioctl for custom baud")
    | Some serial_info =>
        if baud_base serial_info <? baud
        then rb_raise (rb_eArgError "custom baud rate is too high")
        else
          let divisor := Z.quot (baud_base serial_info) baud in
          let serial_info :=
            mk_serial
              (Z.lor (Z.land (flags serial_info) (Z.lnot ASYNC_SPD_MASK))
                     ASYNC_SPD_CUST)
              divisor (baud_base serial_info) in
          let! ok := ioctl_TIOCSSERIAL serial_info in
          if negb ok
          then rb_raise (rb_eArgError "unable to set custom baud rate")
          else ret 0
    end.

Definition clear_custom_baud_rate : M Z :=
  let! r := ioctl_TIOCGSERIAL in
  match r with
  | None =>
      rb_raise
        (rb_eArgError "unable to execute TIOCGSERIAL ioctl for custom baud")
  | Some serial_info =>
      if negb (tst (flags serial_info) ASYNC_SPD_CUST)
         && (custom_divisor serial_info =? 0)
      then ret 0
      else
        let serial_info :=
          mk_serial (Z.land (flags serial_info) (Z.lnot ASYNC_SPD_CUST))
                    0 (baud_base serial_info) in
        let! ok := ioctl_TIOCSSERIAL serial_info in
        if negb ok
        then rb_raise (rb_eArgError "unable to set custom baud rate")
        else ret 0
  end.

Definition get_custom_baud_rate : M Z :=
  let! r := ioctl_TIOCGSERIAL in
  match r with
  | None => ret 0
  | Some serial_info =>
      if negb (tst (flags serial_info) ASYNC_SPD_CUST) then ret 0
      else if 0 <? custom_divisor serial_info
      then ret (Z.quot (baud_base serial_info) (custom_divisor serial_info))
      else ret 0
  end.

End WithBuild.
End Linux.

(** ** Custom baud rate, Darwin: [IOSSIOSPEED] and a cached value *)

Module Darwin.
Section WithBuild.
Context {P : build}.

(** [speed_t] is an unsigned long. *)
Definition speed_t (x : Z) : Z := x mod 2 ^ 64.

Definition set_custom_baud_rate (self : VALUE) (baud : Z) : M Z :=
  let speed := speed_t baud in
  let! ok := ioctl_IOSSIOSPEED speed in
  if negb ok then rb_raise (rb_eArgError "unable to set custom baud rate")
  else
    rb_iv_set_custom_baud (INT2FIX baud) ;;
    ret 0.

Definition clear_custom_baud_rate (self : VALUE) (serial_info : termios)
  : M termios :=
  rb_iv_set_custom_baud (INT2FIX 0) ;;
  ret (cfsetospeed B9600 (cfsetispeed B9600 serial_info)).

Definition get_custom_baud_rate (self : VALUE) : M Z :=
  let! baud := rb_iv_get_custom_baud in
  if FIXNUM_P baud then FIX2INT baud else ret 0.

End WithBuild.
End Darwin.

(** ** The extension's functions *)

Section Impl.
Context {P : build}.

Definition is_linux : bool :=
  match os with OS_LINUX => true | _ => false end.
Definition is_darwin : bool :=
  match os with OS_DARWIN => true | _ => false end.

(** *** [sp_create_impl] *)

Definition ports : list string :=
  match os with
  | OS_LINUX | OS_CYGWIN =>
      ["/dev/ttyS0"; "/dev/ttyS1"; "/dev/ttyS2"; "/dev/ttyS3";
       "/dev/ttyS4"; "/dev/ttyS5"; "/dev/ttyS6"; "/dev/ttyS7"]
  | OS_FREEBSD | OS_NETBSD | OS_OPENBSD | OS_DARWIN =>
      ["/dev/cuaa0"; "/dev/cuaa1"; "/dev/cuaa2"; "/dev/cuaa3";
       "/dev/cuaa4"; "/dev/cuaa5"; "/dev/cuaa6"; "/dev/cuaa7"]
  | OS_SOLARIS =>
      ["/dev/ttya"; "/dev/ttyb"; "/dev/ttyc"; "/dev/ttyd";
       "/dev/ttye"; "/dev/ttyf"; "/dev/ttyg"; "/dev/ttyh"]
  | OS_AIX =>
      ["/dev/tty0"; "/dev/tty1"; "/dev/tty2"; "/dev/tty3";
       "/dev/tty4"; "/dev/tty5"; "/dev/tty6"; "/dev/tty7"]
  | OS_IRIX =>
      ["/dev/ttyf1"; "/dev/ttyf2"; "/dev/ttyf3"; "/dev/ttyf4";
       "/dev/ttyf5"; "/dev/ttyf6"; "/dev/ttyf7"; "/dev/ttyf8"]
  end.

(** [sizeof(ports) / sizeof(ports[0])], a [size_t]; comparing the [int]
    [num_port] with it converts [num_port] to [size_t]. *)
Definition ports_count : Z := Z.of_nat (length ports).
Definition size_t (x : Z) : Z := x mod 2 ^ 64.

(** The [switch (TYPE(_port))] of [sp_create_impl]: the device path.
    [ports[num_port]] outside the array has no defined behaviour. *)
Definition select_port (_port : VALUE) : M string :=
  match TYPE _port with
  | T_FIXNUM =>
      let! num_port := FIX2INT _port in
      if (num_port <? 0) || (ports_count <? size_t num_port)
      then rb_raise (rb_eArgError "illegal port number")
      else
        match ports !! Z.to_nat num_port with
        | Some port => ret port
        | None => undefined "ports[num_port] read past the end of ports"
        end
  | T_STRING =>
      match _port with Str s => ret s | _ => ret "" end
  | _ => rb_raise (rb_eTypeError "wrong argument type")
  end.

(** [rb_secure(4)] and [Check_SafeStr] are Ruby's safe-level checks;
    they pass at the safe level 0 a session starts with, which is the one
    modelled.  The stream of the result is the descriptor itself under
    [RUBY_1_9] and [rb_fdopen]'s otherwise. *)
Definition sp_create_impl (klass _port : VALUE) : M VALUE :=
  let! port := select_port _port in
  let! fd_ok := sys_open port in
  if negb fd_ok then rb_raise (rb_sys_fail port)
  else
    let! is_tty := isatty in
    if negb is_tty
    then close ;; rb_raise (rb_eArgError "not a serial port")
    else
      fcntl_blocking ;;
      let! r := tcgetattr in
      match r with
      | None => close ;; rb_raise (rb_sys_fail sTcgetattr)
      | Some params =>
          let params := with_oflag 0 params in
          let params := with_lflag 0 params in
          let params :=
            with_iflag
              (Z.land (c_iflag params) (Z.lor (Z.lor IXON IXOFF) IXANY))
              params in
          let params :=
            with_cflag (Z.lor (c_cflag params) (Z.lor CLOCAL CREAD)) params in
          let params :=
            with_cflag (Z.land (c_cflag params) (Z.lnot HUPCL)) params in
          let! ok := tcsetattr params in
          if negb ok then close ;; rb_raise (rb_sys_fail sTcsetattr)
          else
            (if RUBY_1_9 then ret tt else rb_fdopen) ;;
            ret File
      end.

(** *** [sp_set_modem_params_impl] *)

Definition opt_eqb (x : Z) (c : option Z) : bool :=
  match c with Some c => x =? c | None => false end.

(** The [switch (FIX2INT(_data_rate))]: [None] is its [default:]. *)
Definition std_speed (rate : Z) : option Z :=
  if rate =? 50 then Some B50
  else if rate =? 75 then Some B75
  else if rate =? 110 then Some B110
  else if rate =? 134 then Some B134
  else if rate =? 150 then Some B150
  else if rate =? 200 then Some B200
  else if rate =? 300 then Some B300
  else if rate =? 600 then Some B600
  else if rate =? 1200 then Some B1200
  else if rate =? 1800 then Some B1800
  else if rate =? 2400 then Some B2400
  else if rate =? 4800 then Some B4800
  else if rate =? 9600 then Some B9600
  else if rate =? 19200 then Some B19200
  else if rate =? 38400 then Some B38400
  else if rate =? 57600 then B57600
  else if rate =? 76800 then B76800
  else if rate =? 115200 then B115200
  else if rate =? 230400 then B230400
  else None.

(** From [if (NIL_P(_data_rate))] to the label [SetDataBits]. *)
Definition SetDataRate (_data_rate : VALUE) (params : termios)
    (custom_baud_rate : Z) : M (termios * Z) :=
  if NIL_P _data_rate then ret (params, custom_baud_rate)
  else
    Check_Type _data_rate T_FIXNUM ;;
    let! rate := FIX2INT _data_rate in
    if rate <=? 0 then rb_raise (rb_eArgError "invalid baud rate")
    else
      let! rc :=
        match std_speed rate with
        | Some data_rate => ret (data_rate, custom_baud_rate)
        | None =>
            if is_linux || is_darwin then
              let custom_baud_rate := rate in
              if custom_baud_rate <=? 0
              then rb_raise (rb_eArgError "invalid baud rate")
              else if 24000000 <? custom_baud_rate
              then rb_raise (rb_eArgError "baud rate too high")
              else ret (B38400, custom_baud_rate)
            else rb_raise (rb_eArgError "unknown baud rate")
        end in
      (if is_linux then Linux.clear_custom_baud_rate else ret 0) ;;
      ret (cfsetospeed (fst rc) (cfsetispeed (fst rc) params), snd rc).

(** The [switch (FIX2INT(_data_bits))]: [None] is its [default:]. *)
Definition char_size (n : Z) : option Z :=
  if n =? 5 then Some CS5
  else if n =? 6 then Some CS6
  else if n =? 7 then Some CS7
  else if n =? 8 then Some CS8
  else None.

(** From the label [SetDataBits] to [SetStopBits]. *)
Definition SetDataBits (_data_bits : VALUE) (params : termios) : M termios :=
  if NIL_P _data_bits then ret params
  else
    Check_Type _data_bits T_FIXNUM ;;
    let! n := FIX2INT _data_bits in
    match char_size n with
    | None => rb_raise (rb_eArgError "unknown character size")
    | Some data_bits =>
        let params :=
          with_cflag (Z.land (c_cflag params) (Z.lnot CSIZE)) params in
        ret (with_cflag (Z.lor (c_cflag params) data_bits) params)
    end.

(** From [SetStopBits] to [SetParity]. *)
Definition SetStopBits (_stop_bits : VALUE) (params : termios) : M termios :=
  if NIL_P _stop_bits then ret params
  else
    Check_Type _stop_bits T_FIXNUM ;;
    let! n := FIX2INT _stop_bits in
    if n =? 1
    then ret (with_cflag (Z.land (c_cflag params) (Z.lnot CSTOPB)) params)
    else if n =? 2
    then ret (with_cflag (Z.lor (c_cflag params) CSTOPB) params)
    else rb_raise (rb_eArgError "unknown number of stop bits").

(** From [SetParity] to [SetFlowControl]. *)
Definition SetParity (_parity : VALUE) (params : termios) : M termios :=
  if NIL_P _parity then ret params
  else
    Check_Type _parity T_FIXNUM ;;
    let! n := FIX2INT _parity in
    if n =? EVEN then
      let params := with_cflag (Z.lor (c_cflag params) PARENB) params in
      ret (with_cflag (Z.land (c_cflag params) (Z.lnot PARODD)) params)
    else if n =? ODD then
      let params := with_cflag (Z.lor (c_cflag params) PARENB) params in
      ret (with_cflag (Z.lor (c_cflag params) PARODD) params)
    else if n =? NONE then
      ret (with_cflag (Z.land (c_cflag params) (Z.lnot PARENB)) params)
    else rb_raise (rb_eArgError "unknown parity").

(** The flow-control chain, written twice in the file (in
    [sp_set_modem_params_impl] and in [sp_set_flow_control_impl]):
    validation, the [HARD] branch under [#ifdef HAVE_FLOWCONTROL_HARD],
    the [SOFT] branch. *)
Definition apply_flow_control (flow_control : Z) (params : termios)
  : M termios :=
  if negb (flow_control =? NONE) && negb (flow_control =? SOFT)
     && negb (flow_control =? HARD)
     && negb (flow_control =? Z.lor HARD SOFT)
  then rb_raise (rb_eArgError "invalid flow control")
  else
    let! params :=
      if tst flow_control HARD then
        match CRTSCTS with
        | Some crtscts =>
            ret (with_cflag (Z.lor (c_cflag params) crtscts) params)
        | None =>
            rb_raise (rb_eIOError "Hardware flow control not supported")
        end
      else
        match CRTSCTS with
        | Some crtscts =>
            ret (with_cflag (Z.land (c_cflag params) (Z.lnot crtscts)) params)
        | None => ret params
        end in
    let soft := Z.lor (Z.lor IXON IXOFF) IXANY in
    if tst flow_control SOFT
    then ret (with_iflag (Z.lor (c_iflag params) soft) params)
    else ret (with_iflag (Z.land (c_iflag params) (Z.lnot soft)) params).

(** From [SetFlowControl] to [SetReadTimeout]. *)
Definition SetFlowControl (_flow_control : VALUE) (params : termios)
  : M termios :=
  if NIL_P _flow_control then ret params
  else
    Check_Type _flow_control T_FIXNUM ;;
    let! flow_control := FIX2INT _flow_control in
    apply_flow_control flow_control params.

(** The timeout chain, written twice in the file as well.  The sum
    [read_timeout + 50] is an [int] addition: past [INT_MAX] it has no
    defined behaviour. *)
Definition apply_read_timeout (read_timeout : Z) (params : termios)
  : M termios :=
  if read_timeout <? 0 then ret (set_cc VMIN 0 (set_cc VTIME 0 params))
  else if read_timeout =? 0 then ret (set_cc VMIN 1 (set_cc VTIME 0 params))
  else if INT_MAX <? read_timeout + 50
  then undefined "read_timeout + 50 overflows int"
  else
    ret (set_cc VMIN 0
           (set_cc VTIME (Z.quot (read_timeout + 50) 100) params)).

(** From [SetReadTimeout] to [SaveSettings]. *)
Definition SetReadTimeout (_read_timeout : VALUE) (params : termios)
  : M termios :=
  if NIL_P _read_timeout then ret params
  else
    Check_Type _read_timeout T_FIXNUM ;;
    let! read_timeout := FIX2INT _read_timeout in
    apply_read_timeout read_timeout params.

(** The value each step works on: the hash entry, or the positional
    argument with its default. *)
Definition use_hash_of (argv : list VALUE) : bool :=
  (Z.of_nat (length argv) =? 1) && rtype_eqb (TYPE (arg argv 0)) T_HASH.

Definition hash_arg (argv : list VALUE) (k : sym) : VALUE :=
  match arg argv 0 with Hash h => rb_hash_aref h k | _ => Qnil end.

Definition positional (argv : list VALUE) (i : nat) (dflt : VALUE) : VALUE :=
  if Z.of_nat (S i) <=? Z.of_nat (length argv) then arg argv i else dflt.

(** The values the six steps work on. *)
Definition data_rate_arg (argv : list VALUE) : VALUE :=
  if use_hash_of argv then hash_arg argv sBaud else arg argv 0.
Definition data_bits_arg (argv : list VALUE) : VALUE :=
  if use_hash_of argv then hash_arg argv sDataBits
  else positional argv 1 (INT2FIX 8).
Definition stop_bits_arg (argv : list VALUE) : VALUE :=
  if use_hash_of argv then hash_arg argv sStopBits
  else positional argv 2 (INT2FIX 1).
Definition parity_arg (argv : list VALUE) (params : termios) : VALUE :=
  if use_hash_of argv then hash_arg argv sParity
  else positional argv 3
         (if Z.land (c_cflag params) CSIZE =? CS8
          then INT2FIX NONE else INT2FIX EVEN).
Definition flow_control_arg (argv : list VALUE) : VALUE :=
  if use_hash_of argv then hash_arg argv sFlowControl
  else positional argv 4 Qnil.
Definition read_timeout_arg (argv : list VALUE) : VALUE :=
  if use_hash_of argv then hash_arg argv sReadTimeout
  else positional argv 5 Qnil.

(** From the first [tcgetattr] to the label [SetFlowControl]: rate, data
    bits, stop bits and parity on the in-memory [params], and the custom
    rate to apply after the commit. *)
Definition fill_framing (argv : list VALUE) (self : VALUE) (params : termios)
  : M (termios * Z) :=
  let! pc :=
    if is_darwin then
      let! custom_baud_rate := Darwin.get_custom_baud_rate self in
      let! params := Darwin.clear_custom_baud_rate self params in
      ret (params, custom_baud_rate)
    else ret (params, 0) in
  let! pc := SetDataRate (data_rate_arg argv) (fst pc) (snd pc) in
  let! params := SetDataBits (data_bits_arg argv) (fst pc) in
  let! params := SetStopBits (stop_bits_arg argv) params in
  let! params := SetParity (parity_arg argv params) params in
  ret (params, snd pc).

(** From [SetFlowControl] to [SaveSettings]. *)
Definition fill_params (argv : list VALUE) (self : VALUE) (params : termios)
  : M (termios * Z) :=
  let! pc := fill_framing argv self params in
  let! params := SetFlowControl (flow_control_arg argv) (fst pc) in
  let! params := SetReadTimeout (read_timeout_arg argv) params in
  ret (params, snd pc).

Definition sp_set_modem_params_impl (argv : list VALUE) (self : VALUE)
  : M VALUE :=
  if Z.of_nat (length argv) =? 0 then ret self
  else
    let! r := tcgetattr in
    match r with
    | None => rb_raise (rb_sys_fail sTcgetattr)
    | Some params =>
        let! pc := fill_params argv self params in
        let! ok := tcsetattr (fst pc) in
        if negb ok then rb_raise (rb_sys_fail sTcsetattr)
        else
          let custom_baud_rate := snd pc in
          (if is_darwin then
             if negb (custom_baud_rate =? 0)
             then Darwin.set_custom_baud_rate self custom_baud_rate
             else ret 0
           else if is_linux then
             if negb (custom_baud_rate =? 0)
             then Linux.set_custom_baud_rate custom_baud_rate
             else ret 0
           else ret 0) ;;
          ret (arg argv 0)
    end.

(** *** [get_modem_params_impl] *)

Record modem_params : Type := mk_modem_params {
  data_rate : Z;
  data_bits : Z;
  stop_bits : Z;
  parity : Z;
  flow_control : Z;
  read_timeout : Z
}.

(** The [switch (cfgetospeed(&params))]: [None] is its [default:]. *)
Definition std_rate (speed : Z) : option Z :=
  if speed =? B50 then Some 50
  else if speed =? B75 then Some 75
  else if speed =? B110 then Some 110
  else if speed =? B134 then Some 134
  else if speed =? B150 then Some 150
  else if speed =? B200 then Some 200
  else if speed =? B300 then Some 300
  else if speed =? B600 then Some 600
  else if speed =? B1200 then Some 1200
  else if speed =? B1800 then Some 1800
  else if speed =? B2400 then Some 2400
  else if speed =? B4800 then Some 4800
  else if speed =? B9600 then Some 9600
  else if speed =? B19200 then Some 19200
  else if speed =? B38400 then Some 38400
  else if opt_eqb speed B57600 then Some 57600
  else if opt_eqb speed B76800 then Some 76800
  else if opt_eqb speed B115200 then Some 115200
  else if opt_eqb speed B230400 then Some 230400
  else None.

(** The [switch (params.c_cflag & CSIZE)]. *)
Definition decode_data_bits (params : termios) : Z :=
  let cs := Z.land (c_cflag params) CSIZE in
  if cs =? CS5 then 5
  else if cs =? CS6 then 6
  else if cs =? CS7 then 7
  else if cs =? CS8 then 8
  else 0.

Definition decode_parity (params : termios) : Z :=
  if negb (tst (c_cflag params) PARENB) then NONE
  else if tst (c_cflag params) PARODD then ODD
  else EVEN.

(** The flow-control decoding of [get_modem_params_impl] and
    [sp_get_flow_control_impl]. *)
Definition decode_flow_control (params : termios) : Z :=
  let ret0 := NONE in
  let ret1 :=
    match CRTSCTS with
    | Some crtscts =>
        if tst (c_cflag params) crtscts then ret0 + HARD else ret0
    | None => ret0
    end in
  if tst (c_iflag params) (Z.lor (Z.lor IXON IXOFF) IXANY)
  then ret1 + SOFT else ret1.

(** The timeout decoding of [get_modem_params_impl] and
    [sp_get_read_timeout_impl]. *)
Definition decode_read_timeout (params : termios) : Z :=
  if (get_cc VTIME params =? 0) && (get_cc VMIN params =? 0) then -1
  else get_cc VTIME params * 100.

(** [mp] is the caller's structure; a field the function does not assign
    keeps what it held. *)
Definition get_modem_params_impl (self : VALUE) (mp : modem_params)
  : M modem_params :=
  let! r := tcgetattr in
  match r with
  | None => rb_raise (rb_sys_fail sTcgetattr)
  | Some params =>
      let! rate :=
        match std_rate (cfgetospeed params) with
        | Some rate => ret rate
        | None =>
            if is_linux then Linux.get_custom_baud_rate
            else if is_darwin then Darwin.get_custom_baud_rate self
            else ret (data_rate mp)
        end in
      ret (mk_modem_params rate
             (decode_data_bits params)
             (if tst (c_cflag params) CSTOPB then 2 else 1)
             (decode_parity params)
             (decode_flow_control params)
             (decode_read_timeout params))
  end.

(** *** Flow control and read timeout on their own *)

Definition sp_set_flow_control_impl (self val : VALUE) : M VALUE :=
  Check_Type val T_FIXNUM ;;
  let! r := tcgetattr in
  match r with
  | None => rb_raise (rb_sys_fail sTcgetattr)
  | Some params =>
      let! flowc := FIX2INT val in
      let! params := apply_flow_control flowc params in
      let! ok := tcsetattr params in
      if negb ok then rb_raise (rb_sys_fail sTcsetattr) else ret val
  end.

Definition sp_get_flow_control_impl (self : VALUE) : M VALUE :=
  let! r := tcgetattr in
  match r with
  | None => rb_raise (rb_sys_fail sTcgetattr)
  | Some params =>
      let ret0 := 0 in
      let ret1 :=
        match CRTSCTS with
        | Some crtscts =>
            if tst (c_cflag params) crtscts then ret0 + HARD else ret0
        | None => ret0
        end in
      ret (INT2FIX
             (if tst (c_iflag params) (Z.lor (Z.lor IXON IXOFF) IXANY)
              then ret1 + SOFT else ret1))
  end.

Definition sp_set_read_timeout_impl (self val : VALUE) : M VALUE :=
  Check_Type val T_FIXNUM ;;
  let! timeout := FIX2INT val in
  let! r := tcgetattr in
  match r with
  | None => rb_raise (rb_sys_fail sTcgetattr)
  | Some params =>
      let! params := apply_read_timeout timeout params in
      let! ok := tcsetattr params in
      if negb ok then rb_raise (rb_sys_fail sTcsetattr) else ret val
  end.

Definition sp_get_read_timeout_impl (self : VALUE) : M VALUE :=
  let! r := tcgetattr in
  match r with
  | None => rb_raise (rb_sys_fail sTcgetattr)
  | Some params => ret (INT2FIX (decode_read_timeout params))
  end.

End Impl.

(** ** Concrete builds

    The functions above take every header constant as a parameter.  The
    builds below fix them for the examples: the <termios.h> and
    <linux/serial.h> constants are the platform's; [serialport.h] is not
    among the sources at hand, and its constants take the values of the
    specification ([NONE]=0, [SOFT]=1, [HARD]=2 for flow control, and
    three distinct small integers with [EVEN]=1 for parity). *)

(** GNU/Linux (glibc, asm-generic termbits). *)
Definition linux_build : build := {|
  os := OS_LINUX; RUBY_1_9 := true;
  B50 := 1; B75 := 2; B110 := 3; B134 := 4; B150 := 5; B200 := 6;
  B300 := 7; B600 := 8; B1200 := 9; B1800 := 10; B2400 := 11;
  B4800 := 12; B9600 := 13; B19200 := 14; B38400 := 15;
  B57600 := Some 4097; B76800 := None; B115200 := Some 4098;
  B230400 := Some 4099;
  CSIZE := 48; CS5 := 0; CS6 := 16; CS7 := 32; CS8 := 48;
  CSTOPB := 64; PARENB := 256; PARODD := 512;
  CRTSCTS := Some 2147483648;
  CLOCAL := 2048; CREAD := 128; HUPCL := 1024;
  IXON := 1024; IXOFF := 4096; IXANY := 2048;
  VTIME := 5%nat; VMIN := 6%nat;
  ASYNC_SPD_MASK := 4144; ASYNC_SPD_CUST := 48;
  NONE := 0; HARD := 2; SOFT := 1; EVEN := 1; ODD := 2
|}.

(** GNU/Linux compiled for strict POSIX: glibc shows CRTSCTS under
    [__USE_MISC] only, so [HAVE_FLOWCONTROL_HARD] is not defined. *)
Definition linux_posix_build : build := {|
  os := OS_LINUX; RUBY_1_9 := true;
  B50 := 1; B75 := 2; B110 := 3; B134 := 4; B150 := 5; B200 := 6;
  B300 := 7; B600 := 8; B1200 := 9; B1800 := 10; B2400 := 11;
  B4800 := 12; B9600 := 13; B19200 := 14; B38400 := 15;
  B57600 := Some 4097; B76800 := None; B115200 := Some 4098;
  B230400 := Some 4099;
  CSIZE := 48; CS5 := 0; CS6 := 16; CS7 := 32; CS8 := 48;
  CSTOPB := 64; PARENB := 256; PARODD := 512;
  CRTSCTS := None;
  CLOCAL := 2048; CREAD := 128; HUPCL := 1024;
  IXON := 1024; IXOFF := 4096; IXANY := 2048;
  VTIME := 5%nat; VMIN := 6%nat;
  ASYNC_SPD_MASK := 4144; ASYNC_SPD_CUST := 48;
  NONE := 0; HARD := 2; SOFT := 1; EVEN := 1; ODD := 2
|}.

(** Darwin: speeds are the rates themselves. *)
Definition darwin_build : build := {|
  os := OS_DARWIN; RUBY_1_9 := true;
  B50 := 50; B75 := 75; B110 := 110; B134 := 134; B150 := 150;
  B200 := 200; B300 := 300; B600 := 600; B1200 := 1200; B1800 := 1800;
  B2400 := 2400; B4800 := 4800; B9600 := 9600; B19200 := 19200;
  B38400 := 38400;
  B57600 := Some 57600; B76800 := Some 76800; B115200 := Some 115200;
  B230400 := Some 230400;
  CSIZE := 768; CS5 := 0; CS6 := 256; CS7 := 512; CS8 := 768;
  CSTOPB := 1024; PARENB := 4096; PARODD := 8192;
  CRTSCTS := Some 196608;
  CLOCAL := 32768; CREAD := 2048; HUPCL := 16384;
  IXON := 512; IXOFF := 1024; IXANY := 2048;
  VTIME := 17%nat; VMIN := 16%nat;
  ASYNC_SPD_MASK := 0; ASYNC_SPD_CUST := 0;
  NONE := 0; HARD := 2; SOFT := 1; EVEN := 1; ODD := 2
|}.

(** ** Sample worlds *)

Definition all_ok : oracle :=
  mk_oracle (fun _ => true) true true true true true true true.

(** A Linux line at 9600 8N1, raw, no custom rate. *)
Definition linux_tty0 : termios :=
  mk_termios 0 0 (48 + 128 + 2048) 0 (replicate 32 0) 13 13.
Definition linux_w0 : world :=
  mk_world linux_tty0 (mk_serial 0 0 24000000) Qnil all_ok [].

(** The same line at 7 data bits, 2 stop bits, odd parity. *)
Definition linux_tty_7O2 : termios :=
  mk_termios 0 0 (32 + 64 + 256 + 512 + 128 + 2048) 0 (replicate 32 0) 13 13.
Definition linux_w_7O2 : world :=
  mk_world linux_tty_7O2 (mk_serial 0 0 24000000) Qnil all_ok [].

(** The same line with a custom rate of 250000 active: speed B38400,
    ASYNC_SPD_CUST set, divisor 96 on a 24 MHz base. *)
Definition linux_tty_custom : termios :=
  mk_termios 0 0 (48 + 128 + 2048) 0 (replicate 32 0) 15 15.
Definition linux_w_custom : world :=
  mk_world linux_tty_custom (mk_serial 48 96 24000000) Qnil all_ok [].

(** A Darwin line with the custom rate 250000 cached in the session. *)
Definition darwin_tty0 : termios :=
  mk_termios 0 0 (768 + 2048 + 32768) 0 (replicate 20 0) 9600 9600.
Definition darwin_w_custom : world :=
  mk_world darwin_tty0 (mk_serial 0 0 0) (Fixnum 250000) all_ok [].

(** A Linux line whose driver has a 115200 base clock. *)
Definition linux_w_slow_base : world :=
  mk_world linux_tty_7O2 (mk_serial 0 0 115200) Qnil all_ok [].

Definition a_port : VALUE := Object 0.
Definition mp_blank : modem_params := mk_modem_params 0 0 0 0 0 0.

(** The hash [{ "baud" => 19200 }]. *)
Definition rate_only_hash : VALUE :=
  Hash (fun k => match k with sBaud => Fixnum 19200 | _ => Qnil end).

(** The session's cached rate is only ever written as [INT2FIX] of an
    [int]. *)
Definition iv_fits (w : world) : Prop :=
  match iv_custom_baud w with
  | Fixnum n => INT_MIN <= n <= INT_MAX
  | _ => True
  end.

Definition distinct4 (a b c d : Z) : Prop :=
  a <> b /\ a <> c /\ a <> d /\ b <> c /\ b <> d /\ c <> d.

(** ** Relations kept by a run *)

(** A relation between the world before and after that every primitive of
    a computation respects is respected by the computation. *)
Definition preserves (R : relation world) {A} (m : M A) : Prop :=
  forall w r w', m w = (r, w') -> R w w'.


(** ** The read-timeout round trip *)

(** What the specification calls [normalize]: -1 for a negative request,
    0 for 0, the nearest multiple of 100 for a positive one. *)
Definition normalize (t : Z) : Z :=
  if t <? 0 then -1
  else if t =? 0 then 0
  else (t + 50) / 100 * 100.

(** [setReadTimeout(t); getReadTimeout()]: the number read back, when
    both calls return. *)
Definition read_timeout_round_trip {P : build} (self : VALUE) (t : Z)
    (w : world) : option Z :=
  match sp_set_read_timeout_impl self (Fixnum t) w with
  | (Ok _, w1) =>
      match sp_get_read_timeout_impl self w1 with
      | (Ok (Fixnum n), _) => Some n
      | _ => None
      end
  | _ => None
  end.

(** ** What a well-formed set of header constants provides

    The framing masks of [c_cflag] do not overlap, the four character
    sizes are distinct values under the CSIZE mask, PARENB is a bit, the
    [case] labels of the parity switch are distinct [int]s. *)
Record build_ok (P : build) : Prop := {
  ok_csize_cstopb : Z.land CSIZE CSTOPB = 0;
  ok_csize_parenb : Z.land CSIZE PARENB = 0;
  ok_csize_parodd : Z.land CSIZE PARODD = 0;
  ok_cstopb_parenb : Z.land CSTOPB PARENB = 0;
  ok_cstopb_parodd : Z.land CSTOPB PARODD = 0;
  ok_parenb_parodd : Z.land PARENB PARODD = 0;
  ok_crtscts : forall crtscts, CRTSCTS = Some crtscts ->
    Z.land crtscts CSIZE = 0 /\ Z.land crtscts CSTOPB = 0 /\
    Z.land crtscts PARENB = 0 /\ Z.land crtscts PARODD = 0;
  ok_cs5 : Z.land CS5 CSIZE = CS5;
  ok_cs6 : Z.land CS6 CSIZE = CS6;
  ok_cs7 : Z.land CS7 CSIZE = CS7;
  ok_cs8 : Z.land CS8 CSIZE = CS8;
  ok_cs_distinct : distinct4 CS5 CS6 CS7 CS8;
  ok_parenb : PARENB <> 0;
  ok_parity_distinct : EVEN <> ODD /\ EVEN <> NONE /\ ODD <> NONE;
  ok_parity_int : INT_MIN <= NONE <= INT_MAX /\ INT_MIN <= EVEN <= INT_MAX
}.

(** The attribute sets committed with [tcsetattr], newest first. *)
Fixpoint commits (tr : list event) : list termios :=
  match tr with
  | [] => []
  | EvTcsetattr t :: tr => t :: commits tr
  | _ :: tr => commits tr
  end.

(** The line is as it was: same attributes, no [tcsetattr] issued. *)
Definition quiet (w w' : world) : Prop :=
  tty w' = tty w /\ sys w' = sys w /\
  commits (trace w') = commits (trace w).

(** Nothing changed but the log, and no [tcsetattr] was issued. *)
Definition untouched (w w' : world) : Prop :=
  quiet w w' /\ serial w' = serial w /\ iv_custom_baud w' = iv_custom_baud w.

(** The bits of [c_cflag] under the mask [k] are the same in [p] and [p']. *)
Definition keeps (k : Z) (p p' : termios) : Prop :=
  Z.land (c_cflag p') k = Z.land (c_cflag p) k.

(** The four flow-control values the validation lets through. *)
Definition valid_flow_control {P : build} (f : Z) : Prop :=
  f = NONE \/ f = SOFT \/ f = HARD \/ f = Z.lor HARD SOFT.

Definition unsupported_hard : exn :=
  rb_eIOError "Hardware flow control not supported".

(** ** Modem lines and break: the state those functions work on

    The status word of the modem lines is not part of the attributes
    above; [set_signal_impl], [get_line_signals_helper_impl] and
    [sp_break_impl] run on a state of their own, with the TIOCM_* masks
    of <sys/ioctl.h> as parameters. *)

Module Modem.

Class tiocm : Type := {
  TIOCM_RTS : Z; TIOCM_DTR : Z; TIOCM_CTS : Z;
  TIOCM_DSR : Z; TIOCM_CD : Z; TIOCM_RI : Z
}.

Inductive mevent : Type :=
| EvTIOCMGET
| EvTIOCMSET (status : Z)
| EvTcsendbreak (duration : Z).

Record lines : Type := mk_lines {
  status : Z;                (* the status word the driver holds *)
  tiocmget_ok : bool;
  tiocmset_ok : bool;
  tcsendbreak_ok : bool;
  mtrace : list mevent       (* calls issued, newest first *)
}.

Definition L (A : Type) : Type := lines -> outcome A * lines.

Definition ret {A} (a : A) : L A := fun s => (Ok a, s).
Definition rb_raise {A} (e : exn) : L A := fun s => (Raise e, s).
Definition undefined {A} (what : string) : L A :=
  fun s => (Undefined what, s).
Definition bind {A B} (m : L A) (k : A -> L B) : L B :=
  fun s =>
    match m s with
    | (Ok a, s') => k a s'
    | (Raise e, s') => (Raise e, s')
    | (Undefined u, s') => (Undefined u, s')
    end.

Notation "'let*' x ':=' c 'in' k" := (bind c (fun x => k))
  (at level 10, x pattern, c at level 100, k at level 200).

Definition mlog (e : mevent) (s : lines) : lines :=
  mk_lines (status s) (tiocmget_ok s) (tiocmset_ok s) (tcsendbreak_ok s)
           (e :: mtrace s).

(** [ioctl(fd, TIOCMGET, &status)]: [None] stands for -1. *)
Definition ioctl_TIOCMGET : L (option Z) :=
  fun s =>
    (Ok (if tiocmget_ok s then Some (status s) else None), mlog EvTIOCMGET s).

(** [ioctl(fd, TIOCMSET, &status)]: on success the driver holds the word
    it was given. *)
Definition ioctl_TIOCMSET (st : Z) : L bool :=
  fun s =>
    if tiocmset_ok s
    then (Ok true,
          mk_lines st (tiocmget_ok s) (tiocmset_ok s) (tcsendbreak_ok s)
                   (EvTIOCMSET st :: mtrace s))
    else (Ok false, mlog (EvTIOCMSET st) s).

Definition tcsendbreak (duration : Z) : L bool :=
  fun s => (Ok (tcsendbreak_ok s), mlog (EvTcsendbreak duration) s).

Definition sIoctl : string := "ioctl".

Definition Check_Type (v : VALUE) (t : rtype) : L unit :=
  if rtype_eqb (TYPE v) t then ret tt
  else rb_raise (rb_eTypeError "wrong argument type").

Definition FIX2INT (v : VALUE) : L Z :=
  match v with
  | Fixnum n =>
      if (INT_MIN <=? n) && (n <=? INT_MAX) then ret n
      else rb_raise (rb_eRangeError "integer too big to convert to int")
  | _ => undefined "FIX2INT of a non-Fixnum"
  end.

Section WithMasks.
Context {T : tiocm}.

Record line_signals : Type := mk_line_signals {
  rts : Z; dtr : Z; cts : Z; dsr : Z; dcd : Z; ri : Z
}.

Definition get_line_signals_helper_impl (obj : VALUE) : L line_signals :=
  let* r := ioctl_TIOCMGET in
  match r with
  | None => rb_raise (rb_sys_fail sIoctl)
  | Some status =>
      ret (mk_line_signals
             (if tst status TIOCM_RTS then 1 else 0)
             (if tst status TIOCM_DTR then 1 else 0)
             (if tst status TIOCM_CTS then 1 else 0)
             (if tst status TIOCM_DSR then 1 else 0)
             (if tst status TIOCM_CD then 1 else 0)
             (if tst status TIOCM_RI then 1 else 0))
  end.

Definition set_signal_impl (obj val : VALUE) (sig : Z) : L VALUE :=
  let* _ := Check_Type val T_FIXNUM in
  let* r := ioctl_TIOCMGET in
  match r with
  | None => rb_raise (rb_sys_fail sIoctl)
  | Some status =>
      let* set := FIX2INT val in
      let* status :=
        if set =? 0 then ret (Z.land status (Z.lnot sig))
        else if set =? 1 then ret (Z.lor status sig)
        else rb_raise (rb_eArgError "invalid value") in
      let* ok := ioctl_TIOCMSET status in
      if negb ok then rb_raise (rb_sys_fail sIoctl) else ret val
  end.

Definition sp_set_rts_impl (self val : VALUE) : L VALUE :=
  set_signal_impl self val TIOCM_RTS.

Definition sp_set_dtr_impl (self val : VALUE) : L VALUE :=
  set_signal_impl self val TIOCM_DTR.

Definition sp_get_rts_impl (self : VALUE) : L VALUE :=
  let* ls := get_line_signals_helper_impl self in
  ret (INT2FIX (rts ls)).

Definition sp_get_dtr_impl (self : VALUE) : L VALUE :=
  let* ls := get_line_signals_helper_impl self in
  ret (INT2FIX (dtr ls)).

(** [FIX2INT(time) / 3] is C's division, truncating toward zero. *)
Definition sp_break_impl (self time : VALUE) : L VALUE :=
  let* _ := Check_Type time T_FIXNUM in
  let* t := FIX2INT time in
  let* ok := tcsendbreak (Z.quot t 3) in
  if negb ok then rb_raise (rb_sys_fail "tcsendbreak") else ret Qnil.

End WithMasks.

(** The masks of Linux. *)
Definition linux_tiocm : tiocm := {|
  TIOCM_RTS := 4; TIOCM_DTR := 2; TIOCM_CTS := 32;
  TIOCM_DSR := 256; TIOCM_CD := 64; TIOCM_RI := 128
|}.

(** Lines with DTR and CTS up, every call working. *)
Definition lines0 : lines := mk_lines (2 + 32) true true true [].

End Modem.

(** ** Descriptors held after a run of [sp_create_impl] *)

(** The descriptors opened and not closed by the calls of a log (newest
    first), given which [open] calls succeed. *)
Fixpoint held (o : oracle) (tr : list event) : Z :=
  match tr with
  | [] => 0
  | EvOpen path :: tr => held o tr + (if open_ok o path then 1 else 0)
  | EvClose :: tr => held o tr - 1
  | _ :: tr => held o tr
  end.

(** The raw baseline [sp_create_impl] writes over the attributes it
    read. *)
Definition raw_baseline {P : build} (params : termios) : termios :=
  mk_termios
    (Z.land (c_iflag params) (Z.lor (Z.lor IXON IXOFF) IXANY))
    0
    (Z.land (Z.lor (c_cflag params) (Z.lor CLOCAL CREAD)) (Z.lnot HUPCL))
    0
    (c_cc params) (c_ispeed params) (c_ospeed params).

(** The header masks [sp_create_impl] sets or clears lie outside the
    framing and flow-control masks. *)
Record create_ok (P : build) : Prop := {
  ok_hupcl_local : Z.land HUPCL (Z.lor CLOCAL CREAD) = 0;
  ok_hupcl_frame :
    Z.land HUPCL CSIZE = 0 /\ Z.land HUPCL CSTOPB = 0 /\
    Z.land HUPCL PARENB = 0 /\ Z.land HUPCL PARODD = 0;
  ok_local_frame :
    Z.land (Z.lor CLOCAL CREAD) CSIZE = 0 /\
    Z.land (Z.lor CLOCAL CREAD) CSTOPB = 0 /\
    Z.land (Z.lor CLOCAL CREAD) PARENB = 0 /\
    Z.land (Z.lor CLOCAL CREAD) PARODD = 0;
  ok_create_crtscts : forall crtscts, CRTSCTS = Some crtscts ->
    Z.land HUPCL crtscts = 0 /\ Z.land (Z.lor CLOCAL CREAD) crtscts = 0
}.

(** The five fields inspection decodes from the attributes alone. *)
Definition decoded {P : build} (params : termios) : Z * Z * Z * Z * Z :=
  (decode_data_bits params,
   if tst (c_cflag params) CSTOPB then 2 else 1,
   decode_parity params,
   decode_flow_control params,
   decode_read_timeout params).

(** What a read-back of a requested timeout gives, for any request. *)
Definition read_back (t : Z) : Z :=
  if t <? 0 then -1
  else if t =? 0 then 0
  else
    let vtime := (Z.quot (t + 50) 100) mod 256 in
    if vtime =? 0 then -1 else vtime * 100.

(** What the flow-control round trip needs of the constants: [NONE] is
    0, [HARD] and [SOFT] are distinct bits, the masks they switch are not
    empty. *)
Record flow_ok (P : build) : Prop := {
  ok_none : NONE = 0;
  ok_hard : HARD <> 0;
  ok_soft : SOFT <> 0;
  ok_hard_soft : Z.land HARD SOFT = 0;
  ok_ixmask : Z.lor (Z.lor IXON IXOFF) IXANY <> 0;
  ok_crtscts_nz : forall crtscts, CRTSCTS = Some crtscts -> crtscts <> 0
}.

(** [setFlowControl(f); getFlowControl()]: the number read back, when
    both calls return. *)
Definition flow_control_round_trip {P : build} (self : VALUE) (f : Z)
    (w : world) : option Z :=
  match sp_set_flow_control_impl self (Fixnum f) w with
  | (Ok _, w1) =>
      match sp_get_flow_control_impl self w1 with
      | (Ok (Fixnum n), _) => Some n
      | _ => None
      end
  | _ => None
  end.

(** A line that is not a terminal, and one whose [tcsetattr] fails. *)
Definition not_a_tty : oracle :=
  mk_oracle (fun _ => true) false true true true true true true.
Definition linux_w_file : world :=
  mk_world linux_tty_7O2 (mk_serial 0 0 24000000) Qnil not_a_tty [].

(** GNU/Linux with Ruby 1.8 ([RUBY_1_9] not defined), and a session in
    which every system call succeeds but [fdopen] finds no stream. *)
Definition linux_ruby18_build : build := {|
  os := OS_LINUX; RUBY_1_9 := false;
  B50 := 1; B75 := 2; B110 := 3; B134 := 4; B150 := 5; B200 := 6;
  B300 := 7; B600 := 8; B1200 := 9; B1800 := 10; B2400 := 11;
  B4800 := 12; B9600 := 13; B19200 := 14; B38400 := 15;
  B57600 := Some 4097; B76800 := None; B115200 := Some 4098;
  B230400 := Some 4099;
  CSIZE := 48; CS5 := 0; CS6 := 16; CS7 := 32; CS8 := 48;
  CSTOPB := 64; PARENB := 256; PARODD := 512;
  CRTSCTS := Some 2147483648;
  CLOCAL := 2048; CREAD := 128; HUPCL := 1024;
  IXON := 1024; IXOFF := 4096; IXANY := 2048;
  VTIME := 5%nat; VMIN := 6%nat;
  ASYNC_SPD_MASK := 4144; ASYNC_SPD_CUST := 48;
  NONE := 0; HARD := 2; SOFT := 1; EVEN := 1; ODD := 2
|}.
Definition no_stream : oracle :=
  mk_oracle (fun _ => true) true true true true true true false.
(** A line as a login session leaves it: ICRNL and IXON, OPOST and
    ONLCR, CS8 with CREAD and HUPCL, canonical mode with echo. *)
Definition linux_tty_cooked : termios :=
  mk_termios (256 + 1024) 5 (48 + 128 + 1024) 35387 (replicate 32 0) 13 13.
Definition linux_w_no_stream : world :=
  mk_world linux_tty_cooked (mk_serial 0 0 24000000) Qnil no_stream [].

(** The [TIOCMSET] calls of a log. *)
Fixpoint modem_writes (tr : list Modem.mevent) : list Z :=
  match tr with
  | [] => []
  | Modem.EvTIOCMSET st :: tr => st :: modem_writes tr
  | _ :: tr => modem_writes tr
  end.
(** ** Bit masks *)

Section Masks.

Lemma disjoint_bits m k n :
  Z.land m k = 0 -> Z.testbit m n && Z.testbit k n = false.
Proof.
  intros H. rewrite <- Z.land_spec, H. apply Z.bits_0.
Qed.

Lemma submask_bits a m n :
  Z.land a m = a -> Z.testbit a n = true -> Z.testbit m n = true.
Proof.
  intros H Ha. rewrite <- H, Z.land_spec in Ha.
  apply andb_true_iff in Ha. tauto.
Qed.

Lemma land_set_keep c m k :
  Z.land m k = 0 -> Z.land (Z.lor c m) k = Z.land c k.
Proof.
  intros H. apply Z.bits_inj'. intros n _.
  rewrite !Z.land_spec, Z.lor_spec.
  pose proof (disjoint_bits m k n H).
  destruct (Z.testbit c n), (Z.testbit m n), (Z.testbit k n);
    simpl in *; congruence.
Qed.

Lemma land_clear_keep c m k :
  Z.land m k = 0 -> Z.land (Z.land c (Z.lnot m)) k = Z.land c k.
Proof.
  intros H. apply Z.bits_inj'. intros n Hn.
  rewrite !Z.land_spec, Z.lnot_spec by assumption.
  pose proof (disjoint_bits m k n H).
  destruct (Z.testbit c n), (Z.testbit m n), (Z.testbit k n);
    simpl in *; congruence.
Qed.

Lemma land_set_self c m : Z.land (Z.lor c m) m = m.
Proof.
  apply Z.bits_inj'. intros n _. rewrite Z.land_spec, Z.lor_spec.
  destruct (Z.testbit c n), (Z.testbit m n); reflexivity.
Qed.

Lemma land_clear_self c m : Z.land (Z.land c (Z.lnot m)) m = 0.
Proof.
  apply Z.bits_inj'. intros n Hn.
  rewrite !Z.land_spec, Z.lnot_spec, Z.bits_0 by assumption.
  destruct (Z.testbit c n), (Z.testbit m n); reflexivity.
Qed.

Lemma submask_disjoint a m k :
  Z.land a m = a -> Z.land m k = 0 -> Z.land a k = 0.
Proof.
  intros Ha H. apply Z.bits_inj'. intros n _.
  rewrite Z.land_spec, Z.bits_0.
  pose proof (disjoint_bits m k n H).
  pose proof (submask_bits a m n Ha).
  destruct (Z.testbit a n), (Z.testbit m n), (Z.testbit k n);
    simpl in *; try congruence.
  all: discriminate (H1 eq_refl).
Qed.

(** [c &= ~mask; c |= v] leaves exactly [v] under the mask. *)
Lemma land_replace c mask v :
  Z.land v mask = v -> Z.land (Z.lor (Z.land c (Z.lnot mask)) v) mask = v.
Proof.
  intros Hv. apply Z.bits_inj'. intros n Hn.
  rewrite Z.land_spec, Z.lor_spec, Z.land_spec, Z.lnot_spec by assumption.
  pose proof (submask_bits v mask n Hv).
  destruct (Z.testbit c n), (Z.testbit mask n), (Z.testbit v n);
    simpl in *; try reflexivity.
  all: discriminate (H eq_refl).
Qed.

End Masks.

(** ** Reasoning about runs *)

Section Runs.

Lemma bind_Ok {A B} (m : M A) (k : A -> M B) w b w' :
  bind m k w = (Ok b, w') ->
  exists a w1, m w = (Ok a, w1) /\ k a w1 = (Ok b, w').
Proof.
  unfold bind. destruct (m w) as [[a | e | u] w1]; intros H; try discriminate.
  eauto.
Qed.

Lemma bind_run {A B} (m : M A) (k : A -> M B) w a w1 :
  m w = (Ok a, w1) -> bind m k w = k a w1.
Proof. unfold bind. intros ->. reflexivity. Qed.

Lemma bind_Raise {A B} (m : M A) (k : A -> M B) w e w1 :
  m w = (Raise e, w1) -> bind m k w = (Raise e, w1).
Proof. unfold bind. intros ->. reflexivity. Qed.

Context (R : relation world) `{!Reflexive R} `{!Transitive R}.

Lemma preserves_ret {A} (a : A) : preserves R (ret a).
Proof. intros w r w' [= _ <-]. reflexivity. Qed.

Lemma preserves_raise {A} e : preserves R (@rb_raise A e).
Proof. intros w r w' [= _ <-]. reflexivity. Qed.

Lemma preserves_undefined {A} u : preserves R (@undefined A u).
Proof. intros w r w' [= _ <-]. reflexivity. Qed.

Lemma preserves_bind {A B} (m : M A) (k : A -> M B) :
  preserves R m -> (forall a, preserves R (k a)) -> preserves R (bind m k).
Proof.
  intros Hm Hk w r w'. unfold bind.
  destruct (m w) as [[a | e | u] w1] eqn:E; intros H.
  - transitivity w1; [eapply Hm | eapply Hk]; eassumption.
  - injection H as _ <-. eapply Hm; eassumption.
  - injection H as _ <-. eapply Hm; eassumption.
Qed.

Lemma preserves_if {A} (b : bool) (m1 m2 : M A) :
  preserves R m1 -> preserves R m2 -> preserves R (if b then m1 else m2).
Proof. destruct b; auto. Qed.

End Runs.

(** ** Opening a port by number *)

Section Create.
Context {P : build}.

Lemma ports_count_8 : ports_count = 8.
Proof. unfold ports_count, ports. destruct os; reflexivity. Qed.

Lemma ports_lookup_8 : ports !! 8%nat = None.
Proof. unfold ports. destruct os; reflexivity. Qed.

Lemma ports_lookup_lt n : (n < 8)%nat -> is_Some (ports !! n).
Proof.
  intros H. apply lookup_lt_is_Some.
  pose proof ports_count_8 as E. unfold ports_count in E. lia.
Qed.

(** The guard of [sp_create_impl] rejects a number exactly when it is
    negative or above 8. *)
Lemma select_port_raises_iff n w :
  INT_MIN <= n <= INT_MAX ->
  select_port (Fixnum n) w = (Raise (rb_eArgError "illegal port number"), w)
  <-> n < 0 \/ 8 < n.
Proof.
  intros Hn. unfold select_port, FIX2INT. simpl TYPE. cbv iota.
  assert (Hr : (INT_MIN <=? n) && (n <=? INT_MAX) = true).
  { apply andb_true_iff. split; apply Z.leb_le; lia. }
  rewrite Hr. unfold bind, ret. rewrite ports_count_8.
  destruct (n <? 0) eqn:E0; simpl.
  { apply Z.ltb_lt in E0. split; [intros _; lia | reflexivity]. }
  apply Z.ltb_ge in E0.
  assert (Hs : size_t n = n).
  { unfold size_t. apply Z.mod_small. unfold INT_MAX in Hn. lia. }
  rewrite Hs.
  destruct (8 <? n) eqn:E8.
  { apply Z.ltb_lt in E8. split; [intros _; lia | reflexivity]. }
  apply Z.ltb_ge in E8.
  split; [| lia].
  destruct (ports !! Z.to_nat n); discriminate.
Qed.

Lemma select_port_in_bounds n w :
  0 <= n < 8 ->
  exists port, ports !! Z.to_nat n = Some port /\
               select_port (Fixnum n) w = (Ok port, w).
Proof.
  intros Hn. destruct (ports_lookup_lt (Z.to_nat n)) as [port Hp]; [lia |].
  exists port. split; [exact Hp |].
  unfold select_port, FIX2INT. simpl TYPE. cbv iota.
  assert (Hr : (INT_MIN <=? n) && (n <=? INT_MAX) = true).
  { apply andb_true_iff. unfold INT_MIN, INT_MAX.
    split; apply Z.leb_le; lia. }
  rewrite Hr. unfold bind, ret. rewrite ports_count_8.
  assert (Hs : size_t n = n) by (unfold size_t; apply Z.mod_small; lia).
  rewrite Hs.
  replace (n <? 0) with false by (symmetry; apply Z.ltb_ge; lia).
  replace (8 <? n) with false by (symmetry; apply Z.ltb_ge; lia).
  simpl. rewrite Hp. reflexivity.
Qed.

(** C1 (defect in the code): the port number 8 is one past the 8-entry
    table, yet the guard [num_port > sizeof(ports) / sizeof(ports[0])]
    lets it through: no error is raised and [ports[8]] is read outside
    the array, on every build and before any system call. *)
Theorem sp_create_impl_port_8_unchecked (klass : VALUE) (w : world) :
  ports_count = 8 /\
  (8 <? 0) || (ports_count <? size_t 8) = false /\
  ports !! 8%nat = None /\
  sp_create_impl klass (Fixnum 8) w
  = (Undefined "ports[num_port] read past the end of ports", w).
Proof.
  split; [apply ports_count_8 |].
  split; [rewrite ports_count_8; reflexivity |].
  split; [apply ports_lookup_8 |].
  unfold sp_create_impl, select_port, ports_count, ports.
  destruct os; reflexivity.
Qed.

End Create.

(** ** Configure with no argument *)

(** C10: with [argc == 0] the function returns [self] at once: the world
    (line attributes, serial_struct, cached rate, log of system calls) is
    the one it started from. *)
Theorem sp_set_modem_params_impl_no_args {P : build} (self : VALUE)
    (w : world) :
  sp_set_modem_params_impl [] self w = (Ok self, w).
Proof. reflexivity. Qed.

(** ** The custom-rate getter and the inspection of a line *)

Section Inspect.
Context {P : build}.

Lemma FIX2INT_fits n w :
  INT_MIN <= n <= INT_MAX -> FIX2INT (Fixnum n) w = (Ok n, w).
Proof.
  intros H. unfold FIX2INT.
  replace ((INT_MIN <=? n) && (n <=? INT_MAX)) with true; [reflexivity |].
  symmetry. apply andb_true_iff. split; apply Z.leb_le; lia.
Qed.

(** What the Linux getter returns, in one equation. *)
Lemma Linux_get_custom_baud_rate_eq w :
  Linux.get_custom_baud_rate w
  = (Ok (if tiocgserial_ok (sys w)
            && tst (flags (serial w)) ASYNC_SPD_CUST
            && (0 <? custom_divisor (serial w))
         then Z.quot (baud_base (serial w)) (custom_divisor (serial w))
         else 0),
     log EvTIOCGSERIAL w).
Proof.
  unfold Linux.get_custom_baud_rate, bind, ioctl_TIOCGSERIAL.
  destruct (tiocgserial_ok (sys w)); [| reflexivity].
  simpl. destruct (tst (flags (serial w)) ASYNC_SPD_CUST); [| reflexivity].
  simpl. destruct (0 <? custom_divisor (serial w)); reflexivity.
Qed.

Lemma Darwin_get_custom_baud_rate_Ok self w :
  iv_fits w -> exists n, Darwin.get_custom_baud_rate self w = (Ok n, w).
Proof.
  unfold iv_fits, Darwin.get_custom_baud_rate, bind, rb_iv_get_custom_baud.
  destruct (iv_custom_baud w) as [| n | | | |]; simpl; intros H;
    try (eexists; reflexivity).
  exists n. apply FIX2INT_fits, H.
Qed.

(** Whatever the line's attributes, inspection returns once [tcgetattr]
    works, and the five fields after the rate are decoded from them. *)
Lemma get_modem_params_impl_Ok self mp0 w :
  tcgetattr_ok (sys w) = true -> iv_fits w ->
  exists rate w',
    get_modem_params_impl self mp0 w
    = (Ok (mk_modem_params rate
             (decode_data_bits (tty w))
             (if tst (c_cflag (tty w)) CSTOPB then 2 else 1)
             (decode_parity (tty w))
             (decode_flow_control (tty w))
             (decode_read_timeout (tty w))), w')
    /\ tty w' = tty w.
Proof.
  intros Hg Hiv. unfold get_modem_params_impl, bind at 1, tcgetattr.
  rewrite Hg.
  destruct (std_rate (cfgetospeed (tty w))) as [rate |] eqn:Es.
  - do 2 eexists. split; reflexivity.
  - destruct is_linux.
    + unfold bind. rewrite Linux_get_custom_baud_rate_eq.
      do 2 eexists. split; reflexivity.
    + destruct is_darwin.
      * destruct (Darwin_get_custom_baud_rate_Ok self (log EvTcgetattr w))
          as [n Hn]; [exact Hiv |].
        unfold bind. rewrite Hn. do 2 eexists. split; reflexivity.
      * do 2 eexists. split; reflexivity.
Qed.

(** C8: on Linux the custom-rate getter always returns, never raises: 0
    when TIOCGSERIAL fails, when the ASYNC_SPD_CUST test is zero or when
    the divisor is not positive, and baud_base / custom_divisor
    otherwise.  Hence, when the speed of the line is none of the standard
    constants and no custom rate can be recovered, inspection returns a
    [data_rate] of 0. *)
Theorem get_custom_baud_rate_total (self : VALUE) (mp0 : modem_params)
    (w : world) :
  (exists n,
      Linux.get_custom_baud_rate w = (Ok n, log EvTIOCGSERIAL w) /\
      (tiocgserial_ok (sys w) = false -> n = 0) /\
      (tst (flags (serial w)) ASYNC_SPD_CUST = false -> n = 0) /\
      (custom_divisor (serial w) <= 0 -> n = 0) /\
      (tiocgserial_ok (sys w) = true ->
       tst (flags (serial w)) ASYNC_SPD_CUST = true ->
       0 < custom_divisor (serial w) ->
       n = Z.quot (baud_base (serial w)) (custom_divisor (serial w)))) /\
  (is_linux = true ->
   tcgetattr_ok (sys w) = true ->
   std_rate (cfgetospeed (tty w)) = None ->
   tiocgserial_ok (sys w) = false
   \/ tst (flags (serial w)) ASYNC_SPD_CUST = false
   \/ custom_divisor (serial w) <= 0 ->
   exists mp w',
     get_modem_params_impl self mp0 w = (Ok mp, w') /\ data_rate mp = 0).
Proof.
  split.
  - eexists. split; [apply Linux_get_custom_baud_rate_eq |].
    repeat split.
    + intros ->. reflexivity.
    + intros ->. rewrite andb_false_r. reflexivity.
    + intros H. replace (0 <? custom_divisor (serial w)) with false.
      * rewrite andb_false_r. reflexivity.
      * symmetry. apply Z.ltb_ge. exact H.
    + intros -> -> H. apply Z.ltb_lt in H. rewrite H. reflexivity.
  - intros Hl Hg Hs Hno.
    unfold get_modem_params_impl, bind at 1, tcgetattr.
    rewrite Hg, Hs, Hl. unfold bind.
    rewrite Linux_get_custom_baud_rate_eq.
    do 2 eexists. split; [reflexivity |]. simpl.
    destruct Hno as [H | [H | H]].
    + rewrite H. reflexivity.
    + rewrite H, andb_false_r. reflexivity.
    + replace (0 <? custom_divisor (serial w)) with false.
      * rewrite andb_false_r. reflexivity.
      * symmetry. apply Z.ltb_ge. exact H.
Qed.

(** C9: inspection reports the data bits by comparing the CSIZE bits of
    the line with CS5, CS6, CS7 and CS8: 0 when they match none of the
    four, and otherwise 5, 6, 7 or 8 for the constant they match. *)
Theorem get_modem_params_impl_data_bits (self : VALUE) (mp0 : modem_params)
    (w : world) :
  distinct4 CS5 CS6 CS7 CS8 ->
  tcgetattr_ok (sys w) = true ->
  iv_fits w ->
  exists mp w',
    get_modem_params_impl self mp0 w = (Ok mp, w') /\
    let cs := Z.land (c_cflag (tty w)) CSIZE in
    (cs <> CS5 /\ cs <> CS6 /\ cs <> CS7 /\ cs <> CS8 -> data_bits mp = 0) /\
    (cs = CS5 -> data_bits mp = 5) /\
    (cs = CS6 -> data_bits mp = 6) /\
    (cs = CS7 -> data_bits mp = 7) /\
    (cs = CS8 -> data_bits mp = 8).
Proof.
  intros (H56 & H57 & H58 & H67 & H68 & H78) Hg Hiv.
  destruct (get_modem_params_impl_Ok self mp0 w Hg Hiv)
    as (rate & w' & E & _).
  do 2 eexists. split; [exact E |]. simpl. unfold decode_data_bits.
  set (cs := Z.land (c_cflag (tty w)) CSIZE).
  destruct (Z.eqb_spec cs CS5), (Z.eqb_spec cs CS6), (Z.eqb_spec cs CS7),
    (Z.eqb_spec cs CS8); repeat split; intros; try tauto; congruence.
Qed.

End Inspect.

(** With the constants of Linux and of Darwin the four character sizes
    are all the values the CSIZE bits can take: the [default:] of the
    data-bits switch is not reached there. *)
Lemma below_forallb (f : Z -> bool) (N : nat) :
  forallb f (map Z.of_nat (seq 0 N)) = true ->
  forall x, 0 <= x < Z.of_nat N -> f x = true.
Proof.
  intros H x Hx. rewrite forallb_forall in H. apply H.
  replace x with (Z.of_nat (Z.to_nat x)) by lia.
  apply in_map, in_seq. lia.
Qed.

Lemma linux_csize_exhausted c :
  let cs := Z.land c (CSIZE (build := linux_build)) in
  cs = 0 \/ cs = 16 \/ cs = 32 \/ cs = 48.
Proof.
  simpl.
  assert (E : Z.land c 48 = Z.land (c mod 64) 48).
  { change 64 with (2 ^ 6). rewrite <- Z.land_ones by lia.
    rewrite <- Z.land_assoc. reflexivity. }
  rewrite E.
  pose proof (below_forallb
                (fun x => let cs := Z.land x 48 in
                          (cs =? 0) || (cs =? 16) || (cs =? 32) || (cs =? 48))
                64 eq_refl (c mod 64)) as H.
  simpl in H. specialize (H ltac:(apply Z.mod_pos_bound; lia)).
  repeat (apply orb_true_iff in H; destruct H as [H | H]);
    apply Z.eqb_eq in H; auto.
Qed.

Lemma darwin_csize_exhausted c :
  let cs := Z.land c (CSIZE (build := darwin_build)) in
  cs = 0 \/ cs = 256 \/ cs = 512 \/ cs = 768.
Proof.
  simpl.
  assert (E : Z.land c 768 = Z.land (c mod 1024) 768).
  { change 1024 with (2 ^ 10). rewrite <- Z.land_ones by lia.
    rewrite <- Z.land_assoc. reflexivity. }
  rewrite E.
  pose proof (below_forallb
                (fun x => let cs := Z.land x 768 in
                          (cs =? 0) || (cs =? 256) || (cs =? 512)
                          || (cs =? 768))
                1024 eq_refl (c mod 1024)) as H.
  simpl in H. specialize (H ltac:(apply Z.mod_pos_bound; lia)).
  repeat (apply orb_true_iff in H; destruct H as [H | H]);
    apply Z.eqb_eq in H; auto.
Qed.

Lemma get_custom_baud_rate_total_witness :
  exists mp w',
    get_modem_params_impl (P := linux_build) a_port
      (mk_modem_params 7 7 7 7 7 7)
      (put_tty (cfsetospeed 4100 linux_tty0) linux_w0) = (Ok mp, w')
    /\ data_rate mp = 0.
Proof.
  apply (get_custom_baud_rate_total (P := linux_build)); try reflexivity.
  right. left. reflexivity.
Defined.

Lemma get_modem_params_impl_data_bits_witness :
  exists mp w',
    get_modem_params_impl (P := linux_build) a_port
      (mk_modem_params 0 0 0 0 0 0) linux_w_7O2 = (Ok mp, w') /\
    let cs := Z.land (c_cflag (tty linux_w_7O2)) (CSIZE (build := linux_build)) in
    (cs <> 0 /\ cs <> 16 /\ cs <> 32 /\ cs <> 48 -> data_bits mp = 0) /\
    (cs = 0 -> data_bits mp = 5) /\
    (cs = 16 -> data_bits mp = 6) /\
    (cs = 32 -> data_bits mp = 7) /\
    (cs = 48 -> data_bits mp = 8).
Proof.
  apply (get_modem_params_impl_data_bits (P := linux_build)).
  - unfold distinct4. simpl. lia.
  - reflexivity.
  - exact I.
Defined.

(** ** The read-timeout mapper *)

Section ReadTimeout.
Context {P : build}.

Lemma get_cc_set_cc_eq i v t :
  (i < length (c_cc t))%nat -> get_cc i (set_cc i v t) = cc_t v.
Proof.
  intros H. unfold get_cc, set_cc. simpl.
  rewrite list_lookup_insert_eq by exact H. reflexivity.
Qed.

Lemma get_cc_set_cc_ne i j v t :
  i <> j -> get_cc j (set_cc i v t) = get_cc j t.
Proof.
  intros H. unfold get_cc, set_cc. simpl.
  rewrite list_lookup_insert_ne by exact H. reflexivity.
Qed.

Lemma length_cc_set_cc i v t : length (c_cc (set_cc i v t)) = length (c_cc t).
Proof. unfold set_cc. simpl. apply length_insert. Qed.

(** The timeout chain computes on [params] alone, and returns unless
    the sum overflows. *)
Lemma apply_read_timeout_runs timeout params w :
  timeout + 50 <= INT_MAX ->
  exists params', apply_read_timeout timeout params w = (Ok params', w).
Proof.
  intros Hb. unfold apply_read_timeout.
  destruct (timeout <? 0); [eexists; reflexivity |].
  destruct (timeout =? 0); [eexists; reflexivity |].
  replace (INT_MAX <? timeout + 50) with false
    by (symmetry; apply Z.ltb_ge; exact Hb).
  eexists; reflexivity.
Qed.

Lemma apply_read_timeout_overflow timeout params w :
  INT_MAX < timeout + 50 -> 0 < timeout ->
  apply_read_timeout timeout params w
  = (Undefined "read_timeout + 50 overflows int", w).
Proof.
  intros Hb Hp. unfold apply_read_timeout.
  replace (timeout <? 0) with false by (symmetry; apply Z.ltb_ge; lia).
  replace (timeout =? 0) with false by (symmetry; apply Z.eqb_neq; lia).
  replace (INT_MAX <? timeout + 50) with true
    by (symmetry; apply Z.ltb_lt; exact Hb).
  reflexivity.
Qed.

(** The two timing fields after the timeout chain. *)
Lemma apply_read_timeout_fields timeout params w params' w' :
  VTIME <> VMIN ->
  (VTIME < length (c_cc params))%nat ->
  (VMIN < length (c_cc params))%nat ->
  apply_read_timeout timeout params w = (Ok params', w') ->
  w' = w
  /\ (0 < timeout -> timeout + 50 <= INT_MAX)
  /\ get_cc VTIME params'
     = (if timeout <? 0 then 0
        else if timeout =? 0 then 0
        else cc_t (Z.quot (timeout + 50) 100))
  /\ get_cc VMIN params' = (if timeout <? 0 then 0
                            else if timeout =? 0 then cc_t 1 else 0).
Proof.
  intros Hne Ht Hm. unfold apply_read_timeout.
  destruct (Z.ltb_spec timeout 0); [| destruct (Z.eqb_spec timeout 0);
    [| destruct (Z.ltb_spec INT_MAX (timeout + 50)); [discriminate |]]].
  all: intros [= <- <-]; split; [reflexivity |]; split; [lia |].
  all: split;
     [ rewrite get_cc_set_cc_ne by congruence;
       rewrite get_cc_set_cc_eq by exact Ht; reflexivity
     | rewrite get_cc_set_cc_eq by (rewrite length_cc_set_cc; exact Hm);
       reflexivity ].
Qed.

(** What the chain leaves alone: the flag words, the speeds and every
    slot of [c_cc] but the two timing ones. *)
Lemma apply_read_timeout_keeps timeout params w params' w' :
  apply_read_timeout timeout params w = (Ok params', w') ->
  c_iflag params' = c_iflag params /\
  c_oflag params' = c_oflag params /\
  c_cflag params' = c_cflag params /\
  c_lflag params' = c_lflag params /\
  c_ispeed params' = c_ispeed params /\
  c_ospeed params' = c_ospeed params /\
  (forall i, i <> VTIME -> i <> VMIN -> c_cc params' !! i = c_cc params !! i)
  /\ length (c_cc params') = length (c_cc params).
Proof.
  unfold apply_read_timeout.
  destruct (timeout <? 0); [| destruct (timeout =? 0);
    [| destruct (INT_MAX <? timeout + 50); [discriminate |]]].
  all: intros [= <- <-]; simpl; repeat split;
    try (intros i H1 H2; rewrite !list_lookup_insert_ne by congruence;
         reflexivity);
    rewrite !length_insert; reflexivity.
Qed.

(** The decoded timeout of a line just written by the chain. *)
Lemma decode_apply_read_timeout timeout params w params' w' :
  VTIME <> VMIN ->
  (VTIME < length (c_cc params))%nat ->
  (VMIN < length (c_cc params))%nat ->
  INT_MIN <= timeout ->
  timeout <= 0 \/ 50 <= timeout < 25550 ->
  apply_read_timeout timeout params w = (Ok params', w') ->
  decode_read_timeout params' = normalize timeout.
Proof.
  intros Hne Ht Hm Hlo Hr Ha.
  destruct (apply_read_timeout_fields _ _ _ _ _ Hne Ht Hm Ha)
    as (_ & _ & Et & Em).
  unfold decode_read_timeout, normalize. rewrite Et, Em.
  destruct (Z.ltb_spec timeout 0); [reflexivity |].
  destruct (Z.eqb_spec timeout 0); [reflexivity |].
  rewrite Z.quot_div_nonneg by lia.
  assert (1 <= (timeout + 50) / 100 < 256).
  { split.
    - apply Z.div_le_lower_bound; lia.
    - apply Z.div_lt_upper_bound; lia. }
  unfold cc_t. rewrite Z.mod_small by lia.
  replace ((timeout + 50) / 100 =? 0) with false
    by (symmetry; apply Z.eqb_neq; lia).
  reflexivity.
Qed.

(** A request of 1 to 49 ms stores VTIME = 0 and VMIN = 0, the encoding
    of a negative request, and reads back as -1. *)
Lemma decode_apply_read_timeout_below_50 timeout params w params' w' :
  VTIME <> VMIN ->
  (VTIME < length (c_cc params))%nat ->
  (VMIN < length (c_cc params))%nat ->
  0 < timeout < 50 ->
  apply_read_timeout timeout params w = (Ok params', w') ->
  decode_read_timeout params' = -1.
Proof.
  intros Hne Ht Hm Hr Ha.
  destruct (apply_read_timeout_fields _ _ _ _ _ Hne Ht Hm Ha)
    as (_ & _ & Et & Em).
  unfold decode_read_timeout. rewrite Et, Em.
  replace (timeout <? 0) with false by (symmetry; apply Z.ltb_ge; lia).
  replace (timeout =? 0) with false by (symmetry; apply Z.eqb_neq; lia).
  rewrite Z.quot_div_nonneg by lia.
  rewrite Z.div_small by lia. reflexivity.
Qed.

(** C3, amended: for every request [t] that is at most 0 or between 50
    and 25549 (so for -1, 0, 50, 100, 250 and 1000), setting the read
    timeout and reading it back returns [normalize t]: -1 for a negative
    request, 0 for 0, and [(t+50)/100*100] for a positive one; and
    [normalize 50] is 100, [normalize 250] is 300. *)
Theorem read_timeout_round_trip_normalize (self : VALUE) (t : Z) (w : world) :
  VTIME <> VMIN ->
  (VTIME < length (c_cc (tty w)))%nat ->
  (VMIN < length (c_cc (tty w)))%nat ->
  tcgetattr_ok (sys w) = true ->
  tcsetattr_ok (sys w) = true ->
  INT_MIN <= t ->
  t <= 0 \/ 50 <= t < 25550 ->
  (exists w1 w2,
      sp_set_read_timeout_impl self (Fixnum t) w = (Ok (Fixnum t), w1) /\
      sp_get_read_timeout_impl self w1 = (Ok (Fixnum (normalize t)), w2)) /\
  read_timeout_round_trip self t w = Some (normalize t) /\
  normalize 50 = 100 /\ normalize 250 = 300 /\
  Forall (fun t => t <= 0 \/ 50 <= t < 25550) [-1; 0; 50; 100; 250; 1000].
Proof.
  intros Hne Ht Hm Hg Hs Hlo Hr.
  assert (Hfit : INT_MIN <= t <= INT_MAX) by (unfold INT_MAX; lia).
  destruct (apply_read_timeout_runs t (tty w) (log EvTcgetattr w))
    as (p & Ea); [unfold INT_MAX; lia |].
  assert (Eset :
    sp_set_read_timeout_impl self (Fixnum t) w
    = (Ok (Fixnum t),
       put_tty p (log (EvTcsetattr p) (log EvTcgetattr w)))).
  { unfold sp_set_read_timeout_impl.
    rewrite (bind_run _ _ w tt w) by reflexivity.
    rewrite (bind_run _ _ w t w) by (apply FIX2INT_fits; exact Hfit).
    rewrite (bind_run _ _ w (Some (tty w)) (log EvTcgetattr w))
      by (unfold tcgetattr; rewrite Hg; reflexivity).
    cbv beta iota zeta.
    rewrite (bind_run _ _ _ _ _ Ea).
    rewrite (bind_run _ _ _ true
               (put_tty p (log (EvTcsetattr p) (log EvTcgetattr w))))
      by (unfold tcsetattr; simpl; rewrite Hs; reflexivity).
    reflexivity. }
  assert (Eget : forall w1,
    tty w1 = p -> sys w1 = sys w ->
    sp_get_read_timeout_impl self w1
    = (Ok (Fixnum (normalize t)), log EvTcgetattr w1)).
  { intros w1 E1 E2.
    unfold sp_get_read_timeout_impl, bind, tcgetattr. rewrite E2, Hg, E1.
    rewrite (decode_apply_read_timeout _ _ _ _ _ Hne Ht Hm Hlo Hr Ea).
    reflexivity. }
  split; [| split].
  - do 2 eexists. split; [exact Eset |]. apply Eget; reflexivity.
  - unfold read_timeout_round_trip. rewrite Eset, Eget; reflexivity.
  - split; [reflexivity |]. split; [reflexivity |].
    repeat constructor; lia.
Qed.

End ReadTimeout.

Lemma read_timeout_round_trip_normalize_witness :
  read_timeout_round_trip (P := linux_build) a_port 250 linux_w0 = Some 300.
Proof.
  apply (read_timeout_round_trip_normalize (P := linux_build) a_port 250
           linux_w0); try reflexivity; simpl; try lia.
  unfold INT_MIN. lia.
Defined.

(** C3 as stated fails: a request of 50 ms reads back as 100, so no
    [normalize] with [normalize 50 = 0] describes the round trip on the
    listed requests. *)
Lemma read_timeout_round_trip_50 :
  ~ (exists normalize' : Z -> Z,
        normalize' 50 = 0 /\
        forall t, In t [-1; 0; 50; 100; 250; 1000] ->
          read_timeout_round_trip (P := linux_build) a_port t linux_w0
          = Some (normalize' t)).
Proof.
  intros (nz & H50 & H).
  specialize (H 50 ltac:(simpl; tauto)).
  vm_compute in H. congruence.
Qed.

(** The general form fails as well: a request of 1 ms reads back as -1,
    not as [(1+50)/100*100 = 0]. *)
Lemma read_timeout_round_trip_1 :
  read_timeout_round_trip (P := linux_build) a_port 1 linux_w0 = Some (-1)
  /\ (1 + 50) / 100 * 100 = 0.
Proof. split; reflexivity. Qed.

(** ** Configure: what a run may touch *)

#[local] Instance quiet_refl : Reflexive quiet.
Proof. intros w. repeat split. Qed.

#[local] Instance quiet_trans : Transitive quiet.
Proof.
  intros a b c (H1 & H2 & H3) (H4 & H5 & H6).
  repeat split; congruence.
Qed.

#[local] Instance untouched_refl : Reflexive untouched.
Proof. intros w. repeat split. Qed.

#[local] Instance untouched_trans : Transitive untouched.
Proof.
  intros a b c (H1 & H2 & H3) (H4 & H5 & H6).
  split; [etransitivity; eassumption | split; congruence].
Qed.

Lemma untouched_quiet {A} (m : M A) :
  preserves untouched m -> preserves quiet m.
Proof. intros H w r w' E. apply (H w r w' E). Qed.

Ltac prim :=
  let w := fresh "w" in
  let r := fresh "r" in
  let w' := fresh "w'" in
  let E := fresh "E" in
  intros w r w' E;
  repeat match type of E with
         | context [if ?b then _ else _] => destruct b
         end;
  injection E as _ <-; repeat split.

Section Quiet.
Context {P : build}.

Lemma tcgetattr_untouched : preserves untouched tcgetattr.
Proof. unfold tcgetattr. prim. Qed.

Lemma ioctl_TIOCGSERIAL_untouched : preserves untouched ioctl_TIOCGSERIAL.
Proof. unfold ioctl_TIOCGSERIAL. prim. Qed.

Lemma ioctl_TIOCSSERIAL_quiet s : preserves quiet (ioctl_TIOCSSERIAL s).
Proof. unfold ioctl_TIOCSSERIAL. prim. Qed.

Lemma ioctl_IOSSIOSPEED_untouched s : preserves untouched (ioctl_IOSSIOSPEED s).
Proof. unfold ioctl_IOSSIOSPEED. prim. Qed.

Lemma rb_iv_get_untouched : preserves untouched rb_iv_get_custom_baud.
Proof. unfold rb_iv_get_custom_baud. prim. Qed.

Lemma rb_iv_set_quiet v : preserves quiet (rb_iv_set_custom_baud v).
Proof. unfold rb_iv_set_custom_baud. prim. Qed.

Lemma Check_Type_pure v t : preserves eq (Check_Type v t).
Proof.
  unfold Check_Type. apply preserves_if;
    [apply preserves_ret | apply preserves_raise]; typeclasses eauto.
Qed.

Lemma FIX2INT_pure v : preserves eq (FIX2INT v).
Proof.
  unfold FIX2INT. destruct v;
    try (apply preserves_undefined; typeclasses eauto).
  apply preserves_if;
    [apply preserves_ret | apply preserves_raise]; typeclasses eauto.
Qed.

Lemma pure_preserves (R : relation world) `{!Reflexive R} {A} (m : M A) :
  preserves eq m -> preserves R m.
Proof. intros H w r w' E. rewrite <- (H w r w' E). reflexivity. Qed.

End Quiet.

(** Closes a goal [preserves R m] by following the shape of [m]; the
    lemmas on the functions of the file are collected as hints. *)
Create HintDb preserves discriminated.

#[export] Hint Resolve tcgetattr_untouched ioctl_TIOCGSERIAL_untouched
  ioctl_IOSSIOSPEED_untouched rb_iv_get_untouched ioctl_TIOCSSERIAL_quiet
  rb_iv_set_quiet Check_Type_pure FIX2INT_pure : preserves.

Ltac preserve_leaf :=
  first
    [ apply preserves_ret; typeclasses eauto
    | apply preserves_raise; typeclasses eauto
    | apply preserves_undefined; typeclasses eauto
    | solve [auto with preserves]
    | solve [apply untouched_quiet; auto with preserves]
    | solve [apply pure_preserves;
             [typeclasses eauto | auto with preserves]] ].

Ltac preserve :=
  repeat first
    [ preserve_leaf
    | apply preserves_bind; [typeclasses eauto | | intros ?]
    | apply preserves_if
    | match goal with
      | |- preserves _ (match ?x with _ => _ end) => destruct x
      end ].

Section ConfigureQuiet.
Context {P : build}.

Lemma Linux_clear_custom_baud_rate_quiet :
  preserves quiet Linux.clear_custom_baud_rate.
Proof. unfold Linux.clear_custom_baud_rate. preserve. Qed.

Lemma Linux_set_custom_baud_rate_quiet baud :
  preserves quiet (Linux.set_custom_baud_rate baud).
Proof. unfold Linux.set_custom_baud_rate. preserve. Qed.

Lemma Darwin_get_custom_baud_rate_untouched self :
  preserves untouched (Darwin.get_custom_baud_rate self).
Proof. unfold Darwin.get_custom_baud_rate. preserve. Qed.

Lemma Darwin_clear_custom_baud_rate_quiet self params :
  preserves quiet (Darwin.clear_custom_baud_rate self params).
Proof. unfold Darwin.clear_custom_baud_rate. preserve. Qed.

Lemma Darwin_set_custom_baud_rate_quiet self baud :
  preserves quiet (Darwin.set_custom_baud_rate self baud).
Proof. unfold Darwin.set_custom_baud_rate. preserve. Qed.

Lemma SetDataBits_pure v params : preserves eq (SetDataBits v params).
Proof. unfold SetDataBits. preserve. Qed.

Lemma SetStopBits_pure v params : preserves eq (SetStopBits v params).
Proof. unfold SetStopBits. preserve. Qed.

Lemma SetParity_pure v params : preserves eq (SetParity v params).
Proof. unfold SetParity. preserve. Qed.

Lemma apply_flow_control_pure f params :
  preserves eq (apply_flow_control f params).
Proof. unfold apply_flow_control. preserve. Qed.

Lemma SetFlowControl_pure v params : preserves eq (SetFlowControl v params).
Proof.
  pose proof apply_flow_control_pure. unfold SetFlowControl. preserve.
Qed.

Lemma SetReadTimeout_pure v params : preserves eq (SetReadTimeout v params).
Proof. unfold SetReadTimeout. preserve. Qed.

Lemma SetDataRate_quiet v params c : preserves quiet (SetDataRate v params c).
Proof.
  pose proof Linux_clear_custom_baud_rate_quiet.
  unfold SetDataRate. preserve.
Qed.

(** Off Linux the rate step touches nothing at all. *)
Lemma SetDataRate_pure v params c :
  is_linux = false -> preserves eq (SetDataRate v params c).
Proof. intros E. unfold SetDataRate. rewrite E. preserve. Qed.

#[local] Hint Resolve Darwin_get_custom_baud_rate_untouched
  Darwin_clear_custom_baud_rate_quiet SetDataRate_quiet SetDataBits_pure
  SetStopBits_pure SetParity_pure SetFlowControl_pure SetReadTimeout_pure
  SetDataRate_pure : preserves.

Lemma fill_framing_quiet argv self params :
  preserves quiet (fill_framing argv self params).
Proof. unfold fill_framing. preserve. Qed.

(** Until the commit the line keeps its attributes and no [tcsetattr] is
    issued, however the validation of the arguments ends. *)
Lemma fill_params_quiet argv self params :
  preserves quiet (fill_params argv self params).
Proof.
  pose proof fill_framing_quiet. unfold fill_params. preserve.
Qed.

(** On a build that is neither Linux nor Darwin it changes nothing. *)
Lemma fill_params_pure argv self params :
  is_linux = false -> is_darwin = false ->
  preserves eq (fill_params argv self params).
Proof.
  intros El Ed. unfold fill_params, fill_framing. rewrite Ed. preserve.
Qed.

End ConfigureQuiet.

(** ** Configure: what each step does to the in-memory attributes *)

Ltac run_inv H :=
  unfold bind, Check_Type, FIX2INT, ret, rb_raise, undefined in H;
  simpl in H;
  repeat case_match; simplify_eq.

Section Steps.
Context {P : build}.

Lemma SetDataBits_Ok v p w p' w' :
  SetDataBits v p w = (Ok p', w') ->
  w' = w /\ c_iflag p' = c_iflag p /\
  (v = Qnil /\ p' = p \/
   exists n cs, v = Fixnum n /\ char_size n = Some cs /\
     c_cflag p' = Z.lor (Z.land (c_cflag p) (Z.lnot CSIZE)) cs).
Proof.
  unfold SetDataBits. intros H. destruct v; run_inv H; auto.
  repeat split. right. eauto.
Qed.

Lemma SetStopBits_Ok v p w p' w' :
  SetStopBits v p w = (Ok p', w') ->
  w' = w /\ c_iflag p' = c_iflag p /\
  (v = Qnil /\ p' = p \/
   v = Fixnum 1 /\ c_cflag p' = Z.land (c_cflag p) (Z.lnot CSTOPB) \/
   v = Fixnum 2 /\ c_cflag p' = Z.lor (c_cflag p) CSTOPB).
Proof.
  unfold SetStopBits. intros H. destruct v; run_inv H; auto.
  - repeat split. right. left.
    match goal with H : (_ =? 1) = true |- _ => apply Z.eqb_eq in H end.
    subst. auto.
  - repeat split. right. right.
    match goal with H : (_ =? 2) = true |- _ => apply Z.eqb_eq in H end.
    subst. auto.
Qed.

Lemma SetParity_Ok v p w p' w' :
  SetParity v p w = (Ok p', w') ->
  w' = w /\ c_iflag p' = c_iflag p /\
  (v = Qnil /\ p' = p \/
   v = Fixnum EVEN /\
     c_cflag p' = Z.land (Z.lor (c_cflag p) PARENB) (Z.lnot PARODD) \/
   v = Fixnum ODD /\ ODD <> EVEN /\
     c_cflag p' = Z.lor (Z.lor (c_cflag p) PARENB) PARODD \/
   v = Fixnum NONE /\ NONE <> EVEN /\ NONE <> ODD /\
     c_cflag p' = Z.land (c_cflag p) (Z.lnot PARENB)).
Proof.
  unfold SetParity. intros H. destruct v; run_inv H; auto;
    repeat match goal with
           | H : (_ =? _) = true |- _ => apply Z.eqb_eq in H
           | H : (_ =? _) = false |- _ => apply Z.eqb_neq in H
           end; subst; repeat split; auto 10.
Qed.

Lemma apply_flow_control_Ok f p w p' w' :
  apply_flow_control f p w = (Ok p', w') ->
  w' = w /\
  (forall k,
      (forall crtscts, CRTSCTS = Some crtscts -> Z.land crtscts k = 0) ->
      keeps k p p') /\
  (tst f HARD = true -> CRTSCTS <> None).
Proof.
  unfold apply_flow_control, keeps. intros H. run_inv H;
    (split; [reflexivity |]); (split; [| congruence]);
    intros k Hk; simpl;
    try reflexivity;
    try (apply land_set_keep; apply Hk; reflexivity);
    try (apply land_clear_keep; apply Hk; reflexivity).
Qed.

Lemma SetFlowControl_Ok v p w p' w' :
  SetFlowControl v p w = (Ok p', w') ->
  w' = w /\
  (v = Qnil /\ p' = p \/
   exists f, v = Fixnum f /\ apply_flow_control f p w = (Ok p', w')).
Proof.
  unfold SetFlowControl. intros H.
  destruct v; simpl in H;
    try (unfold bind, Check_Type, rb_raise in H; simpl in H; discriminate).
  { injection H as <- <-. auto. }
  unfold bind, Check_Type, ret in H. simpl in H.
  destruct ((INT_MIN <=? n) && (n <=? INT_MAX)); [| discriminate].
  destruct (apply_flow_control_Ok _ _ _ _ _ H) as [-> _]. eauto.
Qed.

Lemma SetReadTimeout_Ok v p w p' w' :
  SetReadTimeout v p w = (Ok p', w') ->
  w' = w /\ c_iflag p' = c_iflag p /\ c_cflag p' = c_cflag p.
Proof.
  unfold SetReadTimeout, apply_read_timeout. intros H.
  destruct v; run_inv H; auto.
Qed.

Lemma SetDataRate_Ok v p c w pc w' :
  SetDataRate v p c w = (Ok pc, w') ->
  c_iflag (fst pc) = c_iflag p /\ c_cflag (fst pc) = c_cflag p.
Proof.
  unfold SetDataRate. intros H.
  destruct (NIL_P v); [injection H as <- _; auto |].
  repeat (apply bind_Ok in H; destruct H as (? & ? & _ & H)).
  match type of H with
  | (if ?b then _ else _) _ = _ => destruct b; [discriminate |]
  end.
  repeat (apply bind_Ok in H; destruct H as (? & ? & _ & H)).
  injection H as <- _. auto.
Qed.

End Steps.

(** ** Configure: the run as a whole *)

Section Configure.
Context {P : build}.

(** A successful pass over rate, data bits, stop bits and parity, step by
    step. *)
Lemma fill_framing_Ok argv self p w pc w1 :
  fill_framing argv self p w = (Ok pc, w1) ->
  exists p1 p2 p3,
    c_iflag p1 = c_iflag p /\ c_cflag p1 = c_cflag p /\
    SetDataBits (data_bits_arg argv) p1 w1 = (Ok p2, w1) /\
    SetStopBits (stop_bits_arg argv) p2 w1 = (Ok p3, w1) /\
    SetParity (parity_arg argv p3) p3 w1 = (Ok (fst pc), w1).
Proof.
  unfold fill_framing. intros H.
  apply bind_Ok in H. destruct H as (pc0 & w0 & H0 & H).
  apply bind_Ok in H. destruct H as (pc1 & wa & Hr & H).
  apply bind_Ok in H. destruct H as (p2 & wb & Hb & H).
  apply bind_Ok in H. destruct H as (p3 & wc & Hs & H).
  apply bind_Ok in H. destruct H as (p4 & wd & Hp & H).
  injection H as <- <-.
  destruct (SetDataBits_Ok _ _ _ _ _ Hb) as (-> & _).
  destruct (SetStopBits_Ok _ _ _ _ _ Hs) as (-> & _).
  destruct (SetParity_Ok _ _ _ _ _ Hp) as (-> & _).
  exists (fst pc1), p2, p3.
  destruct (SetDataRate_Ok _ _ _ _ _ _ Hr) as [Ei Ec].
  assert (E0 : c_iflag (fst pc0) = c_iflag p /\ c_cflag (fst pc0) = c_cflag p).
  { destruct is_darwin.
    - apply bind_Ok in H0. destruct H0 as (c0 & ? & _ & H0).
      apply bind_Ok in H0. destruct H0 as (p0 & ? & Hc & H0).
      injection H0 as <- _.
      unfold Darwin.clear_custom_baud_rate, bind, rb_iv_set_custom_baud, ret
        in Hc.
      injection Hc as <- _. auto.
    - injection H0 as <- _. auto. }
  destruct E0 as [E0i E0c].
  repeat split; try assumption; congruence.
Qed.

Lemma fill_params_Ok argv self p w pc w1 :
  fill_params argv self p w = (Ok pc, w1) ->
  exists pc0 p5,
    fill_framing argv self p w = (Ok pc0, w1) /\
    SetFlowControl (flow_control_arg argv) (fst pc0) w1 = (Ok p5, w1) /\
    c_iflag (fst pc) = c_iflag p5 /\ c_cflag (fst pc) = c_cflag p5.
Proof.
  unfold fill_params. intros H.
  apply bind_Ok in H. destruct H as (pc0 & w0 & H0 & H).
  apply bind_Ok in H. destruct H as (p5 & wa & Hf & H).
  apply bind_Ok in H. destruct H as (p6 & wb & Ht & H).
  injection H as <- <-.
  destruct (SetFlowControl_Ok _ _ _ _ _ Hf) as (-> & _).
  destruct (SetReadTimeout_Ok _ _ _ _ _ Ht) as (-> & Ei & Ec).
  exists pc0, p5. auto.
Qed.

(** Whether an argument is [nil] does not depend on the attributes: the
    default of an omitted positional parity is a number. *)
Lemma parity_arg_nil argv p p' :
  parity_arg argv p = Qnil -> parity_arg argv p' = Qnil.
Proof.
  unfold parity_arg, positional.
  destruct (use_hash_of argv); [auto |].
  destruct (Z.of_nat 4 <=? Z.of_nat (length argv)); [auto |].
  destruct (Z.land (c_cflag p) CSIZE =? CS8); discriminate.
Qed.

(** The bits under a mask [k] survive the whole pass when each step is
    either skipped (its argument is [nil]) or works on bits outside [k]. *)
Lemma fill_params_keeps argv self p w pc w1 k :
  Z.land CS5 CSIZE = CS5 -> Z.land CS6 CSIZE = CS6 ->
  Z.land CS7 CSIZE = CS7 -> Z.land CS8 CSIZE = CS8 ->
  fill_params argv self p w = (Ok pc, w1) ->
  data_bits_arg argv = Qnil \/ Z.land CSIZE k = 0 ->
  stop_bits_arg argv = Qnil \/ Z.land CSTOPB k = 0 ->
  parity_arg argv p = Qnil \/ Z.land PARENB k = 0 /\ Z.land PARODD k = 0 ->
  flow_control_arg argv = Qnil \/
    (forall crtscts, CRTSCTS = Some crtscts -> Z.land crtscts k = 0) ->
  keeps k p (fst pc).
Proof.
  intros H5 H6 H7 H8 H Hd Hs Hp Hf.
  destruct (fill_params_Ok _ _ _ _ _ _ H) as (pc0 & p5 & H0 & Hfl & _ & Ec).
  destruct (fill_framing_Ok _ _ _ _ _ _ H0)
    as (p1 & p2 & p3 & _ & E1 & Hb & Hst & Hpa).
  unfold keeps. rewrite Ec.
  (* flow control *)
  transitivity (Z.land (c_cflag (fst pc0)) k).
  { destruct (SetFlowControl_Ok _ _ _ _ _ Hfl) as (_ & [[_ ->] | (f & Ef & Ha)]);
      [reflexivity |].
    destruct (apply_flow_control_Ok _ _ _ _ _ Ha) as (_ & Hk & _).
    apply Hk. destruct Hf as [Hf | Hf]; [congruence | exact Hf]. }
  (* parity *)
  transitivity (Z.land (c_cflag p3) k).
  { destruct (SetParity_Ok _ _ _ _ _ Hpa)
      as (_ & _ & [[_ ->] | [[Ev ->] | [(Ev & _ & ->) | (Ev & _ & _ & ->)]]]);
      [reflexivity | | |];
      (destruct Hp as [Hp | [Hp1 Hp2]];
       [apply (parity_arg_nil _ _ p3) in Hp; congruence |]).
    - rewrite land_clear_keep, land_set_keep by assumption. reflexivity.
    - rewrite !land_set_keep by assumption. reflexivity.
    - rewrite land_clear_keep by assumption. reflexivity. }
  (* stop bits *)
  transitivity (Z.land (c_cflag p2) k).
  { destruct (SetStopBits_Ok _ _ _ _ _ Hst)
      as (_ & _ & [[_ ->] | [[Ev ->] | [Ev ->]]]);
      [reflexivity | |];
      (destruct Hs as [Hs | Hs]; [congruence |]).
    - apply land_clear_keep, Hs.
    - apply land_set_keep, Hs. }
  (* data bits *)
  rewrite <- E1.
  destruct (SetDataBits_Ok _ _ _ _ _ Hb)
    as (_ & _ & [[_ ->] | (n & cs & Ev & Ecs & ->)]);
    [reflexivity |].
  destruct Hd as [Hd | Hd]; [congruence |].
  assert (Hcs : Z.land cs CSIZE = cs).
  { unfold char_size in Ecs.
    repeat match type of Ecs with
           | (if ?b then _ else _) = _ => destruct b
           end; congruence. }
  rewrite land_set_keep by (eapply submask_disjoint; eassumption).
  apply land_clear_keep, Hd.
Qed.

Lemma fill_params_iflag argv self p w pc w1 :
  fill_params argv self p w = (Ok pc, w1) ->
  flow_control_arg argv = Qnil ->
  c_iflag (fst pc) = c_iflag p.
Proof.
  intros H Hf.
  destruct (fill_params_Ok _ _ _ _ _ _ H) as (pc0 & p5 & H0 & Hfl & Ei & _).
  destruct (fill_framing_Ok _ _ _ _ _ _ H0)
    as (p1 & p2 & p3 & E1 & _ & Hb & Hst & Hpa).
  destruct (SetFlowControl_Ok _ _ _ _ _ Hfl) as (_ & [[_ ->] | (f & Ef & _)]);
    [| congruence].
  destruct (SetParity_Ok _ _ _ _ _ Hpa) as (_ & E4 & _).
  destruct (SetStopBits_Ok _ _ _ _ _ Hst) as (_ & E3 & _).
  destruct (SetDataBits_Ok _ _ _ _ _ Hb) as (_ & E2 & _).
  congruence.
Qed.

(** The part of [sp_set_modem_params_impl] after the commit. *)
Lemma after_commit_quiet self c (v : VALUE) :
  preserves quiet
    ((if is_darwin then
        if negb (c =? 0) then Darwin.set_custom_baud_rate self c else ret 0
      else if is_linux then
        if negb (c =? 0) then Linux.set_custom_baud_rate c else ret 0
      else ret 0) ;; ret v).
Proof.
  pose proof Darwin_set_custom_baud_rate_quiet.
  pose proof Linux_set_custom_baud_rate_quiet.
  preserve.
Qed.

(** The three ways a call can go: no argument; no commit or a failed one
    (the line keeps its attributes and the call does not return); a
    commit of the attributes [fill_params] produced. *)
Lemma sp_set_modem_params_impl_cases argv self w r w' :
  sp_set_modem_params_impl argv self w = (r, w') ->
  (argv = [] /\ r = Ok self /\ w' = w)
  \/ (tty w' = tty w /\ sys w' = sys w /\ forall v, r <> Ok v)
  \/ (exists pc w1,
        tcgetattr_ok (sys w) = true /\ tcsetattr_ok (sys w) = true /\
        fill_params argv self (tty w) (log EvTcgetattr w) = (Ok pc, w1) /\
        tty w' = fst pc /\ sys w' = sys w).
Proof.
  intros H. unfold sp_set_modem_params_impl in H.
  destruct (Z.of_nat (length argv) =? 0) eqn:E0.
  { left. injection H as <- <-. destruct argv; [auto | discriminate]. }
  right.
  unfold bind at 1, tcgetattr in H.
  destruct (tcgetattr_ok (sys w)) eqn:Hg.
  2:{ injection H as <- <-. left. repeat split. congruence. }
  unfold bind at 1 in H.
  destruct (fill_params argv self (tty w) (log EvTcgetattr w))
    as [[pc | e | u] w1] eqn:Hf;
    pose proof (fill_params_quiet _ _ _ _ _ _ Hf) as (Q1 & Q2 & _);
    simpl in Q1, Q2.
  2,3: injection H as <- <-; left; repeat split; congruence.
  unfold bind at 1, tcsetattr in H. rewrite Q2 in H.
  destruct (tcsetattr_ok (sys w)) eqn:Hs.
  2:{ simpl in H. injection H as <- <-. left.
      repeat split; simpl; congruence. }
  simpl negb in H. cbv iota in H.
  pose proof (after_commit_quiet _ _ _ _ _ _ H) as (Q3 & Q4 & _).
  simpl in Q3, Q4.
  right. exists pc, w1. repeat split; congruence.
Qed.

End Configure.

(** ** The two builds are well formed *)

Lemma linux_build_ok : build_ok linux_build.
Proof.
  constructor; try reflexivity.
  - intros c [= <-]. repeat split.
  - unfold distinct4. simpl. lia.
  - simpl. lia.
  - simpl. lia.
  - unfold INT_MIN, INT_MAX. simpl. lia.
Defined.

Lemma darwin_build_ok : build_ok darwin_build.
Proof.
  constructor; try reflexivity.
  - intros c [= <-]. repeat split.
  - unfold distinct4. simpl. lia.
  - simpl. lia.
  - simpl. lia.
  - unfold INT_MIN, INT_MAX. simpl. lia.
Defined.

(** ** Fields the caller left out *)

Section Untouched.
Context {P : build}.
Hypothesis ok : build_ok P.

Lemma args_of_hash h :
  data_bits_arg [Hash h] = h sDataBits /\
  stop_bits_arg [Hash h] = h sStopBits /\
  (forall p, parity_arg [Hash h] p = h sParity) /\
  flow_control_arg [Hash h] = h sFlowControl.
Proof. repeat split. Qed.

Lemma args_of_positional argv :
  use_hash_of argv = false ->
  (argv !! 1%nat = Some Qnil -> data_bits_arg argv = Qnil) /\
  (argv !! 2%nat = Some Qnil -> stop_bits_arg argv = Qnil) /\
  (argv !! 3%nat = Some Qnil -> forall p, parity_arg argv p = Qnil) /\
  (argv !! 4%nat = Some Qnil \/ argv !! 4%nat = None ->
   flow_control_arg argv = Qnil).
Proof.
  intros E.
  unfold data_bits_arg, stop_bits_arg, parity_arg, flow_control_arg.
  rewrite E. unfold positional, arg.
  repeat split.
  - intros H. rewrite H. simpl.
    apply lookup_lt_Some in H.
    destruct (Z.leb_spec (Z.of_nat 2) (Z.of_nat (length argv)));
      [reflexivity | lia].
  - intros H. rewrite H. simpl.
    apply lookup_lt_Some in H.
    destruct (Z.leb_spec (Z.of_nat 3) (Z.of_nat (length argv)));
      [reflexivity | lia].
  - intros H p. rewrite H. simpl.
    apply lookup_lt_Some in H.
    destruct (Z.leb_spec (Z.of_nat 4) (Z.of_nat (length argv)));
      [reflexivity | lia].
  - intros [H | H]; rewrite H; simpl;
      destruct (Z.of_nat 5 <=? Z.of_nat (length argv)); reflexivity.
Qed.

(** An omitted positional argument stands for a default: 8 data bits, 1
    stop bit, and a parity that follows the data bits; only flow control
    and the timeout default to [nil]. *)
Lemma args_of_positional_omitted argv :
  use_hash_of argv = false ->
  (argv !! 1%nat = None -> data_bits_arg argv = INT2FIX 8) /\
  (argv !! 2%nat = None -> stop_bits_arg argv = INT2FIX 1) /\
  (argv !! 3%nat = None -> forall p,
     parity_arg argv p = if Z.land (c_cflag p) CSIZE =? CS8
                         then INT2FIX NONE else INT2FIX EVEN).
Proof.
  intros E. unfold data_bits_arg, stop_bits_arg, parity_arg.
  rewrite E. unfold positional.
  repeat split; intros H; try intros p; apply lookup_ge_None in H.
  - destruct (Z.leb_spec (Z.of_nat 2) (Z.of_nat (length argv)));
      [lia | reflexivity].
  - destruct (Z.leb_spec (Z.of_nat 3) (Z.of_nat (length argv)));
      [lia | reflexivity].
  - destruct (Z.leb_spec (Z.of_nat 4) (Z.of_nat (length argv)));
      [lia | reflexivity].
Qed.

(** The frame of a call in terms of the values its steps resolve. *)
Lemma sp_set_modem_params_impl_frame argv self w r w' :
  sp_set_modem_params_impl argv self w = (r, w') ->
  (data_bits_arg argv = Qnil -> keeps CSIZE (tty w) (tty w')) /\
  (stop_bits_arg argv = Qnil -> keeps CSTOPB (tty w) (tty w')) /\
  (parity_arg argv (tty w) = Qnil ->
   keeps PARENB (tty w) (tty w') /\ keeps PARODD (tty w) (tty w')) /\
  (flow_control_arg argv = Qnil ->
   c_iflag (tty w') = c_iflag (tty w) /\
   forall crtscts, CRTSCTS = Some crtscts ->
     keeps crtscts (tty w) (tty w')).
Proof.
  intros H.
  destruct (sp_set_modem_params_impl_cases _ _ _ _ _ H)
    as [(_ & _ & ->) | [(E & _) | (pc & w1 & _ & _ & Hf & E & _)]].
  1,2: unfold keeps; try rewrite E; repeat split; reflexivity.
  rewrite E.
  pose proof (ok_cs5 P ok) as H5. pose proof (ok_cs6 P ok) as H6.
  pose proof (ok_cs7 P ok) as H7. pose proof (ok_cs8 P ok) as H8.
  pose proof (ok_csize_cstopb P ok) as D1.
  pose proof (ok_csize_parenb P ok) as D2.
  pose proof (ok_csize_parodd P ok) as D3.
  pose proof (ok_cstopb_parenb P ok) as D4.
  pose proof (ok_cstopb_parodd P ok) as D5.
  pose proof (ok_parenb_parodd P ok) as D6.
  pose proof (ok_crtscts P ok) as DC.
  assert (K := fun k => fill_params_keeps argv self _ _ _ _ k H5 H6 H7 H8 Hf).
  assert (DC' : forall k,
             k = CSIZE \/ k = CSTOPB \/ k = PARENB \/ k = PARODD ->
             forall c, CRTSCTS = Some c -> Z.land c k = 0).
  { intros k Hk c Hc. destruct (DC c Hc) as (C1 & C2 & C3 & C4).
    destruct Hk as [-> | [-> | [-> | ->]]]; assumption. }
  split; [| split; [| split]].
  - intros N. apply K.
    + left. exact N.
    + right. rewrite Z.land_comm. exact D1.
    + right. split; rewrite Z.land_comm; assumption.
    + right. apply DC'. auto.
  - intros N. apply K.
    + right. exact D1.
    + left. exact N.
    + right. split; rewrite Z.land_comm; assumption.
    + right. apply DC'. auto.
  - intros N. split; apply K.
    + right. exact D2.
    + right. exact D4.
    + left. exact N.
    + right. apply DC'. auto.
    + right. exact D3.
    + right. exact D5.
    + left. exact N.
    + right. apply DC'. auto.
  - intros N. split.
    + apply (fill_params_iflag _ _ _ _ _ _ Hf). exact N.
    + intros c Hc. destruct (DC c Hc) as (C1 & C2 & C3 & C4).
      apply K.
      * right. rewrite Z.land_comm. exact C1.
      * right. rewrite Z.land_comm. exact C2.
      * right. split; rewrite Z.land_comm; assumption.
      * left. exact N.
Qed.

(** C5, amended: a field among data bits, stop bits, parity and flow
    control keeps its bits of the line's attributes across a configure
    call, whatever the outcome of the call, when (hash form) the hash has
    no value for it or (positional form) its argument is passed as [nil];
    flow control is also kept when its positional argument is omitted. *)
Theorem sp_set_modem_params_impl_untouched_fields argv self w r w' :
  sp_set_modem_params_impl argv self w = (r, w') ->
  let kept_flow :=
    c_iflag (tty w') = c_iflag (tty w) /\
    forall crtscts, CRTSCTS = Some crtscts ->
      keeps crtscts (tty w) (tty w') in
  (forall h, argv = [Hash h] ->
     (h sDataBits = Qnil -> keeps CSIZE (tty w) (tty w')) /\
     (h sStopBits = Qnil -> keeps CSTOPB (tty w) (tty w')) /\
     (h sParity = Qnil ->
      keeps PARENB (tty w) (tty w') /\ keeps PARODD (tty w) (tty w')) /\
     (h sFlowControl = Qnil -> kept_flow)) /\
  (use_hash_of argv = false ->
     (argv !! 1%nat = Some Qnil -> keeps CSIZE (tty w) (tty w')) /\
     (argv !! 2%nat = Some Qnil -> keeps CSTOPB (tty w) (tty w')) /\
     (argv !! 3%nat = Some Qnil ->
      keeps PARENB (tty w) (tty w') /\ keeps PARODD (tty w) (tty w')) /\
     (argv !! 4%nat = Some Qnil \/ argv !! 4%nat = None -> kept_flow)).
Proof.
  intros H kept_flow.
  destruct (sp_set_modem_params_impl_frame _ _ _ _ _ H)
    as (F1 & F2 & F3 & F4).
  split.
  - intros h ->. destruct (args_of_hash h) as (A1 & A2 & A3 & A4).
    rewrite A1 in F1. rewrite A2 in F2. rewrite A3 in F3. rewrite A4 in F4.
    auto.
  - intros E. destruct (args_of_positional argv E) as (A1 & A2 & A3 & A4).
    split; [| split; [| split]].
    + intros N. apply F1, A1, N.
    + intros N. apply F2, A2, N.
    + intros N. apply F3, A3, N.
    + intros N. apply F4, A4, N.
Qed.

End Untouched.

Lemma sp_set_modem_params_impl_untouched_fields_witness :
  keeps (CSIZE (build := linux_build)) (tty linux_w_7O2)
    (tty (snd (sp_set_modem_params_impl (P := linux_build)
                 [rate_only_hash] a_port linux_w_7O2))).
Proof.
  destruct (sp_set_modem_params_impl_untouched_fields (P := linux_build)
              linux_build_ok [rate_only_hash] a_port linux_w_7O2 _ _
              (surjective_pairing _)) as [Hh _].
  destruct (Hh _ eq_refl) as [Hd _].
  apply Hd. reflexivity.
Defined.

(** C5 as stated fails in the positional form: a call with the rate alone
    supplies no data bits, stop bits or parity, and still sets them to 8,
    1 and none on a line that had 7, 2 and odd. *)
Lemma positional_call_applies_defaults :
  let run := sp_set_modem_params_impl (P := linux_build) [Fixnum 9600]
               a_port linux_w_7O2 in
  fst run = Ok (Fixnum 9600) /\
  decode_data_bits (P := linux_build) (tty linux_w_7O2) = 7 /\
  decode_data_bits (P := linux_build) (tty (snd run)) = 8 /\
  ~ keeps (CSIZE (build := linux_build)) (tty linux_w_7O2) (tty (snd run)) /\
  ~ keeps (CSTOPB (build := linux_build)) (tty linux_w_7O2) (tty (snd run)) /\
  ~ keeps (PARENB (build := linux_build)) (tty linux_w_7O2) (tty (snd run)).
Proof.
  repeat split; try reflexivity; vm_compute; discriminate.
Qed.

(** ** The default parity of a positional call *)

Section ParityDefault.
Context {P : build}.
Hypothesis ok : build_ok P.

(** Decoding inverts [char_size] on attributes that hold its result. *)
Lemma decode_data_bits_char_size db cs p :
  char_size db = Some cs ->
  Z.land (c_cflag p) CSIZE = cs ->
  decode_data_bits p = db /\ (cs =? CS8) = (db =? 8).
Proof.
  destruct (ok_cs_distinct P ok) as (H56 & H57 & H58 & H67 & H68 & H78).
  unfold char_size, decode_data_bits. intros Hc ->.
  destruct (Z.eqb_spec db 5) as [-> |];
    [injection Hc as <- | destruct (Z.eqb_spec db 6) as [-> |];
     [injection Hc as <- | destruct (Z.eqb_spec db 7) as [-> |];
      [injection Hc as <- | destruct (Z.eqb_spec db 8) as [-> |];
       [injection Hc as <- | discriminate]]]].
  - rewrite Z.eqb_refl. split; [reflexivity |].
    apply Z.eqb_neq. exact H58.
  - replace (CS6 =? CS5) with false by (symmetry; apply Z.eqb_neq; congruence).
    rewrite Z.eqb_refl. split; [reflexivity |]. apply Z.eqb_neq. exact H68.
  - replace (CS7 =? CS5) with false by (symmetry; apply Z.eqb_neq; congruence).
    replace (CS7 =? CS6) with false by (symmetry; apply Z.eqb_neq; congruence).
    rewrite Z.eqb_refl. split; [reflexivity |]. apply Z.eqb_neq. exact H78.
  - replace (CS8 =? CS5) with false by (symmetry; apply Z.eqb_neq; congruence).
    replace (CS8 =? CS6) with false by (symmetry; apply Z.eqb_neq; congruence).
    replace (CS8 =? CS7) with false by (symmetry; apply Z.eqb_neq; congruence).
    rewrite Z.eqb_refl. split; reflexivity.
Qed.

Lemma char_size_submask db cs : char_size db = Some cs -> Z.land cs CSIZE = cs.
Proof.
  unfold char_size. intros H.
  repeat match type of H with
         | (if ?b then _ else _) = _ => destruct b
         end; try discriminate; injection H as <-.
  - apply (ok_cs5 P ok).
  - apply (ok_cs6 P ok).
  - apply (ok_cs7 P ok).
  - apply (ok_cs8 P ok).
Qed.

(** The parity step on the two defaults. *)
Lemma SetParity_default (none : bool) p w p' w' :
  SetParity (if none then INT2FIX NONE else INT2FIX EVEN) p w = (Ok p', w') ->
  decode_parity p' = (if none then NONE else EVEN) /\ keeps CSIZE p p'.
Proof.
  destruct (ok_parity_distinct P ok) as (Heo & Hen & Hon).
  pose proof (ok_parenb P ok) as Hnz.
  pose proof (ok_parenb_parodd P ok) as Hpp.
  pose proof (ok_csize_parenb P ok) as D2.
  pose proof (ok_csize_parodd P ok) as D3.
  intros H.
  destruct (SetParity_Ok _ _ _ _ _ H)
    as (_ & _ & [[Ev _] | [[Ev E] | [(Ev & _ & E) | (Ev & _ & _ & E)]]]);
    destruct none; unfold INT2FIX in Ev; try discriminate;
    apply (f_equal (fun v => match v with Fixnum n => n | _ => 0 end)) in Ev;
    simpl in Ev; try congruence;
    unfold decode_parity, keeps, tst; rewrite E.
  - (* EVEN *)
    rewrite land_clear_self, Z.eqb_refl.
    rewrite (land_clear_keep _ PARODD PARENB)
      by (rewrite Z.land_comm; exact Hpp).
    rewrite land_set_self.
    replace (PARENB =? 0) with false by (symmetry; apply Z.eqb_neq; exact Hnz).
    split; [reflexivity |].
    rewrite land_clear_keep by (rewrite Z.land_comm; exact D3).
    apply land_set_keep. rewrite Z.land_comm. exact D2.
  - (* NONE *)
    rewrite land_clear_self, Z.eqb_refl.
    split; [reflexivity |].
    apply land_clear_keep. rewrite Z.land_comm. exact D2.
Qed.

(** C6: a positional call with two or three arguments, hence with data
    bits and without parity, that returns leaves the line with the data
    bits it was given and with parity NONE when these are 8 and EVEN
    otherwise: the default follows the data bits just written, not those
    the line had. *)
Theorem positional_parity_default argv self w v w' db :
  (2 <= length argv <= 3)%nat ->
  argv !! 1%nat = Some (Fixnum db) ->
  sp_set_modem_params_impl argv self w = (Ok v, w') ->
  decode_data_bits (tty w') = db /\
  (Z.land (c_cflag (tty w')) CSIZE =? CS8) = (db =? 8) /\
  decode_parity (tty w') = (if db =? 8 then NONE else EVEN).
Proof.
  intros Hlen Harg H.
  destruct (sp_set_modem_params_impl_cases _ _ _ _ _ H)
    as [(-> & _) | [(_ & _ & N) | (pc & w1 & _ & _ & Hf & E & _)]].
  { simpl in Hlen. lia. }
  { exfalso. apply (N v). reflexivity. }
  rewrite E.
  assert (Eh : use_hash_of argv = false).
  { unfold use_hash_of.
    replace (Z.of_nat (length argv) =? 1) with false; [reflexivity |].
    symmetry. apply Z.eqb_neq. lia. }
  assert (Ed : data_bits_arg argv = Fixnum db).
  { unfold data_bits_arg, positional, arg. rewrite Eh, Harg.
    replace (Z.of_nat 2 <=? Z.of_nat (length argv)) with true; [reflexivity |].
    symmetry. apply Z.leb_le. lia. }
  assert (Ep : forall p, parity_arg argv p
                         = if Z.land (c_cflag p) CSIZE =? CS8
                           then INT2FIX NONE else INT2FIX EVEN).
  { intros p. unfold parity_arg, positional. rewrite Eh.
    replace (Z.of_nat 4 <=? Z.of_nat (length argv)) with false; [reflexivity |].
    symmetry. apply Z.leb_gt. lia. }
  assert (Ef : flow_control_arg argv = Qnil).
  { unfold flow_control_arg, positional. rewrite Eh.
    replace (Z.of_nat 5 <=? Z.of_nat (length argv)) with false; [reflexivity |].
    symmetry. apply Z.leb_gt. lia. }
  destruct (fill_params_Ok _ _ _ _ _ _ Hf) as (pc0 & p5 & H0 & Hfl & _ & Ec).
  destruct (fill_framing_Ok _ _ _ _ _ _ H0)
    as (p1 & p2 & p3 & _ & _ & Hb & Hst & Hpa).
  rewrite Ef in Hfl. injection Hfl as <-.
  rewrite Ed in Hb. rewrite Ep in Hpa.
  (* data bits *)
  destruct (SetDataBits_Ok _ _ _ _ _ Hb)
    as (_ & _ & [[N _] | (n & cs & Ev & Ecs & E2)]); [discriminate |].
  injection Ev as <-.
  assert (C2 : Z.land (c_cflag p2) CSIZE = cs).
  { rewrite E2. apply land_replace. eapply char_size_submask, Ecs. }
  (* stop bits *)
  assert (C3 : Z.land (c_cflag p3) CSIZE = cs).
  { rewrite <- C2.
    destruct (SetStopBits_Ok _ _ _ _ _ Hst)
      as (_ & _ & [[_ ->] | [[_ ->] | [_ ->]]]); [reflexivity | |].
    - apply land_clear_keep. rewrite Z.land_comm. apply (ok_csize_cstopb P ok).
    - apply land_set_keep. rewrite Z.land_comm. apply (ok_csize_cstopb P ok). }
  (* parity *)
  destruct (decode_data_bits_char_size db cs p3 Ecs C3) as [_ E8].
  rewrite C3 in Hpa.
  destruct (SetParity_default _ _ _ _ _ Hpa) as [Dp Kp].
  unfold keeps in Kp. rewrite C3 in Kp.
  unfold decode_parity in *. unfold decode_data_bits. rewrite Ec, Kp.
  destruct (decode_data_bits_char_size db cs p3 Ecs C3) as [Dd _].
  unfold decode_data_bits in Dd. rewrite C3 in Dd.
  split; [exact Dd |]. split; [exact E8 |].
  rewrite Dp, E8. reflexivity.
Qed.

End ParityDefault.

Lemma positional_parity_default_witness :
  let w' := snd (sp_set_modem_params_impl (P := linux_build)
                   [Fixnum 9600; Fixnum 7] a_port linux_w0) in
  decode_data_bits (P := linux_build) (tty w') = 7 /\
  decode_parity (P := linux_build) (tty w') = EVEN (build := linux_build).
Proof.
  destruct (positional_parity_default (P := linux_build) linux_build_ok
              [Fixnum 9600; Fixnum 7] a_port linux_w0 (Fixnum 9600)
              (snd (sp_set_modem_params_impl (P := linux_build)
                      [Fixnum 9600; Fixnum 7] a_port linux_w0)) 7)
    as (Hd & _ & Hp).
  - simpl. lia.
  - reflexivity.
  - reflexivity.
  - split; [exact Hd | exact Hp].
Defined.

(** ** Hardware flow control on a build without CRTSCTS *)

Section NoHardFlowControl.
Context {P : build}.
Hypothesis no_crtscts : CRTSCTS = None.

Lemma apply_flow_control_hard f p w :
  valid_flow_control f -> tst f HARD = true ->
  apply_flow_control f p w = (Raise unsupported_hard, w).
Proof.
  intros Hv Hh. unfold apply_flow_control.
  assert (E : negb (f =? NONE) && negb (f =? SOFT) && negb (f =? HARD)
              && negb (f =? Z.lor HARD SOFT) = false).
  { destruct Hv as [-> | [-> | [-> | ->]]]; rewrite Z.eqb_refl; simpl;
      rewrite ?andb_false_r; reflexivity. }
  rewrite E, Hh, no_crtscts. reflexivity.
Qed.

Lemma SetFlowControl_hard f p w :
  valid_flow_control f -> tst f HARD = true ->
  exists e, SetFlowControl (Fixnum f) p w = (Raise e, w) /\
            (INT_MIN <= f <= INT_MAX -> e = unsupported_hard).
Proof.
  intros Hv Hh. unfold SetFlowControl.
  change (NIL_P (Fixnum f)) with false. cbv iota.
  rewrite (bind_run _ _ w tt w) by reflexivity.
  destruct (Z_le_dec INT_MIN f) as [Hlo |];
    [destruct (Z_le_dec f INT_MAX) as [Hhi |] |].
  - rewrite (bind_run _ _ w f w) by (apply FIX2INT_fits; lia).
    rewrite apply_flow_control_hard by assumption. eauto.
  - eexists. split; [| lia].
    apply bind_Raise. unfold FIX2INT.
    replace ((INT_MIN <=? f) && (f <=? INT_MAX)) with false; [reflexivity |].
    symmetry. apply andb_false_iff. right. apply Z.leb_gt. lia.
  - eexists. split; [| lia].
    apply bind_Raise. unfold FIX2INT.
    replace ((INT_MIN <=? f) && (f <=? INT_MAX)) with false; [reflexivity |].
    symmetry. apply andb_false_iff. left. apply Z.leb_gt. lia.
Qed.

(** A call that asks for HARD never gets past the flow-control step. *)
Lemma fill_params_hard argv self p w f :
  valid_flow_control f -> tst f HARD = true ->
  flow_control_arg argv = Fixnum f ->
  forall pc w1, fill_params argv self p w <> (Ok pc, w1).
Proof.
  intros Hv Hh Ef pc w1 H.
  destruct (fill_params_Ok _ _ _ _ _ _ H) as (pc0 & p5 & _ & Hfl & _).
  rewrite Ef in Hfl.
  destruct (SetFlowControl_hard f (fst pc0) w1 Hv Hh) as (e & E & _).
  congruence.
Qed.

(** What holds of the attributes: on a build without CRTSCTS, asking for
    a flow control with the HARD bit (HARD or HARD|SOFT) raises the "not
    supported" IOError before any [tcsetattr]: from
    [sp_set_flow_control_impl] after its [tcgetattr]; from
    [sp_set_modem_params_impl] once the steps before flow control have
    passed.  However such a configure call ends, it does not return,
    issues no [tcsetattr] and leaves the line's attributes, flow control
    included, as they were (and, on a build that is neither Linux nor
    Darwin, everything but the log). *)
Theorem hard_flow_control_unsupported (self : VALUE) (f : Z) (w : world) :
  valid_flow_control f ->
  tst f HARD = true ->
  INT_MIN <= f <= INT_MAX ->
  tcgetattr_ok (sys w) = true ->
  sp_set_flow_control_impl self (Fixnum f) w
  = (Raise unsupported_hard, log EvTcgetattr w)
  /\ untouched w (log EvTcgetattr w)
  /\ (forall argv pc w1,
        flow_control_arg argv = Fixnum f ->
        fill_framing argv self (tty w) (log EvTcgetattr w) = (Ok pc, w1) ->
        sp_set_modem_params_impl argv self w = (Raise unsupported_hard, w1)
        /\ quiet w w1)
  /\ (forall argv r w',
        flow_control_arg argv = Fixnum f ->
        sp_set_modem_params_impl argv self w = (r, w') ->
        (forall v, r <> Ok v) /\ quiet w w' /\
        (is_linux = false -> is_darwin = false -> untouched w w')).
Proof.
  intros Hv Hh Hfit Hg.
  assert (Tg : tcgetattr w = (Ok (Some (tty w)), log EvTcgetattr w)).
  { unfold tcgetattr. rewrite Hg. reflexivity. }
  assert (Qg : untouched w (log EvTcgetattr w)) by (repeat split).
  assert (Ne : forall argv, flow_control_arg argv = Fixnum f ->
                 (Z.of_nat (length argv) =? 0) = false).
  { intros [| a l] E; [discriminate | reflexivity]. }
  split; [| split; [exact Qg | split]].
  - unfold sp_set_flow_control_impl.
    rewrite (bind_run _ _ w tt w) by reflexivity.
    rewrite (bind_run _ _ _ _ _ Tg). cbv iota beta.
    rewrite (bind_run _ _ _ f (log EvTcgetattr w))
      by (apply FIX2INT_fits; exact Hfit).
    apply bind_Raise. apply apply_flow_control_hard; assumption.
  - intros argv pc w1 Ef H0.
    split; [| transitivity (log EvTcgetattr w);
              [apply Qg | eapply fill_framing_quiet; exact H0]].
    unfold sp_set_modem_params_impl. rewrite (Ne argv Ef).
    rewrite (bind_run _ _ _ _ _ Tg). cbv iota beta.
    apply bind_Raise. unfold fill_params.
    rewrite (bind_run _ _ _ _ _ H0). apply bind_Raise.
    rewrite Ef.
    destruct (SetFlowControl_hard f (fst pc) w1 Hv Hh) as (e & E & He).
    rewrite (He Hfit) in E. exact E.
  - intros argv r w' Ef H.
    unfold sp_set_modem_params_impl in H. rewrite (Ne argv Ef) in H.
    rewrite (bind_run _ _ _ _ _ Tg) in H. cbv iota beta in H.
    unfold bind at 1 in H.
    destruct (fill_params argv self (tty w) (log EvTcgetattr w))
      as [[pc | e | u] w1] eqn:Hf.
    { exfalso. eapply fill_params_hard; eassumption. }
    all: injection H as <- <-.
    all: split; [congruence |].
    all: split;
      [ transitivity (log EvTcgetattr w);
        [apply Qg | eapply fill_params_quiet; exact Hf] |].
    all: intros El Ed;
      rewrite <- (fill_params_pure _ _ _ El Ed _ _ _ Hf); exact Qg.
Qed.

End NoHardFlowControl.

Lemma hard_flow_control_unsupported_witness :
  sp_set_flow_control_impl (P := linux_posix_build) a_port (Fixnum 2) linux_w0
  = (Raise unsupported_hard, log EvTcgetattr linux_w0)
  /\ sp_set_modem_params_impl (P := linux_posix_build)
       [Fixnum 9600; Fixnum 8; Fixnum 1; Fixnum 0; Fixnum 2] a_port linux_w0
     = (Raise unsupported_hard,
        log EvTIOCGSERIAL (log EvTcgetattr linux_w0)).
Proof.
  destruct (hard_flow_control_unsupported (P := linux_posix_build) eq_refl
              a_port 2 linux_w0) as (H1 & _ & H2 & _).
  - right. right. left. reflexivity.
  - reflexivity.
  - unfold INT_MIN, INT_MAX. lia.
  - reflexivity.
  - split; [exact H1 |].
    apply (H2 [Fixnum 9600; Fixnum 8; Fixnum 1; Fixnum 0; Fixnum 2]
              (match fill_framing (P := linux_posix_build)
                       [Fixnum 9600; Fixnum 8; Fixnum 1; Fixnum 0; Fixnum 2]
                       a_port (tty linux_w0) (log EvTcgetattr linux_w0)
               with
               | (Ok pc, _) => pc
               | _ => (linux_tty0, 0)
               end)
              (log EvTIOCGSERIAL (log EvTcgetattr linux_w0)));
      reflexivity.
Defined.

(** C7 (defect in the code): on a build without CRTSCTS a configure call
    that asks for HARD raises the "not supported" IOError and leaves the
    termios attributes alone, but the rate step has run before it: on
    Linux [clear_custom_baud_rate] has issued TIOCSSERIAL, and the custom
    rate 250000 the line had (ASYNC_SPD_CUST, divisor 96) is gone when
    the error is raised.  The setter [sp_set_flow_control_impl], which
    has no rate step, raises the same error on the same line and changes
    nothing. *)
Theorem hard_flow_control_clears_custom_baud :
  let argv := [Fixnum 9600; Fixnum 8; Fixnum 1; Fixnum 0; Fixnum 2] in
  let run := sp_set_modem_params_impl (P := linux_posix_build)
               argv a_port linux_w_custom in
  let set := sp_set_flow_control_impl (P := linux_posix_build)
               a_port (Fixnum 2) linux_w_custom in
  HAVE_FLOWCONTROL_HARD (P := linux_posix_build) = false /\
  flow_control_arg argv = Fixnum (HARD (build := linux_posix_build)) /\
  fst run = Raise unsupported_hard /\
  tty (snd run) = tty linux_w_custom /\
  serial linux_w_custom = mk_serial 48 96 24000000 /\
  serial (snd run) = mk_serial 0 0 24000000 /\
  trace (snd run)
  = [EvTIOCSSERIAL (mk_serial 0 0 24000000); EvTIOCGSERIAL; EvTcgetattr] /\
  fst (Linux.get_custom_baud_rate (P := linux_posix_build) linux_w_custom)
  = Ok 250000 /\
  fst (Linux.get_custom_baud_rate (P := linux_posix_build) (snd run))
  = Ok 0 /\
  fst set = Raise unsupported_hard /\
  serial (snd set) = serial linux_w_custom /\
  tty (snd set) = tty linux_w_custom /\
  trace (snd set) = [EvTcgetattr].
Proof. repeat split. Qed.

(** ** Failed validation and the custom rate *)

Section ValidationFailure.
Context {P : build}.

(** When the validation of the arguments fails, the call fails with the
    same exception, no [tcsetattr] is issued and the line keeps its
    attributes. *)
Lemma sp_set_modem_params_impl_validation_failure argv self w e w1 :
  tcgetattr_ok (sys w) = true ->
  fill_params argv self (tty w) (log EvTcgetattr w) = (Raise e, w1) ->
  argv <> [] ->
  sp_set_modem_params_impl argv self w = (Raise e, w1) /\ quiet w w1.
Proof.
  intros Hg Hf Hne. split.
  - unfold sp_set_modem_params_impl.
    destruct argv as [| a l]; [congruence |].
    change (Z.of_nat (length (a :: l)) =? 0) with false. cbv iota.
    rewrite (bind_run _ _ w (Some (tty w)) (log EvTcgetattr w))
      by (unfold tcgetattr; rewrite Hg; reflexivity).
    cbv iota beta. apply bind_Raise, Hf.
  - transitivity (log EvTcgetattr w); [repeat split |].
    eapply fill_params_quiet, Hf.
Qed.

End ValidationFailure.

(** C2 (defect in the code): a call whose validation fails has already
    changed the custom-rate state.  On Linux, [clear_custom_baud_rate]
    runs as soon as the rate is accepted: with a valid rate and 9 data
    bits the call raises "unknown character size" after TIOCSSERIAL has
    cleared ASYNC_SPD_CUST and the divisor.  On Darwin the cached rate is
    reset before anything is validated: a call with rate 0 raises
    "invalid baud rate" and leaves the cache at 0.  The line's termios
    attributes are untouched in both. *)
Theorem failed_validation_clears_custom_baud :
  (let run := sp_set_modem_params_impl (P := linux_build)
                [Fixnum 9600; Fixnum 9] a_port linux_w_custom in
   fst run = Raise (rb_eArgError "unknown character size") /\
   serial linux_w_custom = mk_serial 48 96 24000000 /\
   serial (snd run) = mk_serial 0 0 24000000 /\
   trace (snd run)
   = [EvTIOCSSERIAL (mk_serial 0 0 24000000); EvTIOCGSERIAL; EvTcgetattr] /\
   tty (snd run) = tty linux_w_custom) /\
  (let run := sp_set_modem_params_impl (P := darwin_build)
                [Fixnum 0] a_port darwin_w_custom in
   fst run = Raise (rb_eArgError "invalid baud rate") /\
   iv_custom_baud darwin_w_custom = Fixnum 250000 /\
   iv_custom_baud (snd run) = Fixnum 0 /\
   tty (snd run) = tty darwin_w_custom).
Proof. repeat split. Qed.

(** A custom rate above the driver's base clock is rejected only after
    the commit: the call raises and the line has new attributes. *)
Lemma custom_rate_rejected_after_commit :
  let run := sp_set_modem_params_impl (P := linux_build)
               [Fixnum 250000] a_port linux_w_slow_base in
  fst run = Raise (rb_eArgError "custom baud rate is too high") /\
  decode_data_bits (P := linux_build) (tty linux_w_slow_base) = 7 /\
  decode_data_bits (P := linux_build) (tty (snd run)) = 8 /\
  tty (snd run) <> tty linux_w_slow_base.
Proof. repeat split. vm_compute. discriminate. Qed.

(** ** A standard rate after a custom one *)

(** C4 (defect in the code, Darwin): a call with the standard rate 9600
    on a session whose cached custom rate is 250000 returns, but the
    rate read from the cache before the call is still in
    [custom_baud_rate] after the switch, so it is applied again with
    IOSSIOSPEED after the commit and cached again; the attributes, and
    with them the following inspection, say 9600. *)
Theorem darwin_standard_rate_reapplies_custom :
  let run := sp_set_modem_params_impl (P := darwin_build)
               [Fixnum 9600] a_port darwin_w_custom in
  fst run = Ok (Fixnum 9600) /\
  iv_custom_baud darwin_w_custom = Fixnum 250000 /\
  iv_custom_baud (snd run) = Fixnum 250000 /\
  hd_error (trace (snd run)) = Some (EvIOSSIOSPEED 250000) /\
  cfgetospeed (tty (snd run)) = 9600 /\
  (exists w',
      get_modem_params_impl (P := darwin_build) a_port mp_blank (snd run)
      = (Ok (mk_modem_params 9600 8 1 0 0 (-1)), w')).
Proof. repeat split. eexists. reflexivity. Qed.

(** On Linux the same call clears the flag and the divisor, and the
    inspection reports the standard rate. *)
Lemma linux_standard_rate_clears_custom :
  let run := sp_set_modem_params_impl (P := linux_build)
               [Fixnum 9600] a_port linux_w_custom in
  fst run = Ok (Fixnum 9600) /\
  serial linux_w_custom = mk_serial 48 96 24000000 /\
  serial (snd run) = mk_serial 0 0 24000000 /\
  (exists w',
      get_modem_params_impl (P := linux_build) a_port mp_blank (snd run)
      = (Ok (mk_modem_params 9600 8 1 0 0 (-1)), w')).
Proof. repeat split. eexists. reflexivity. Qed.

(** On Linux this holds for every standard rate and every line: a call
    with a standard rate that returns has cleared the flag and the
    divisor, has requested no custom rate and leaves the speed constant
    of that rate in the attributes. *)
Section LinuxStandardRate.
Context {P : build}.
Hypothesis linux : is_linux = true.

Lemma linux_not_darwin : is_darwin = false.
Proof. unfold is_linux, is_darwin in *. destruct os; congruence. Qed.

Lemma Linux_clear_custom_baud_rate_Ok w z w1 :
  Linux.clear_custom_baud_rate w = (Ok z, w1) ->
  tst (flags (serial w1)) ASYNC_SPD_CUST = false /\
  custom_divisor (serial w1) = 0.
Proof.
  unfold Linux.clear_custom_baud_rate, bind, ioctl_TIOCGSERIAL,
    ioctl_TIOCSSERIAL.
  intros H.
  destruct (tiocgserial_ok (sys w)); simpl in H; [| discriminate].
  destruct (negb (tst (flags (serial w)) ASYNC_SPD_CUST)
            && (custom_divisor (serial w) =? 0)) eqn:E; simpl in H.
  - injection H as _ <-. simpl. apply andb_true_iff in E.
    destruct E as [E1 E2].
    apply negb_true_iff in E1. apply Z.eqb_eq in E2. auto.
  - destruct (tiocsserial_ok (sys w)); simpl in H; [| discriminate].
    injection H as _ <-. simpl. split; [| reflexivity].
    unfold tst. rewrite land_clear_self. reflexivity.
Qed.

Lemma SetDataRate_standard r b p c w pc w1 :
  std_speed r = Some b ->
  SetDataRate (Fixnum r) p c w = (Ok pc, w1) ->
  pc = (cfsetospeed b (cfsetispeed b p), c) /\
  tst (flags (serial w1)) ASYNC_SPD_CUST = false /\
  custom_divisor (serial w1) = 0.
Proof.
  intros Hs H. unfold SetDataRate in H.
  change (NIL_P (Fixnum r)) with false in H. cbv iota in H.
  apply bind_Ok in H. destruct H as ([] & w0 & H0 & H).
  injection H0 as <-.
  apply bind_Ok in H. destruct H as (n & wa & Hn & H).
  assert (n = r /\ wa = w) as [-> ->].
  { unfold FIX2INT in Hn.
    destruct ((INT_MIN <=? r) && (r <=? INT_MAX)); [| discriminate].
    injection Hn as <- <-. auto. }
  destruct (r <=? 0); [discriminate |].
  rewrite Hs, linux in H.
  apply bind_Ok in H. destruct H as (rc & wb & Hrc & H).
  injection Hrc as <- <-.
  apply bind_Ok in H. destruct H as (z & wc & Hc & H).
  injection H as <- <-.
  split; [reflexivity |]. eapply Linux_clear_custom_baud_rate_Ok, Hc.
Qed.

Lemma SetDataBits_ospeed v p w p' w' :
  SetDataBits v p w = (Ok p', w') -> c_ospeed p' = c_ospeed p.
Proof.
  unfold SetDataBits. intros H. destruct v; run_inv H; reflexivity.
Qed.

Lemma SetStopBits_ospeed v p w p' w' :
  SetStopBits v p w = (Ok p', w') -> c_ospeed p' = c_ospeed p.
Proof.
  unfold SetStopBits. intros H. destruct v; run_inv H; reflexivity.
Qed.

Lemma SetParity_ospeed v p w p' w' :
  SetParity v p w = (Ok p', w') -> c_ospeed p' = c_ospeed p.
Proof.
  unfold SetParity. intros H. destruct v; run_inv H; reflexivity.
Qed.

Lemma SetFlowControl_ospeed v p w p' w' :
  SetFlowControl v p w = (Ok p', w') -> c_ospeed p' = c_ospeed p.
Proof.
  unfold SetFlowControl, apply_flow_control. intros H.
  destruct v; run_inv H; reflexivity.
Qed.

Lemma SetReadTimeout_ospeed v p w p' w' :
  SetReadTimeout v p w = (Ok p', w') -> c_ospeed p' = c_ospeed p.
Proof.
  unfold SetReadTimeout, apply_read_timeout. intros H.
  destruct v; run_inv H; reflexivity.
Qed.

Lemma fill_params_standard argv self p w pc w1 r b :
  data_rate_arg argv = Fixnum r ->
  std_speed r = Some b ->
  fill_params argv self p w = (Ok pc, w1) ->
  c_ospeed (fst pc) = b /\ snd pc = 0 /\
  tst (flags (serial w1)) ASYNC_SPD_CUST = false /\
  custom_divisor (serial w1) = 0.
Proof.
  intros Er Hs H. unfold fill_params, fill_framing in H.
  rewrite linux_not_darwin, Er in H.
  apply bind_Ok in H. destruct H as (pc0 & w0 & H0 & H).
  apply bind_Ok in H. destruct H as (p5 & wa & Hf & H).
  apply bind_Ok in H. destruct H as (p6 & wb & Ht & H).
  injection H as <- <-.
  apply bind_Ok in H0. destruct H0 as (pa & wc & Ha & H0).
  injection Ha as <- <-.
  apply bind_Ok in H0. destruct H0 as (pc1 & wd & Hr & H0).
  apply bind_Ok in H0. destruct H0 as (p2 & we & Hb & H0).
  apply bind_Ok in H0. destruct H0 as (p3 & wf & Hst & H0).
  apply bind_Ok in H0. destruct H0 as (p4 & wg & Hp & H0).
  injection H0 as <- <-.
  destruct (SetDataRate_standard _ _ _ _ _ _ _ Hs Hr) as (-> & S1 & S2).
  pose proof (SetDataBits_pure _ _ _ _ _ Hb) as <-.
  pose proof (SetStopBits_pure _ _ _ _ _ Hst) as <-.
  pose proof (SetParity_pure _ _ _ _ _ Hp) as <-.
  pose proof (SetFlowControl_pure _ _ _ _ _ Hf) as <-.
  pose proof (SetReadTimeout_pure _ _ _ _ _ Ht) as <-.
  simpl in *.
  rewrite (SetReadTimeout_ospeed _ _ _ _ _ Ht),
    (SetFlowControl_ospeed _ _ _ _ _ Hf), (SetParity_ospeed _ _ _ _ _ Hp),
    (SetStopBits_ospeed _ _ _ _ _ Hst), (SetDataBits_ospeed _ _ _ _ _ Hb).
  auto.
Qed.

Lemma sp_set_modem_params_impl_standard_rate argv self w v w' r b :
  data_rate_arg argv = Fixnum r ->
  std_speed r = Some b ->
  sp_set_modem_params_impl argv self w = (Ok v, w') ->
  tst (flags (serial w')) ASYNC_SPD_CUST = false /\
  custom_divisor (serial w') = 0 /\
  cfgetospeed (tty w') = b.
Proof.
  intros Er Hs H. unfold sp_set_modem_params_impl in H.
  destruct (Z.of_nat (length argv) =? 0) eqn:E0.
  { destruct argv; [discriminate | discriminate]. }
  apply bind_Ok in H. destruct H as (o & w0 & _ & H).
  destruct o as [params |]; [| discriminate].
  apply bind_Ok in H. destruct H as (pc & w1 & Hf & H).
  destruct (fill_params_standard _ _ _ _ _ _ _ _ Er Hs Hf)
    as (Eo & Ec & S1 & S2).
  apply bind_Ok in H. destruct H as (okc & w2 & Hc & H).
  destruct okc; [| discriminate]. simpl negb in H. cbv iota in H.
  rewrite linux_not_darwin, linux, Ec in H. simpl in H.
  unfold bind, ret in H. injection H as _ <-.
  unfold tcsetattr in Hc.
  destruct (tcsetattr_ok (sys w1)); [| discriminate].
  injection Hc as <-. simpl. auto.
Qed.

End LinuxStandardRate.

(** With the constants of glibc the two rate tables are inverse to each
    other, so the inspection that follows reports the rate just set. *)
Lemma linux_std_rate_std_speed r b :
  std_speed (P := linux_build) r = Some b ->
  std_rate (P := linux_build) b = Some r.
Proof.
  unfold std_speed. simpl.
  repeat match goal with
         | |- context [r =? ?k] =>
             destruct (Z.eqb_spec r k);
             [subst; intros [= <-]; reflexivity |]
         end.
  discriminate.
Qed.

Lemma linux_standard_rate_inspect argv self w v w' r b mp0 :
  data_rate_arg argv = Fixnum r ->
  std_speed (P := linux_build) r = Some b ->
  sp_set_modem_params_impl (P := linux_build) argv self w = (Ok v, w') ->
  tst (flags (serial w')) (ASYNC_SPD_CUST (build := linux_build)) = false /\
  custom_divisor (serial w') = 0 /\
  exists mp w'',
    get_modem_params_impl (P := linux_build) self mp0 w' = (Ok mp, w'') /\
    data_rate mp = r.
Proof.
  intros Er Hs H.
  destruct (sp_set_modem_params_impl_standard_rate (P := linux_build)
              eq_refl _ _ _ _ _ _ _ Er Hs H) as (S1 & S2 & S3).
  split; [exact S1 |]. split; [exact S2 |].
  destruct (sp_set_modem_params_impl_cases _ _ _ _ _ H)
    as [(-> & _) | [(_ & _ & N) | (pc & w1 & Hg & _ & _ & _ & Es)]].
  { discriminate. }
  { exfalso. apply (N v). reflexivity. }
  unfold get_modem_params_impl, bind at 1, tcgetattr.
  rewrite Es, Hg, S3, (linux_std_rate_std_speed _ _ Hs).
  do 2 eexists. split; reflexivity.
Qed.

(** ** More on the read-timeout mapper *)

Section ReadTimeoutMore.
Context {P : build}.

(** X7: for every [int] request up to [INT_MAX - 50], positive or not,
    setting the read timeout and reading it back gives [read_back]:
    requests of 1 to 49 ms come back as -1, and the tenths of a second
    are kept modulo 256.  Above [INT_MAX - 50] the sum [timeout + 50]
    overflows: the setter has no defined behaviour there, and the model
    stops at it before any [tcsetattr]. *)
Theorem read_timeout_round_trip_any (self : VALUE) (t : Z) (w : world) :
  VTIME <> VMIN ->
  (VTIME < length (c_cc (tty w)))%nat ->
  (VMIN < length (c_cc (tty w)))%nat ->
  tcgetattr_ok (sys w) = true ->
  tcsetattr_ok (sys w) = true ->
  INT_MIN <= t <= INT_MAX ->
  (t <= INT_MAX - 50 ->
   read_timeout_round_trip self t w = Some (read_back t)) /\
  (INT_MAX - 50 < t ->
   sp_set_read_timeout_impl self (Fixnum t) w
   = (Undefined "read_timeout + 50 overflows int", log EvTcgetattr w)) /\
  (0 < t < 50 -> read_back t = -1) /\
  (read_back t = -1 \/
   0 <= read_back t <= 25500 /\ (read_back t) mod 100 = 0).
Proof.
  intros Hne Ht Hm Hg Hs Hfit.
  assert (Erun :
    sp_set_read_timeout_impl self (Fixnum t) w
    = (let! params := apply_read_timeout t (tty w) in
       let! ok := tcsetattr params in
       if negb ok then rb_raise (rb_sys_fail sTcsetattr)
       else ret (Fixnum t)) (log EvTcgetattr w)).
  { unfold sp_set_read_timeout_impl.
    rewrite (bind_run _ _ w tt w) by reflexivity.
    rewrite (bind_run _ _ w t w) by (apply FIX2INT_fits; exact Hfit).
    rewrite (bind_run _ _ w (Some (tty w)) (log EvTcgetattr w))
      by (unfold tcgetattr; rewrite Hg; reflexivity).
    reflexivity. }
  split; [| split; [| split]].
  - intros Hb.
    destruct (apply_read_timeout_runs t (tty w) (log EvTcgetattr w))
      as (p & Ea); [lia |].
    destruct (apply_read_timeout_fields _ _ _ _ _ Hne Ht Hm Ea)
      as (_ & _ & Et & Em).
    assert (Ed : decode_read_timeout p = read_back t).
    { unfold decode_read_timeout, read_back. rewrite Et, Em. unfold cc_t.
      destruct (t <? 0); [reflexivity |].
      destruct (t =? 0); [reflexivity |].
      rewrite andb_true_r. reflexivity. }
    unfold read_timeout_round_trip. rewrite Erun.
    rewrite (bind_run _ _ _ _ _ Ea).
    rewrite (bind_run _ _ _ true
               (put_tty p (log (EvTcsetattr p) (log EvTcgetattr w))))
      by (unfold tcsetattr; simpl; rewrite Hs; reflexivity).
    unfold sp_get_read_timeout_impl, bind, tcgetattr. simpl.
    rewrite Hg, Ed. reflexivity.
  - intros Hb. rewrite Erun. unfold bind at 1.
    rewrite apply_read_timeout_overflow by (unfold INT_MAX in *; lia).
    reflexivity.
  - intros Hr. unfold read_back.
    replace (t <? 0) with false by (symmetry; apply Z.ltb_ge; lia).
    replace (t =? 0) with false by (symmetry; apply Z.eqb_neq; lia).
    rewrite Z.quot_div_nonneg by lia.
    rewrite Z.div_small by lia. reflexivity.
  - unfold read_back.
    destruct (t <? 0); [left; reflexivity |].
    destruct (t =? 0); [right; split; [lia | reflexivity] |].
    set (v := Z.quot (t + 50) 100 mod 256).
    assert (0 <= v < 256) by (apply Z.mod_pos_bound; lia).
    destruct (v =? 0); [left; reflexivity |].
    right. split; [lia |]. apply Z.mod_mul. lia.
Qed.

(** X8: a successful [sp_set_read_timeout_impl] writes the two timing
    slots of [c_cc] and nothing else: the four flag words, the speeds and
    every other slot are as they were, and so are the driver's
    serial_struct and the session's cached rate. *)
Theorem sp_set_read_timeout_impl_frame (self val : VALUE) (w : world)
    (v : VALUE) (w' : world) :
  sp_set_read_timeout_impl self val w = (Ok v, w') ->
  v = val /\
  c_iflag (tty w') = c_iflag (tty w) /\
  c_oflag (tty w') = c_oflag (tty w) /\
  c_cflag (tty w') = c_cflag (tty w) /\
  c_lflag (tty w') = c_lflag (tty w) /\
  c_ispeed (tty w') = c_ispeed (tty w) /\
  c_ospeed (tty w') = c_ospeed (tty w) /\
  (forall i, i <> VTIME -> i <> VMIN ->
             c_cc (tty w') !! i = c_cc (tty w) !! i) /\
  length (c_cc (tty w')) = length (c_cc (tty w)) /\
  serial w' = serial w /\ iv_custom_baud w' = iv_custom_baud w.
Proof.
  unfold sp_set_read_timeout_impl. intros H.
  apply bind_Ok in H. destruct H as ([] & w0 & H0 & H).
  unfold Check_Type in H0.
  destruct (rtype_eqb (TYPE val) T_FIXNUM); [| discriminate].
  injection H0 as <-.
  apply bind_Ok in H. destruct H as (t & w1 & Ht & H).
  pose proof (FIX2INT_pure _ _ _ _ Ht) as <-.
  apply bind_Ok in H. destruct H as (o & w2 & Hg & H).
  unfold tcgetattr in Hg. injection Hg as <- <-.
  destruct (tcgetattr_ok (sys w)); [| discriminate].
  apply bind_Ok in H. destruct H as (p & w3 & Ha & H).
  destruct (apply_read_timeout_keeps _ _ _ _ _ Ha)
    as (K1 & K2 & K3 & K4 & K5 & K6 & K7 & K8).
  unfold apply_read_timeout in Ha.
  assert (w3 = log EvTcgetattr w) as ->.
  { destruct (t <? 0); [| destruct (t =? 0);
      [| destruct (INT_MAX <? t + 50); [discriminate |]]];
      injection Ha as _ <-; reflexivity. }
  clear Ha.
  apply bind_Ok in H. destruct H as (okc & w4 & Hs & H).
  destruct okc; [| discriminate]. injection H as <- <-.
  unfold tcsetattr in Hs. simpl in Hs.
  destruct (tcsetattr_ok (sys w)); [| discriminate].
  injection Hs as <-. simpl.
  repeat split; assumption.
Qed.

End ReadTimeoutMore.

Lemma read_timeout_round_trip_any_witness :
  read_timeout_round_trip (P := linux_build) a_port 25600 linux_w0
  = Some (-1).
Proof.
  destruct (read_timeout_round_trip_any (P := linux_build) a_port 25600
              linux_w0) as (H & _).
  - simpl. lia.
  - simpl. lia.
  - simpl. lia.
  - reflexivity.
  - reflexivity.
  - unfold INT_MIN, INT_MAX. lia.
  - apply H. unfold INT_MAX. lia.
Defined.

Lemma sp_set_read_timeout_impl_frame_witness :
  c_cflag (tty (snd (sp_set_read_timeout_impl (P := linux_build) a_port
                       (Fixnum 300) linux_w_7O2)))
  = c_cflag (tty linux_w_7O2).
Proof.
  destruct (sp_set_read_timeout_impl_frame (P := linux_build) a_port
              (Fixnum 300) linux_w_7O2 (Fixnum 300)
              (snd (sp_set_read_timeout_impl (P := linux_build) a_port
                      (Fixnum 300) linux_w_7O2)) eq_refl)
    as (_ & _ & _ & H & _).
  exact H.
Defined.

(** ** Flow control on its own *)

Section FlowControl.
Context {P : build}.
Hypothesis fok : flow_ok P.

Lemma disjoint_add_lor a b : Z.land a b = 0 -> a + b = Z.lor a b.
Proof.
  intros H. rewrite Z.add_nocarry_lxor by exact H. apply Z.lxor_lor, H.
Qed.

Lemma tst_self m : m <> 0 -> tst m m = true.
Proof.
  intros H. unfold tst. rewrite Z.land_diag.
  apply negb_true_iff, Z.eqb_neq, H.
Qed.

Lemma tst_set c m : m <> 0 -> tst (Z.lor c m) m = true.
Proof.
  intros H. unfold tst. rewrite land_set_self.
  apply negb_true_iff, Z.eqb_neq, H.
Qed.

Lemma tst_clear c m : tst (Z.land c (Z.lnot m)) m = false.
Proof. unfold tst. rewrite land_clear_self. reflexivity. Qed.

(** Which bits a valid flow-control value has. *)
Lemma valid_flow_control_bits f :
  valid_flow_control f ->
  f = (if tst f HARD then HARD else 0) + (if tst f SOFT then SOFT else 0).
Proof.
  pose proof (ok_none P fok) as N0. pose proof (ok_hard P fok) as Hh.
  pose proof (ok_soft P fok) as Hs. pose proof (ok_hard_soft P fok) as D.
  assert (D' : Z.land SOFT HARD = 0) by (rewrite Z.land_comm; exact D).
  intros [-> | [-> | [-> | ->]]].
  - rewrite N0. reflexivity.
  - unfold tst at 1. rewrite D'. simpl. rewrite tst_self by exact Hs.
    reflexivity.
  - rewrite tst_self by exact Hh. unfold tst. rewrite D. simpl. lia.
  - rewrite tst_set by exact Hs.
    rewrite Z.lor_comm, tst_set by exact Hh.
    rewrite Z.lor_comm. symmetry. apply disjoint_add_lor, D.
Qed.

(** The attributes the flow-control chain produces decode to the value
    it was given. *)
Lemma apply_flow_control_decode f p w p' w' :
  apply_flow_control f p w = (Ok p', w') ->
  valid_flow_control f /\
  decode_flow_control p' = f /\
  (match CRTSCTS with
   | Some crtscts => if tst (c_cflag p') crtscts then 0 + HARD else 0
   | None => 0
   end
   + (if tst (c_iflag p') (Z.lor (Z.lor IXON IXOFF) IXANY) then SOFT else 0)
   = f).
Proof.
  pose proof (ok_none P fok) as N0. pose proof (ok_ixmask P fok) as Hx.
  pose proof (ok_crtscts_nz P fok) as Hc.
  intros H. unfold apply_flow_control in H.
  destruct (negb (f =? NONE) && negb (f =? SOFT) && negb (f =? HARD)
            && negb (f =? Z.lor HARD SOFT)) eqn:Ev; [discriminate |].
  assert (Hv : valid_flow_control f).
  { unfold valid_flow_control.
    destruct (Z.eqb_spec f NONE); [auto |].
    destruct (Z.eqb_spec f SOFT); [auto |].
    destruct (Z.eqb_spec f HARD); [auto |].
    destruct (Z.eqb_spec f (Z.lor HARD SOFT)); [auto | discriminate]. }
  split; [exact Hv |].
  pose proof (valid_flow_control_bits f Hv) as Ef.
  unfold decode_flow_control. rewrite N0.
  assert (G : forall c i,
    c_cflag p' = c -> c_iflag p' = i ->
    (match CRTSCTS with
     | Some crtscts => tst c crtscts
     | None => false
     end) = tst f HARD ->
    tst i (Z.lor (Z.lor IXON IXOFF) IXANY) = tst f SOFT ->
    (let ret1 := match CRTSCTS with
                 | Some crtscts => if tst (c_cflag p') crtscts
                                   then 0 + HARD else 0
                 | None => 0
                 end in
     if tst (c_iflag p') (Z.lor (Z.lor IXON IXOFF) IXANY)
     then ret1 + SOFT else ret1) = f /\
    (match CRTSCTS with
     | Some crtscts => if tst (c_cflag p') crtscts then 0 + HARD else 0
     | None => 0
     end
     + (if tst (c_iflag p') (Z.lor (Z.lor IXON IXOFF) IXANY)
        then SOFT else 0) = f)).
  { intros c i -> -> E1 E2. cbv zeta. rewrite E2.
    remember (tst f HARD) as bh. remember (tst f SOFT) as bs.
    rewrite Ef.
    destruct CRTSCTS as [crtscts |];
      [rewrite E1; destruct bh | rewrite <- E1];
      destruct bs; simpl; split; lia. }
  destruct (tst f HARD) eqn:Th, (tst f SOFT) eqn:Ts,
    CRTSCTS as [crtscts |] eqn:Ec;
    unfold bind, ret, rb_raise in H; simpl in H; try discriminate;
    injection H as <- _; simpl;
    eapply G; try reflexivity; simpl;
    rewrite ?tst_set, ?tst_clear by auto; reflexivity.
Qed.

(** X4: with hardware flow control compiled in or not, a flow-control
    value that [sp_set_flow_control_impl] accepts is the value
    [sp_get_flow_control_impl] reads back afterwards. *)
Theorem flow_control_round_trip_id (self : VALUE) (f : Z) (w w1 : world)
    (v : VALUE) :
  sp_set_flow_control_impl self (Fixnum f) w = (Ok v, w1) ->
  v = Fixnum f /\ valid_flow_control f /\
  sp_get_flow_control_impl self w1 = (Ok (Fixnum f), log EvTcgetattr w1) /\
  flow_control_round_trip self f w = Some f.
Proof.
  intros H. pose proof H as H'.
  unfold sp_set_flow_control_impl in H.
  apply bind_Ok in H. destruct H as ([] & w0 & H0 & H).
  injection H0 as <-.
  apply bind_Ok in H. destruct H as (o & w2 & Hg & H).
  unfold tcgetattr in Hg. injection Hg as <- <-.
  destruct (tcgetattr_ok (sys w)) eqn:Eg; [| discriminate].
  apply bind_Ok in H. destruct H as (n & w3 & Hn & H).
  assert (n = f /\ w3 = log EvTcgetattr w) as [-> ->].
  { unfold FIX2INT in Hn.
    destruct ((INT_MIN <=? f) && (f <=? INT_MAX)); [| discriminate].
    injection Hn as <- <-. auto. }
  apply bind_Ok in H. destruct H as (p' & w4 & Ha & H).
  apply bind_Ok in H. destruct H as (okc & w5 & Hs & H).
  destruct okc; [| discriminate]. injection H as <- <-.
  pose proof (apply_flow_control_pure _ _ _ _ _ Ha) as <-.
  destruct (apply_flow_control_decode _ _ _ _ _ Ha) as (Hv & _ & Hd).
  unfold tcsetattr in Hs. simpl in Hs.
  destruct (tcsetattr_ok (sys w)); [| discriminate].
  injection Hs as <-.
  assert (Eget :
    sp_get_flow_control_impl self
      (put_tty p' (log (EvTcsetattr p') (log EvTcgetattr w)))
    = (Ok (Fixnum f),
       log EvTcgetattr
         (put_tty p' (log (EvTcsetattr p') (log EvTcgetattr w))))).
  { unfold sp_get_flow_control_impl, bind, tcgetattr. simpl. rewrite Eg.
    unfold ret, INT2FIX. do 2 f_equal. rewrite <- Hd. f_equal.
    destruct CRTSCTS as [crtscts |];
      [destruct (tst (c_cflag p') crtscts) |];
      destruct (tst (c_iflag p') (Z.lor (Z.lor IXON IXOFF) IXANY)); lia. }
  split; [reflexivity |]. split; [exact Hv |]. split; [exact Eget |].
  unfold flow_control_round_trip. rewrite H', Eget. reflexivity.
Qed.

End FlowControl.

Lemma linux_flow_ok : flow_ok linux_build.
Proof.
  constructor.
  - reflexivity.
  - discriminate.
  - discriminate.
  - reflexivity.
  - vm_compute. discriminate.
  - intros c [= <-]. discriminate.
Defined.

Lemma flow_control_round_trip_id_witness :
  flow_control_round_trip (P := linux_build) a_port 3 linux_w0 = Some 3.
Proof.
  destruct (flow_control_round_trip_id (P := linux_build) linux_flow_ok
              a_port 3 linux_w0
              (snd (sp_set_flow_control_impl (P := linux_build) a_port
                      (Fixnum 3) linux_w0))
              (Fixnum 3) eq_refl) as (_ & _ & _ & H).
  exact H.
Defined.

Section FlowControlFrame.
Context {P : build}.

Lemma apply_flow_control_rest f p w p' w' :
  apply_flow_control f p w = (Ok p', w') ->
  c_oflag p' = c_oflag p /\ c_lflag p' = c_lflag p /\ c_cc p' = c_cc p /\
  c_ispeed p' = c_ispeed p /\ c_ospeed p' = c_ospeed p.
Proof.
  unfold apply_flow_control. intros H. run_inv H; repeat split.
Qed.

(** What a run of [sp_set_flow_control_impl] is made of. *)
Lemma sp_set_flow_control_impl_cases self val w r w' :
  sp_set_flow_control_impl self val w = (r, w') ->
  (tty w' = tty w /\ forall v, r <> Ok v) \/
  (exists f,
      val = Fixnum f /\ r = Ok val /\
      apply_flow_control f (tty w) (log EvTcgetattr w)
      = (Ok (tty w'), log EvTcgetattr w)).
Proof.
  unfold sp_set_flow_control_impl. intros H.
  unfold bind at 1, Check_Type in H.
  destruct val as [| f | | | |]; simpl in H;
    try (injection H as <- <-; left; split; [reflexivity | congruence]).
  unfold bind at 1, tcgetattr in H.
  destruct (tcgetattr_ok (sys w)).
  2:{ injection H as <- <-. left. split; [reflexivity | congruence]. }
  unfold bind at 1, FIX2INT in H.
  destruct ((INT_MIN <=? f) && (f <=? INT_MAX)).
  2:{ injection H as <- <-. left. split; [reflexivity | congruence]. }
  simpl in H. unfold bind at 1 in H.
  destruct (apply_flow_control f (tty w) (log EvTcgetattr w))
    as [[p' | e | u] w1] eqn:Ha;
    pose proof (apply_flow_control_pure _ _ _ _ _ Ha) as <-.
  2,3: injection H as <- <-; left; split; [reflexivity | congruence].
  unfold bind, tcsetattr in H. simpl in H.
  destruct (tcsetattr_ok (sys w)); simpl in H; injection H as <- <-.
  - right. exists f. auto.
  - left. split; [reflexivity | congruence].
Qed.

(** X6: [sp_set_flow_control_impl] changes the line only when it
    returns: after a wrong type, a failed [tcgetattr], a value outside
    the four valid ones, HARD on a build without CRTSCTS or a failed
    [tcsetattr], the attributes are those the line had. *)
Theorem sp_set_flow_control_impl_failure (self val : VALUE) (w : world)
    (r : outcome VALUE) (w' : world) :
  sp_set_flow_control_impl self val w = (r, w') ->
  (forall v, r <> Ok v) ->
  tty w' = tty w /\ serial w' = serial w /\
  iv_custom_baud w' = iv_custom_baud w.
Proof.
  intros H N.
  destruct (sp_set_flow_control_impl_cases _ _ _ _ _ H)
    as [[E _] | (f & _ & -> & _)].
  2:{ exfalso. apply (N val). reflexivity. }
  split; [exact E |].
  clear E N. unfold sp_set_flow_control_impl in H.
  assert (Q : preserves
                (fun a b => serial b = serial a /\
                            iv_custom_baud b = iv_custom_baud a)
                (sp_set_flow_control_impl self val)).
  { unfold sp_set_flow_control_impl.
    assert (Rf : Reflexive (fun a b : world =>
                  serial b = serial a /\
                  iv_custom_baud b = iv_custom_baud a))
      by (intros a; auto).
    assert (Tr : Transitive (fun a b : world =>
                  serial b = serial a /\
                  iv_custom_baud b = iv_custom_baud a)).
    { intros a b c [] []. split; congruence. }
    apply preserves_bind; [exact Tr | |intros []].
    { apply pure_preserves; [exact Rf | apply Check_Type_pure]. }
    apply preserves_bind; [exact Tr | |intros o].
    { intros a b c E. unfold tcgetattr in E. injection E as _ <-. auto. }
    destruct o; [| apply preserves_raise; exact Rf].
    apply preserves_bind; [exact Tr | |intros n].
    { apply pure_preserves; [exact Rf | apply FIX2INT_pure]. }
    apply preserves_bind; [exact Tr | |intros p'].
    { apply pure_preserves; [exact Rf | apply apply_flow_control_pure]. }
    apply preserves_bind; [exact Tr | |intros okc].
    { intros a b c E. unfold tcsetattr in E.
      destruct (tcsetattr_ok (sys a)); injection E as _ <-; auto. }
    apply preserves_if; [apply preserves_raise | apply preserves_ret];
      exact Rf. }
  apply (Q _ _ _ H).
Qed.

Hypothesis ok : build_ok P.

(** X5: a successful [sp_set_flow_control_impl] leaves the data bits,
    stop bits, parity, read timeout and speed of the line as inspection
    decodes them. *)
Theorem sp_set_flow_control_impl_frame (self val : VALUE) (w : world)
    (v : VALUE) (w' : world) :
  sp_set_flow_control_impl self val w = (Ok v, w') ->
  decode_data_bits (tty w') = decode_data_bits (tty w) /\
  tst (c_cflag (tty w')) CSTOPB = tst (c_cflag (tty w)) CSTOPB /\
  decode_parity (tty w') = decode_parity (tty w) /\
  decode_read_timeout (tty w') = decode_read_timeout (tty w) /\
  cfgetospeed (tty w') = cfgetospeed (tty w).
Proof.
  intros H.
  destruct (sp_set_flow_control_impl_cases _ _ _ _ _ H)
    as [[_ N] | (f & _ & _ & Ha)].
  { exfalso. apply (N v). reflexivity. }
  destruct (apply_flow_control_Ok _ _ _ _ _ Ha) as (_ & K & _).
  destruct (apply_flow_control_rest _ _ _ _ _ Ha) as (_ & _ & Ecc & _ & Eo).
  assert (Kc : forall k,
             k = CSIZE \/ k = CSTOPB \/ k = PARENB \/ k = PARODD ->
             Z.land (c_cflag (tty w')) k = Z.land (c_cflag (tty w)) k).
  { intros k Hk. apply K. intros c Hc.
    destruct (ok_crtscts P ok c Hc) as (C1 & C2 & C3 & C4).
    destruct Hk as [-> | [-> | [-> | ->]]]; assumption. }
  unfold decode_data_bits, decode_parity, decode_read_timeout, get_cc, tst,
    cfgetospeed.
  rewrite !Kc by auto. rewrite Ecc, Eo. auto.
Qed.

End FlowControlFrame.

Lemma sp_set_flow_control_impl_failure_witness :
  tty (snd (sp_set_flow_control_impl (P := linux_build) a_port (Fixnum 7)
              linux_w_7O2))
  = tty linux_w_7O2.
Proof.
  destruct (sp_set_flow_control_impl_failure (P := linux_build) a_port
              (Fixnum 7) linux_w_7O2
              (fst (sp_set_flow_control_impl (P := linux_build) a_port
                      (Fixnum 7) linux_w_7O2))
              (snd (sp_set_flow_control_impl (P := linux_build) a_port
                      (Fixnum 7) linux_w_7O2))) as (H & _).
  - reflexivity.
  - intros v. vm_compute. discriminate.
  - exact H.
Defined.

Lemma sp_set_flow_control_impl_frame_witness :
  decode_data_bits (P := linux_build)
    (tty (snd (sp_set_flow_control_impl (P := linux_build) a_port (Fixnum 3)
                 linux_w_7O2)))
  = decode_data_bits (P := linux_build) (tty linux_w_7O2).
Proof.
  destruct (sp_set_flow_control_impl_frame (P := linux_build) linux_build_ok
              a_port (Fixnum 3) linux_w_7O2 (Fixnum 3)
              (snd (sp_set_flow_control_impl (P := linux_build) a_port
                      (Fixnum 3) linux_w_7O2)) eq_refl) as (H & _).
  exact H.
Defined.

(** ** The custom-rate side channel on its own *)

Section LinuxCustom.
Context {P : build}.

(** What a run of the Linux setter is made of. *)
Lemma Linux_set_custom_baud_rate_cases baud w r w' :
  Linux.set_custom_baud_rate baud w = (r, w') ->
  (serial w' = serial w /\ tty w' = tty w /\ sys w' = sys w /\
   forall z, r <> Ok z) \/
  (r = Ok 0 /\ 0 < baud <= baud_base (serial w) /\
   tiocgserial_ok (sys w) = true /\
   w' = put_serial
          (mk_serial
             (Z.lor (Z.land (flags (serial w)) (Z.lnot ASYNC_SPD_MASK))
                    ASYNC_SPD_CUST)
             (Z.quot (baud_base (serial w)) baud)
             (baud_base (serial w)))
          (log (EvTIOCSSERIAL
                  (mk_serial
                     (Z.lor (Z.land (flags (serial w))
                                    (Z.lnot ASYNC_SPD_MASK))
                            ASYNC_SPD_CUST)
                     (Z.quot (baud_base (serial w)) baud)
                     (baud_base (serial w))))
             (log EvTIOCGSERIAL w))).
Proof.
  unfold Linux.set_custom_baud_rate. intros H.
  destruct (Z.leb_spec baud 0).
  { injection H as <- <-. left. repeat split. congruence. }
  unfold bind at 1, ioctl_TIOCGSERIAL in H.
  destruct (tiocgserial_ok (sys w)) eqn:Eg.
  2:{ injection H as <- <-. left. repeat split. congruence. }
  destruct (Z.ltb_spec (baud_base (serial w)) baud).
  { injection H as <- <-. left. repeat split. congruence. }
  unfold bind, ioctl_TIOCSSERIAL in H. simpl in H.
  destruct (tiocsserial_ok (sys w)); simpl in H; injection H as <- <-.
  - right. repeat split; try lia.
  - left. repeat split. congruence.
Qed.

(** X10: the Linux setter writes the serial_struct only when it returns:
    a rate that is not positive is refused before any ioctl, a rate above
    the driver's base clock or a failing ioctl leaves the flags and the
    divisor as they were; the attributes are never touched. *)
Theorem Linux_set_custom_baud_rate_failure (baud : Z) (w : world)
    (r : outcome Z) (w' : world) :
  Linux.set_custom_baud_rate baud w = (r, w') ->
  tty w' = tty w /\
  ((forall z, r <> Ok z) -> serial w' = serial w) /\
  (baud <= 0 -> r = Raise (rb_eArgError "invalid baud rate") /\ w' = w) /\
  (0 < baud -> tiocgserial_ok (sys w) = true ->
   baud_base (serial w) < baud ->
   r = Raise (rb_eArgError "custom baud rate is too high")).
Proof.
  intros H. pose proof H as H'.
  destruct (Linux_set_custom_baud_rate_cases _ _ _ _ H)
    as [(E1 & E2 & _ & N) | (-> & Hb & Hg & ->)].
  - split; [exact E2 |]. split; [auto |]. split.
    + intros Hle. unfold Linux.set_custom_baud_rate in H'.
      replace (baud <=? 0) with true in H'
        by (symmetry; apply Z.leb_le; exact Hle).
      injection H' as <- <-. auto.
    + intros Hpos Hg Hhi. unfold Linux.set_custom_baud_rate in H'.
      replace (baud <=? 0) with false in H'
        by (symmetry; apply Z.leb_gt; exact Hpos).
      unfold bind, ioctl_TIOCGSERIAL in H'. rewrite Hg in H'.
      replace (baud_base (serial w) <? baud) with true in H'
        by (symmetry; apply Z.ltb_lt; exact Hhi).
      injection H' as <- _. reflexivity.
  - split; [reflexivity |]. split.
    + intros N. exfalso. apply (N 0). reflexivity.
    + split; intros; lia.
Qed.

(** X9: after the Linux setter has returned for a rate [baud], the
    getter returns the rate the stored divisor stands for,
    [base / (base / baud)]: never less than [baud], and [baud] itself
    when [baud] divides the driver's base clock. *)
Theorem Linux_set_then_get_custom_baud_rate (baud : Z) (w : world)
    (z : Z) (w1 : world) :
  ASYNC_SPD_CUST <> 0 ->
  Linux.set_custom_baud_rate baud w = (Ok z, w1) ->
  let base := baud_base (serial w) in
  custom_divisor (serial w1) = base / baud /\
  Linux.get_custom_baud_rate w1
  = (Ok (base / (base / baud)), log EvTIOCGSERIAL w1) /\
  baud <= base / (base / baud) /\
  (base mod baud = 0 -> base / (base / baud) = baud).
Proof.
  intros Hc H base.
  destruct (Linux_set_custom_baud_rate_cases _ _ _ _ H)
    as [(_ & _ & _ & N) | (_ & Hb & Hg & ->)].
  { exfalso. apply (N z). reflexivity. }
  fold base in Hb.
  assert (Hq : Z.quot base baud = base / baud)
    by (apply Z.quot_div_nonneg; lia).
  assert (Hd : 1 <= base / baud).
  { apply Z.div_le_lower_bound; lia. }
  assert (Hm : base / baud * baud <= base).
  { rewrite Z.mul_comm. apply Z.mul_div_le. lia. }
  split; [simpl; exact Hq |]. split; [| split].
  - rewrite Linux_get_custom_baud_rate_eq. simpl. fold base.
    rewrite Hg, Hq. rewrite tst_set by exact Hc.
    replace (0 <? base / baud) with true by (symmetry; apply Z.ltb_lt; lia).
    simpl. rewrite Z.quot_div_nonneg by lia. reflexivity.
  - apply Z.div_le_lower_bound; lia.
  - intros Hz.
    assert (Eb : base = baud * (base / baud)).
    { apply Z.div_exact; lia. }
    remember (base / baud) as d.
    symmetry. apply (Z.div_unique base d baud 0); lia.
Qed.

(** The state a returning clear leaves. *)
Lemma Linux_clear_custom_baud_rate_state w z w1 :
  Linux.clear_custom_baud_rate w = (Ok z, w1) ->
  tiocgserial_ok (sys w1) = true /\
  tst (flags (serial w1)) ASYNC_SPD_CUST = false /\
  custom_divisor (serial w1) = 0 /\
  baud_base (serial w1) = baud_base (serial w) /\
  (forall k, Z.land ASYNC_SPD_CUST k = 0 ->
             Z.land (flags (serial w1)) k = Z.land (flags (serial w)) k) /\
  tty w1 = tty w /\ sys w1 = sys w.
Proof.
  intros H.
  unfold Linux.clear_custom_baud_rate, bind, ioctl_TIOCGSERIAL,
    ioctl_TIOCSSERIAL in H.
  destruct (tiocgserial_ok (sys w)) eqn:Eg; simpl in H; [| discriminate].
  destruct (negb (tst (flags (serial w)) ASYNC_SPD_CUST)
            && (custom_divisor (serial w) =? 0)) eqn:E; simpl in H.
  - injection H as _ <-. simpl. apply andb_true_iff in E.
    destruct E as [E1 E2].
    apply negb_true_iff in E1. apply Z.eqb_eq in E2. auto 10.
  - destruct (tiocsserial_ok (sys w)); simpl in H; [| discriminate].
    injection H as _ <-. simpl. repeat split; try assumption.
    + apply tst_clear.
    + intros k Hk. apply land_clear_keep, Hk.
Qed.

(** X11: after the Linux clear has returned, the getter returns 0, the
    base clock and the flags outside ASYNC_SPD_CUST are as they were, and
    a second clear finds nothing to do: it reads the serial_struct and
    writes nothing. *)
Theorem Linux_clear_custom_baud_rate_idempotent (w : world) (z : Z)
    (w1 : world) :
  Linux.clear_custom_baud_rate w = (Ok z, w1) ->
  Linux.get_custom_baud_rate w1 = (Ok 0, log EvTIOCGSERIAL w1) /\
  Linux.clear_custom_baud_rate w1 = (Ok 0, log EvTIOCGSERIAL w1) /\
  baud_base (serial w1) = baud_base (serial w) /\
  (forall k, Z.land ASYNC_SPD_CUST k = 0 ->
             Z.land (flags (serial w1)) k = Z.land (flags (serial w)) k) /\
  tty w1 = tty w.
Proof.
  intros H.
  destruct (Linux_clear_custom_baud_rate_state _ _ _ H)
    as (Hg & Hf & Hd & Hb & Hk & Ht & _).
  split; [| split; [| auto]].
  - rewrite Linux_get_custom_baud_rate_eq, Hf, andb_false_r. reflexivity.
  - unfold Linux.clear_custom_baud_rate, bind, ioctl_TIOCGSERIAL.
    rewrite Hg. simpl. rewrite Hf, Hd. reflexivity.
Qed.

End LinuxCustom.

Section DarwinCustom.
Context {P : build}.

(** X12: on Darwin the rate handed to a setter that returns is the rate
    the getter returns afterwards; a setter whose ioctl fails leaves the
    cached rate alone; after a clear the getter returns 0. *)
Theorem Darwin_set_then_get_custom_baud_rate (self : VALUE) (baud : Z)
    (w : world) :
  INT_MIN <= baud <= INT_MAX ->
  (forall z w1,
      Darwin.set_custom_baud_rate self baud w = (Ok z, w1) ->
      Darwin.get_custom_baud_rate self w1 = (Ok baud, w1)) /\
  (forall r w1,
      Darwin.set_custom_baud_rate self baud w = (r, w1) ->
      (forall z, r <> Ok z) ->
      iv_custom_baud w1 = iv_custom_baud w) /\
  (forall params params' w1,
      Darwin.clear_custom_baud_rate self params w = (Ok params', w1) ->
      Darwin.get_custom_baud_rate self w1 = (Ok 0, w1)).
Proof.
  intros Hfit. split; [| split].
  - intros z w1 H.
    unfold Darwin.set_custom_baud_rate, bind, ioctl_IOSSIOSPEED,
      rb_iv_set_custom_baud in H. simpl in H.
    destruct (iossiospeed_ok (sys w)); simpl in H; [| discriminate].
    injection H as _ <-.
    unfold Darwin.get_custom_baud_rate, bind, rb_iv_get_custom_baud.
    simpl. apply FIX2INT_fits, Hfit.
  - intros r w1 H N.
    unfold Darwin.set_custom_baud_rate, bind, ioctl_IOSSIOSPEED,
      rb_iv_set_custom_baud in H. simpl in H.
    destruct (iossiospeed_ok (sys w)); simpl in H; injection H as <- <-.
    + exfalso. apply (N 0). reflexivity.
    + reflexivity.
  - intros params params' w1 H.
    unfold Darwin.clear_custom_baud_rate, bind, rb_iv_set_custom_baud in H.
    simpl in H. injection H as _ <-. reflexivity.
Qed.

End DarwinCustom.

Lemma Linux_set_custom_baud_rate_failure_witness :
  serial (snd (Linux.set_custom_baud_rate (P := linux_build) 250000
                 linux_w_slow_base))
  = serial linux_w_slow_base.
Proof.
  destruct (Linux_set_custom_baud_rate_failure (P := linux_build) 250000
              linux_w_slow_base
              (fst (Linux.set_custom_baud_rate (P := linux_build) 250000
                      linux_w_slow_base))
              (snd (Linux.set_custom_baud_rate (P := linux_build) 250000
                      linux_w_slow_base)) eq_refl) as (_ & H & _).
  apply H. intros z. vm_compute. discriminate.
Defined.

Lemma Linux_set_then_get_custom_baud_rate_witness :
  Linux.get_custom_baud_rate (P := linux_build)
    (snd (Linux.set_custom_baud_rate (P := linux_build) 250000 linux_w0))
  = (Ok 250000,
     log EvTIOCGSERIAL
       (snd (Linux.set_custom_baud_rate (P := linux_build) 250000
               linux_w0))).
Proof.
  destruct (Linux_set_then_get_custom_baud_rate (P := linux_build) 250000
              linux_w0 0
              (snd (Linux.set_custom_baud_rate (P := linux_build) 250000
                      linux_w0)))
    as (_ & H & _).
  - discriminate.
  - reflexivity.
  - exact H.
Defined.

Lemma Linux_clear_custom_baud_rate_idempotent_witness :
  Linux.get_custom_baud_rate (P := linux_build)
    (snd (Linux.clear_custom_baud_rate (P := linux_build) linux_w_custom))
  = (Ok 0,
     log EvTIOCGSERIAL
       (snd (Linux.clear_custom_baud_rate (P := linux_build)
               linux_w_custom))).
Proof.
  destruct (Linux_clear_custom_baud_rate_idempotent (P := linux_build)
              linux_w_custom 0
              (snd (Linux.clear_custom_baud_rate (P := linux_build)
                      linux_w_custom)) eq_refl) as (H & _).
  exact H.
Defined.

Lemma Darwin_set_then_get_custom_baud_rate_witness :
  Darwin.get_custom_baud_rate a_port
    (snd (Darwin.set_custom_baud_rate a_port 31250 darwin_w_custom))
  = (Ok 31250,
     snd (Darwin.set_custom_baud_rate a_port 31250 darwin_w_custom)).
Proof.
  destruct (Darwin_set_then_get_custom_baud_rate (P := darwin_build) a_port
              31250 darwin_w_custom) as (H & _).
  - unfold INT_MIN, INT_MAX. lia.
  - apply (H 0). reflexivity.
Defined.

(** ** Configure, then inspect *)

Section ConfigureChain.
Context {P : build}.

Lemma SetDataBits_cc v p w p' w' :
  SetDataBits v p w = (Ok p', w') -> c_cc p' = c_cc p.
Proof.
  unfold SetDataBits. intros H. destruct v; run_inv H; reflexivity.
Qed.

Lemma SetStopBits_cc v p w p' w' :
  SetStopBits v p w = (Ok p', w') -> c_cc p' = c_cc p.
Proof.
  unfold SetStopBits. intros H. destruct v; run_inv H; reflexivity.
Qed.

Lemma SetParity_cc v p w p' w' :
  SetParity v p w = (Ok p', w') -> c_cc p' = c_cc p.
Proof.
  unfold SetParity. intros H. destruct v; run_inv H; reflexivity.
Qed.

Lemma SetFlowControl_cc v p w p' w' :
  SetFlowControl v p w = (Ok p', w') -> c_cc p' = c_cc p.
Proof.
  unfold SetFlowControl, apply_flow_control. intros H.
  destruct v; run_inv H; reflexivity.
Qed.

Lemma SetDataRate_cc v p c w pc w' :
  SetDataRate v p c w = (Ok pc, w') -> c_cc (fst pc) = c_cc p.
Proof.
  unfold SetDataRate. intros H.
  destruct (NIL_P v); [injection H as <- _; auto |].
  repeat (apply bind_Ok in H; destruct H as (? & ? & _ & H)).
  match type of H with
  | (if ?b then _ else _) _ = _ => destruct b; [discriminate |]
  end.
  repeat (apply bind_Ok in H; destruct H as (? & ? & _ & H)).
  injection H as <- _. auto.
Qed.

(** A successful pass over the six steps, step by step. *)
Lemma fill_params_chain argv self p w pc w1 :
  fill_params argv self p w = (Ok pc, w1) ->
  exists p1 p2 p3 p4 p5,
    c_iflag p1 = c_iflag p /\ c_cflag p1 = c_cflag p /\ c_cc p1 = c_cc p /\
    SetDataBits (data_bits_arg argv) p1 w1 = (Ok p2, w1) /\
    SetStopBits (stop_bits_arg argv) p2 w1 = (Ok p3, w1) /\
    SetParity (parity_arg argv p3) p3 w1 = (Ok p4, w1) /\
    SetFlowControl (flow_control_arg argv) p4 w1 = (Ok p5, w1) /\
    SetReadTimeout (read_timeout_arg argv) p5 w1 = (Ok (fst pc), w1).
Proof.
  unfold fill_params, fill_framing. intros H.
  apply bind_Ok in H. destruct H as (pc0 & w0 & H0 & H).
  apply bind_Ok in H. destruct H as (p5 & wa & Hf & H).
  apply bind_Ok in H. destruct H as (p6 & wb & Ht & H).
  injection H as <- <-.
  apply bind_Ok in H0. destruct H0 as (pa & wc & Ha & H0).
  apply bind_Ok in H0. destruct H0 as (pc1 & wd & Hr & H0).
  apply bind_Ok in H0. destruct H0 as (p2 & we & Hb & H0).
  apply bind_Ok in H0. destruct H0 as (p3 & wf & Hst & H0).
  apply bind_Ok in H0. destruct H0 as (p4 & wg & Hp & H0).
  injection H0 as <- <-.
  pose proof (SetDataBits_pure _ _ _ _ _ Hb) as <-.
  pose proof (SetStopBits_pure _ _ _ _ _ Hst) as <-.
  pose proof (SetParity_pure _ _ _ _ _ Hp) as <-.
  pose proof (SetFlowControl_pure _ _ _ _ _ Hf) as <-.
  pose proof (SetReadTimeout_pure _ _ _ _ _ Ht) as <-.
  simpl in *.
  exists (fst pc1), p2, p3, p4, p5.
  destruct (SetDataRate_Ok _ _ _ _ _ _ Hr) as [Ei Ec].
  pose proof (SetDataRate_cc _ _ _ _ _ _ Hr) as Ecc.
  assert (E0 : c_iflag (fst pa) = c_iflag p /\ c_cflag (fst pa) = c_cflag p
               /\ c_cc (fst pa) = c_cc p).
  { destruct is_darwin.
    - apply bind_Ok in Ha. destruct Ha as (c0 & ? & _ & Ha).
      apply bind_Ok in Ha. destruct Ha as (p0 & ? & Hc & Ha).
      injection Ha as <- _.
      unfold Darwin.clear_custom_baud_rate, bind, rb_iv_set_custom_baud, ret
        in Hc.
      injection Hc as <- _. auto.
    - injection Ha as <- _. auto. }
  destruct E0 as (E0i & E0c & E0cc).
  repeat split; try assumption; congruence.
Qed.

Lemma sp_set_modem_params_impl_chain argv self w v w' :
  argv <> [] ->
  sp_set_modem_params_impl argv self w = (Ok v, w') ->
  exists w1 p1 p2 p3 p4 p5,
    c_iflag p1 = c_iflag (tty w) /\ c_cflag p1 = c_cflag (tty w) /\
    c_cc p1 = c_cc (tty w) /\
    SetDataBits (data_bits_arg argv) p1 w1 = (Ok p2, w1) /\
    SetStopBits (stop_bits_arg argv) p2 w1 = (Ok p3, w1) /\
    SetParity (parity_arg argv p3) p3 w1 = (Ok p4, w1) /\
    SetFlowControl (flow_control_arg argv) p4 w1 = (Ok p5, w1) /\
    SetReadTimeout (read_timeout_arg argv) p5 w1 = (Ok (tty w'), w1).
Proof.
  intros Hne H.
  destruct (sp_set_modem_params_impl_cases _ _ _ _ _ H)
    as [(-> & _) | [(_ & _ & N) | (pc & w1 & _ & _ & Hf & E & _)]].
  - congruence.
  - exfalso. apply (N v). reflexivity.
  - destruct (fill_params_chain _ _ _ _ _ _ Hf)
      as (p1 & p2 & p3 & p4 & p5 & C).
    rewrite <- E in C. exists w1, p1, p2, p3, p4, p5. exact C.
Qed.

Lemma SetStopBits_keeps v p w p' w' k :
  SetStopBits v p w = (Ok p', w') -> Z.land CSTOPB k = 0 -> keeps k p p'.
Proof.
  intros H Hk. unfold keeps.
  destruct (SetStopBits_Ok _ _ _ _ _ H)
    as (_ & _ & [[_ ->] | [[_ ->] | [_ ->]]]); [reflexivity | |].
  - apply land_clear_keep, Hk.
  - apply land_set_keep, Hk.
Qed.

Lemma SetParity_keeps v p w p' w' k :
  SetParity v p w = (Ok p', w') ->
  Z.land PARENB k = 0 -> Z.land PARODD k = 0 -> keeps k p p'.
Proof.
  intros H H1 H2. unfold keeps.
  destruct (SetParity_Ok _ _ _ _ _ H)
    as (_ & _ & [[_ ->] | [[_ ->] | [(_ & _ & ->) | (_ & _ & _ & ->)]]]);
    [reflexivity | | |].
  - rewrite land_clear_keep, land_set_keep by assumption. reflexivity.
  - rewrite !land_set_keep by assumption. reflexivity.
  - rewrite land_clear_keep by assumption. reflexivity.
Qed.

Lemma SetFlowControl_keeps v p w p' w' k :
  SetFlowControl v p w = (Ok p', w') ->
  (forall crtscts, CRTSCTS = Some crtscts -> Z.land crtscts k = 0) ->
  keeps k p p'.
Proof.
  intros H Hk.
  destruct (SetFlowControl_Ok _ _ _ _ _ H) as (_ & [[_ ->] | (f & _ & Ha)]);
    [reflexivity |].
  destruct (apply_flow_control_Ok _ _ _ _ _ Ha) as (_ & K & _).
  apply K, Hk.
Qed.

Hypothesis ok : build_ok P.
Hypothesis cstopb_nz : CSTOPB <> 0.
Hypothesis parodd_nz : PARODD <> 0.

(** The parity step on a value it accepts. *)
Lemma SetParity_decode n p w p' w' :
  SetParity (Fixnum n) p w = (Ok p', w') -> decode_parity p' = n.
Proof.
  pose proof (ok_parenb P ok) as Hnz.
  pose proof (ok_parenb_parodd P ok) as Hpp.
  assert (Hpp' : Z.land PARODD PARENB = 0) by (rewrite Z.land_comm; exact Hpp).
  intros H.
  destruct (SetParity_Ok _ _ _ _ _ H)
    as (_ & _ & [[Ev _] | [[Ev E] | [(Ev & _ & E) | (Ev & _ & _ & E)]]]);
    try discriminate; injection Ev as ->;
    unfold decode_parity; rewrite E.
  - rewrite tst_clear. unfold tst at 1.
    rewrite (land_clear_keep _ PARODD PARENB) by exact Hpp'.
    rewrite land_set_self.
    replace (PARENB =? 0) with false by (symmetry; apply Z.eqb_neq; exact Hnz).
    reflexivity.
  - rewrite tst_set by exact parodd_nz. unfold tst.
    rewrite (land_set_keep _ PARODD PARENB) by exact Hpp'.
    rewrite land_set_self.
    replace (PARENB =? 0) with false by (symmetry; apply Z.eqb_neq; exact Hnz).
    reflexivity.
  - rewrite tst_clear. reflexivity.
Qed.

(** X15: when a configure call returns, the framing it was given is the
    framing inspection decodes from the line: the data bits, the stop
    bits and the parity, each where the call carried a number for it (in
    either form, defaults of the positional form included for data bits
    and stop bits).  A call without arguments is not concerned: it
    returns before anything is read. *)
Theorem configure_framing_round_trip argv self w v w' :
  argv <> [] ->
  sp_set_modem_params_impl argv self w = (Ok v, w') ->
  (forall db, data_bits_arg argv = Fixnum db ->
              decode_data_bits (tty w') = db /\ 5 <= db <= 8) /\
  (forall sb, stop_bits_arg argv = Fixnum sb ->
              (if tst (c_cflag (tty w')) CSTOPB then 2 else 1) = sb) /\
  (forall pa, (forall params, parity_arg argv params = Fixnum pa) ->
              decode_parity (tty w') = pa).
Proof.
  intros Hne H.
  destruct (sp_set_modem_params_impl_chain _ _ _ _ _ Hne H)
    as (w1 & p1 & p2 & p3 & p4 & p5 & _ & _ & _ & Hb & Hs & Hp & Hf & Ht).
  destruct (SetReadTimeout_Ok _ _ _ _ _ Ht) as (_ & _ & Ec).
  pose proof (ok_csize_cstopb P ok) as D1.
  pose proof (ok_csize_parenb P ok) as D2.
  pose proof (ok_csize_parodd P ok) as D3.
  pose proof (ok_cstopb_parenb P ok) as D4.
  pose proof (ok_cstopb_parodd P ok) as D5.
  pose proof (ok_crtscts P ok) as DC.
  assert (F5 : forall k,
             k = CSIZE \/ k = CSTOPB \/ k = PARENB \/ k = PARODD ->
             Z.land (c_cflag (tty w')) k = Z.land (c_cflag p4) k).
  { intros k Hk. rewrite Ec. apply (SetFlowControl_keeps _ _ _ _ _ _ Hf).
    intros c Hc. destruct (DC c Hc) as (C1 & C2 & C3 & C4).
    destruct Hk as [-> | [-> | [-> | ->]]]; assumption. }
  split; [| split].
  - intros db Ed. rewrite Ed in Hb.
    destruct (SetDataBits_Ok _ _ _ _ _ Hb)
      as (_ & _ & [[N _] | (n & cs & Ev & Ecs & E2)]); [discriminate |].
    injection Ev as <-.
    assert (C : Z.land (c_cflag (tty w')) CSIZE = cs).
    { rewrite F5 by auto.
      rewrite (SetParity_keeps _ _ _ _ _ _ Hp)
        by (rewrite Z.land_comm; assumption).
      rewrite (SetStopBits_keeps _ _ _ _ _ _ Hs)
        by (rewrite Z.land_comm; assumption).
      rewrite E2. apply land_replace. eapply char_size_submask; eassumption. }
    split.
    + eapply decode_data_bits_char_size; eassumption.
    + unfold char_size in Ecs.
      repeat match type of Ecs with
             | (if ?n =? ?k then _ else _) = _ => destruct (Z.eqb_spec n k)
             end; try discriminate; lia.
  - intros sb Es. rewrite Es in Hs.
    assert (C : Z.land (c_cflag (tty w')) CSTOPB = Z.land (c_cflag p3) CSTOPB).
    { rewrite F5 by auto.
      apply (SetParity_keeps _ _ _ _ _ _ Hp);
        rewrite Z.land_comm; assumption. }
    unfold tst. rewrite C.
    destruct (SetStopBits_Ok _ _ _ _ _ Hs)
      as (_ & _ & [[N _] | [[Ev ->] | [Ev ->]]]); [discriminate | |];
      injection Ev as ->.
    + rewrite land_clear_self. reflexivity.
    + rewrite land_set_self.
      replace (CSTOPB =? 0) with false
        by (symmetry; apply Z.eqb_neq; exact cstopb_nz).
      reflexivity.
  - intros pa Ep. rewrite Ep in Hp.
    rewrite <- (SetParity_decode _ _ _ _ _ Hp).
    unfold decode_parity, tst. rewrite !F5 by auto. reflexivity.
Qed.

End ConfigureChain.

Lemma configure_framing_round_trip_witness :
  decode_data_bits (P := linux_build)
    (tty (snd (sp_set_modem_params_impl (P := linux_build)
                 [Fixnum 19200; Fixnum 6; Fixnum 2; Fixnum 2; Fixnum 3]
                 a_port linux_w0))) = 6.
Proof.
  destruct (configure_framing_round_trip (P := linux_build) linux_build_ok
              ltac:(discriminate) ltac:(discriminate)
              [Fixnum 19200; Fixnum 6; Fixnum 2; Fixnum 2; Fixnum 3]
              a_port linux_w0 (Fixnum 19200)
              (snd (sp_set_modem_params_impl (P := linux_build)
                      [Fixnum 19200; Fixnum 6; Fixnum 2; Fixnum 2; Fixnum 3]
                      a_port linux_w0)) ltac:(discriminate) eq_refl)
    as (H & _).
  apply (H 6). reflexivity.
Defined.

Section ConfigureFlowTimeout.
Context {P : build}.

(** X16: when a configure call that carries a flow-control value
    returns, that value is one of the four valid ones and it is the flow
    control inspection decodes from the line. *)
Theorem configure_flow_control_round_trip argv self w v w' f :
  flow_ok P ->
  flow_control_arg argv = Fixnum f ->
  sp_set_modem_params_impl argv self w = (Ok v, w') ->
  valid_flow_control f /\ decode_flow_control (tty w') = f.
Proof.
  intros fok Ef H.
  assert (Hne : argv <> []) by (intros ->; discriminate).
  destruct (sp_set_modem_params_impl_chain _ _ _ _ _ Hne H)
    as (w1 & p1 & p2 & p3 & p4 & p5 & _ & _ & _ & _ & _ & _ & Hf & Ht).
  destruct (SetReadTimeout_Ok _ _ _ _ _ Ht) as (_ & Ei & Ec).
  rewrite Ef in Hf.
  destruct (SetFlowControl_Ok _ _ _ _ _ Hf) as (_ & [[N _] | (f' & Ev & Ha)]);
    [discriminate |].
  injection Ev as <-.
  destruct (apply_flow_control_decode fok _ _ _ _ _ Ha) as (Hv & Hd & _).
  split; [exact Hv |].
  rewrite <- Hd. unfold decode_flow_control. rewrite Ei, Ec. reflexivity.
Qed.

Lemma decode_apply_read_timeout_any t p w p' w' :
  VTIME <> VMIN ->
  (VTIME < length (c_cc p))%nat ->
  (VMIN < length (c_cc p))%nat ->
  apply_read_timeout t p w = (Ok p', w') ->
  t <= INT_MAX - 50 /\ decode_read_timeout p' = read_back t.
Proof.
  intros Hne Ht Hm Ha.
  destruct (apply_read_timeout_fields _ _ _ _ _ Hne Ht Hm Ha)
    as (_ & Hb & Et & Em).
  split; [unfold INT_MAX in *; lia |].
  unfold decode_read_timeout, read_back. rewrite Et, Em. unfold cc_t.
  destruct (t <? 0); [reflexivity |].
  destruct (t =? 0); [reflexivity |].
  rewrite andb_true_r. reflexivity.
Qed.

(** X17: a read timeout given to a configure call that returns is at
    most [INT_MAX - 50] (beyond it the sum [read_timeout + 50] overflows
    and the call has no defined behaviour) and reads back as from the
    standalone setter ([read_back]); a call that carries none leaves the
    timeout of the line as it was. *)
Theorem configure_read_timeout argv self w v w' :
  VTIME <> VMIN ->
  (VTIME < length (c_cc (tty w)))%nat ->
  (VMIN < length (c_cc (tty w)))%nat ->
  sp_set_modem_params_impl argv self w = (Ok v, w') ->
  (forall t, read_timeout_arg argv = Fixnum t ->
             t <= INT_MAX - 50 /\
             decode_read_timeout (tty w') = read_back t) /\
  (read_timeout_arg argv = Qnil ->
   decode_read_timeout (tty w') = decode_read_timeout (tty w)).
Proof.
  intros Hne Hvt Hvm H.
  destruct argv as [| a l].
  { injection H as _ <-.
    split; [intros t Et; vm_compute in Et; discriminate | reflexivity]. }
  assert (Hn0 : a :: l <> []) by discriminate.
  destruct (sp_set_modem_params_impl_chain _ _ _ _ _ Hn0 H)
    as (w1 & p1 & p2 & p3 & p4 & p5 & _ & _ & E1 & Hb & Hs & Hp & Hf & Ht).
  assert (Ecc : c_cc p5 = c_cc (tty w)).
  { rewrite (SetFlowControl_cc _ _ _ _ _ Hf), (SetParity_cc _ _ _ _ _ Hp),
      (SetStopBits_cc _ _ _ _ _ Hs), (SetDataBits_cc _ _ _ _ _ Hb).
    exact E1. }
  split.
  - intros t Et. rewrite Et in Ht.
    unfold SetReadTimeout in Ht. change (NIL_P (Fixnum t)) with false in Ht.
    cbv iota in Ht.
    apply bind_Ok in Ht. destruct Ht as ([] & w2 & _ & Ht).
    apply bind_Ok in Ht. destruct Ht as (n & w3 & Hn & Ht).
    assert (n = t) as ->.
    { unfold FIX2INT in Hn.
      destruct ((INT_MIN <=? t) && (t <=? INT_MAX)); [| discriminate].
      injection Hn as <- _. reflexivity. }
    eapply decode_apply_read_timeout_any; [exact Hne | | | exact Ht];
      rewrite Ecc; assumption.
  - intros Et. rewrite Et in Ht. injection Ht as <-.
    unfold decode_read_timeout, get_cc. rewrite Ecc. reflexivity.
Qed.

End ConfigureFlowTimeout.

Lemma configure_flow_control_round_trip_witness :
  decode_flow_control (P := linux_build)
    (tty (snd (sp_set_modem_params_impl (P := linux_build)
                 [Fixnum 19200; Fixnum 6; Fixnum 2; Fixnum 2; Fixnum 3]
                 a_port linux_w0))) = 3.
Proof.
  destruct (configure_flow_control_round_trip (P := linux_build)
              [Fixnum 19200; Fixnum 6; Fixnum 2; Fixnum 2; Fixnum 3]
              a_port linux_w0 (Fixnum 19200)
              (snd (sp_set_modem_params_impl (P := linux_build)
                      [Fixnum 19200; Fixnum 6; Fixnum 2; Fixnum 2; Fixnum 3]
                      a_port linux_w0)) 3 linux_flow_ok eq_refl eq_refl)
    as (_ & H).
  exact H.
Defined.

Lemma configure_read_timeout_witness :
  decode_read_timeout (P := linux_build)
    (tty (snd (sp_set_modem_params_impl (P := linux_build)
                 [Hash (fun k => match k with
                                 | sReadTimeout => Fixnum 1234
                                 | _ => Qnil
                                 end)]
                 a_port linux_w0))) = 1200.
Proof.
  destruct (configure_read_timeout (P := linux_build)
              [Hash (fun k => match k with
                              | sReadTimeout => Fixnum 1234
                              | _ => Qnil
                              end)]
              a_port linux_w0
              (Hash (fun k => match k with
                              | sReadTimeout => Fixnum 1234
                              | _ => Qnil
                              end))
              (snd (sp_set_modem_params_impl (P := linux_build)
                      [Hash (fun k => match k with
                                      | sReadTimeout => Fixnum 1234
                                      | _ => Qnil
                                      end)]
                      a_port linux_w0)))
    as (H & _).
  - simpl. lia.
  - simpl. lia.
  - simpl. lia.
  - reflexivity.
  - apply (H 1234). reflexivity.
Defined.

(** ** A custom rate through configure, on Linux *)

Section LinuxCustomRate.
Context {P : build}.
Hypothesis linux : is_linux = true.

Lemma SetDataRate_custom r p c w pc w1 :
  std_speed r = None ->
  SetDataRate (Fixnum r) p c w = (Ok pc, w1) ->
  pc = (cfsetospeed B38400 (cfsetispeed B38400 p), r) /\
  0 < r <= 24000000 /\
  baud_base (serial w1) = baud_base (serial w) /\
  (forall k, Z.land ASYNC_SPD_CUST k = 0 ->
             Z.land (flags (serial w1)) k = Z.land (flags (serial w)) k) /\
  sys w1 = sys w.
Proof.
  intros Hs H. unfold SetDataRate in H.
  change (NIL_P (Fixnum r)) with false in H. cbv iota in H.
  apply bind_Ok in H. destruct H as ([] & w0 & H0 & H).
  injection H0 as <-.
  apply bind_Ok in H. destruct H as (n & wa & Hn & H).
  assert (n = r /\ wa = w) as [-> ->].
  { unfold FIX2INT in Hn.
    destruct ((INT_MIN <=? r) && (r <=? INT_MAX)); [| discriminate].
    injection Hn as <- <-. auto. }
  destruct (Z.leb_spec r 0); [discriminate |].
  rewrite Hs, linux in H. simpl orb in H. cbv iota in H.
  replace (r <=? 0) with false in H by (symmetry; apply Z.leb_gt; lia).
  destruct (Z.ltb_spec 24000000 r); [discriminate |].
  apply bind_Ok in H. destruct H as (rc & wb & Hrc & H).
  injection Hrc as <- <-.
  apply bind_Ok in H. destruct H as (z & wc & Hc & H).
  injection H as <- <-.
  destruct (Linux_clear_custom_baud_rate_state _ _ _ Hc)
    as (_ & _ & _ & Hb & Hk & _ & Hsys).
  split; [reflexivity |]. repeat split; try assumption; lia.
Qed.

(** X13: on Linux a configure call with a rate outside the standard
    table that returns has committed the speed constant B38400 and has
    stored ASYNC_SPD_CUST with the divisor [base / rate] in the driver,
    for a rate that is at most the driver's base clock and at most
    24000000; inspection then reads the speed constant and reports 38400,
    not the custom rate. *)
Theorem configure_custom_rate_linux argv self w v w' r mp0 :
  ASYNC_SPD_CUST <> 0 ->
  std_rate B38400 = Some 38400 ->
  data_rate_arg argv = Fixnum r ->
  std_speed r = None ->
  sp_set_modem_params_impl argv self w = (Ok v, w') ->
  0 < r <= 24000000 /\ r <= baud_base (serial w) /\
  cfgetospeed (tty w') = B38400 /\
  tst (flags (serial w')) ASYNC_SPD_CUST = true /\
  custom_divisor (serial w') = baud_base (serial w) / r /\
  baud_base (serial w') = baud_base (serial w) /\
  exists w'',
    get_modem_params_impl self mp0 w'
    = (Ok (mk_modem_params 38400
             (decode_data_bits (tty w'))
             (if tst (c_cflag (tty w')) CSTOPB then 2 else 1)
             (decode_parity (tty w'))
             (decode_flow_control (tty w'))
             (decode_read_timeout (tty w'))), w'').
Proof.
  intros Hcust H38 Er Hs H.
  pose proof H as H'.
  unfold sp_set_modem_params_impl in H.
  destruct (Z.of_nat (length argv) =? 0) eqn:E0.
  { destruct argv; discriminate. }
  apply bind_Ok in H. destruct H as (o & w0 & Hg & H).
  unfold tcgetattr in Hg. injection Hg as <- <-.
  destruct (tcgetattr_ok (sys w)) eqn:Eg; [| discriminate].
  apply bind_Ok in H. destruct H as (pc & w1 & Hf & H).
  assert (F : c_ospeed (fst pc) = B38400 /\ snd pc = r /\
              0 < r <= 24000000 /\
              baud_base (serial w1) = baud_base (serial w) /\
              sys w1 = sys w).
  { unfold fill_params, fill_framing in Hf.
    rewrite (linux_not_darwin linux), Er in Hf.
    apply bind_Ok in Hf. destruct Hf as (pc0 & wz & H0 & Hf).
    apply bind_Ok in Hf. destruct Hf as (p5 & wa & Hfl & Hf).
    apply bind_Ok in Hf. destruct Hf as (p6 & wb & Ht & Hf).
    injection Hf as <- <-.
    apply bind_Ok in H0. destruct H0 as (pa & wc & Ha & H0).
    injection Ha as <- <-.
    apply bind_Ok in H0. destruct H0 as (pc1 & wd & Hr & H0).
    apply bind_Ok in H0. destruct H0 as (p2 & we & Hb & H0).
    apply bind_Ok in H0. destruct H0 as (p3 & wf & Hst & H0).
    apply bind_Ok in H0. destruct H0 as (p4 & wg & Hp & H0).
    injection H0 as <- <-.
    destruct (SetDataRate_custom _ _ _ _ _ _ Hs Hr)
      as (-> & Hr1 & Hb1 & _ & Hsys).
    pose proof (SetDataBits_pure _ _ _ _ _ Hb) as <-.
    pose proof (SetStopBits_pure _ _ _ _ _ Hst) as <-.
    pose proof (SetParity_pure _ _ _ _ _ Hp) as <-.
    pose proof (SetFlowControl_pure _ _ _ _ _ Hfl) as <-.
    pose proof (SetReadTimeout_pure _ _ _ _ _ Ht) as <-.
    simpl in *.
    rewrite (SetReadTimeout_ospeed _ _ _ _ _ Ht),
      (SetFlowControl_ospeed _ _ _ _ _ Hfl), (SetParity_ospeed _ _ _ _ _ Hp),
      (SetStopBits_ospeed _ _ _ _ _ Hst), (SetDataBits_ospeed _ _ _ _ _ Hb).
    auto. }
  destruct F as (Eo & Ec & Hr & Hb & Hsys).
  apply bind_Ok in H. destruct H as (okc & w2 & Hc & H).
  destruct okc; [| discriminate]. simpl negb in H. cbv iota in H.
  rewrite (linux_not_darwin linux), linux, Ec in H.
  replace (negb (r =? 0)) with true in H
    by (symmetry; apply negb_true_iff, Z.eqb_neq; lia).
  apply bind_Ok in H. destruct H as (z & w3 & Hset & H).
  injection H as _ <-.
  unfold tcsetattr in Hc.
  destruct (tcsetattr_ok (sys w1)); [| discriminate].
  injection Hc as <-.
  destruct (Linux_set_custom_baud_rate_cases _ _ _ _ Hset)
    as [(_ & _ & _ & N) | (_ & Hbb & _ & ->)].
  { exfalso. apply (N z). reflexivity. }
  simpl in Hbb. simpl.
  split; [exact Hr |]. split; [lia |]. split; [exact Eo |].
  split; [apply tst_set, Hcust |].
  split; [rewrite Hb; apply Z.quot_div_nonneg; lia |].
  split; [exact Hb |].
  unfold get_modem_params_impl, bind at 1, tcgetattr. simpl.
  rewrite Hsys, Eg. unfold cfgetospeed. rewrite Eo, H38.
  eexists. reflexivity.
Qed.

End LinuxCustomRate.

Lemma configure_custom_rate_linux_witness :
  exists w'',
    get_modem_params_impl (P := linux_build) a_port mp_blank
      (snd (sp_set_modem_params_impl (P := linux_build) [Fixnum 250000]
              a_port linux_w_7O2))
    = (Ok (mk_modem_params 38400 8 1 0 0 (-1)), w'').
Proof.
  destruct (configure_custom_rate_linux (P := linux_build) eq_refl
              [Fixnum 250000] a_port linux_w_7O2 (Fixnum 250000)
              (snd (sp_set_modem_params_impl (P := linux_build)
                      [Fixnum 250000] a_port linux_w_7O2))
              250000 mp_blank)
    as (_ & _ & _ & _ & _ & _ & w'' & H).
  - discriminate.
  - reflexivity.
  - reflexivity.
  - reflexivity.
  - reflexivity.
  - exists w''. exact H.
Defined.

(** X14: with the constants of GNU/Linux, a configure call with a rate
    of the standard table that returns leaves no custom rate in the
    driver, and the inspection that follows reports that rate. *)
Theorem configure_standard_rate_round_trip_linux argv self w v w' r b mp0 :
  data_rate_arg argv = Fixnum r ->
  std_speed (P := linux_build) r = Some b ->
  sp_set_modem_params_impl (P := linux_build) argv self w = (Ok v, w') ->
  Linux.get_custom_baud_rate (P := linux_build) w'
  = (Ok 0, log EvTIOCGSERIAL w') /\
  exists mp w'',
    get_modem_params_impl (P := linux_build) self mp0 w' = (Ok mp, w'') /\
    data_rate mp = r.
Proof.
  intros Er Hs H.
  destruct (linux_standard_rate_inspect argv self w v w' r b mp0 Er Hs H)
    as (Hf & _ & Hi).
  split; [| exact Hi].
  rewrite Linux_get_custom_baud_rate_eq, Hf, andb_false_r. reflexivity.
Qed.

Lemma configure_standard_rate_round_trip_linux_witness :
  exists mp w'',
    get_modem_params_impl (P := linux_build) a_port mp_blank
      (snd (sp_set_modem_params_impl (P := linux_build) [rate_only_hash]
              a_port linux_w_custom)) = (Ok mp, w'')
    /\ data_rate mp = 19200.
Proof.
  destruct (configure_standard_rate_round_trip_linux [rate_only_hash] a_port
              linux_w_custom rate_only_hash
              (snd (sp_set_modem_params_impl (P := linux_build)
                      [rate_only_hash] a_port linux_w_custom))
              19200 14 mp_blank eq_refl eq_refl eq_refl) as (_ & H).
  exact H.
Defined.

(** ** One commit per configure call *)

Section SingleCommit.
Context {P : build}.

(** X24: a configure call issues [tcsetattr] at most once, after every
    step on the in-memory attributes has passed.  Without it the line
    keeps its attributes and the call does not return (unless it had no
    argument); with it the line holds exactly the committed attributes
    when the commit works, and keeps its own, with a system error
    raised, when it does not. *)
Theorem configure_commits_at_most_once argv self w r w' :
  sp_set_modem_params_impl argv self w = (r, w') ->
  (commits (trace w') = commits (trace w) /\ tty w' = tty w /\
   (argv <> [] -> forall v, r <> Ok v)) \/
  (exists params,
      commits (trace w') = params :: commits (trace w) /\
      (exists c w1, fill_params argv self (tty w) (log EvTcgetattr w)
                    = (Ok (params, c), w1)) /\
      (tcsetattr_ok (sys w) = true -> tty w' = params) /\
      (tcsetattr_ok (sys w) = false ->
       tty w' = tty w /\ r = Raise (rb_sys_fail sTcsetattr))).
Proof.
  intros H. unfold sp_set_modem_params_impl in H.
  destruct (Z.of_nat (length argv) =? 0) eqn:E0.
  { left. injection H as <- <-.
    destruct argv; [| discriminate]. repeat split. congruence. }
  unfold bind at 1, tcgetattr in H.
  destruct (tcgetattr_ok (sys w)) eqn:Hg.
  2:{ injection H as <- <-. left. repeat split. congruence. }
  unfold bind at 1 in H.
  destruct (fill_params argv self (tty w) (log EvTcgetattr w))
    as [[pc | e | u] w1] eqn:Hf;
    pose proof (fill_params_quiet _ _ _ _ _ _ Hf) as (Q1 & Q2 & Q3);
    simpl in Q1, Q2, Q3.
  2,3: injection H as <- <-; left; repeat split; congruence.
  right. exists (fst pc).
  unfold bind at 1, tcsetattr in H. rewrite Q2 in H.
  destruct (tcsetattr_ok (sys w)) eqn:Hs.
  2:{ simpl in H. injection H as <- <-. simpl.
      split; [congruence |].
      split; [exists (snd pc), w1; destruct pc; reflexivity |].
      split; [discriminate |]. auto. }
  simpl negb in H. cbv iota in H.
  pose proof (after_commit_quiet _ _ _ _ _ _ H) as (Q4 & Q5 & Q6).
  simpl in Q4, Q5, Q6.
  split; [congruence |].
  split; [exists (snd pc), w1; destruct pc; reflexivity |].
  split; [auto | discriminate].
Qed.

End SingleCommit.

Lemma configure_commits_at_most_once_witness :
  commits (trace (snd (sp_set_modem_params_impl (P := darwin_build)
                         [Fixnum 9600; Fixnum 8; Fixnum 3] a_port
                         darwin_w_custom)))
  = [].
Proof.
  destruct (configure_commits_at_most_once (P := darwin_build)
              [Fixnum 9600; Fixnum 8; Fixnum 3] a_port darwin_w_custom
              (fst (sp_set_modem_params_impl (P := darwin_build)
                      [Fixnum 9600; Fixnum 8; Fixnum 3] a_port
                      darwin_w_custom))
              (snd (sp_set_modem_params_impl (P := darwin_build)
                      [Fixnum 9600; Fixnum 8; Fixnum 3] a_port
                      darwin_w_custom)) eq_refl)
    as [(H & _) | (params & H & _)].
  - exact H.
  - vm_compute in H. discriminate.
Defined.

(** ** Queries *)

Section Queries.
Context {P : build}.

Lemma Linux_get_custom_baud_rate_untouched :
  preserves untouched Linux.get_custom_baud_rate.
Proof. unfold Linux.get_custom_baud_rate. preserve. Qed.

(** X19: the three queries only read: whatever they return or raise,
    the attributes, the driver's serial_struct and the cached rate are as
    before and no [tcsetattr] is issued. *)
Theorem queries_read_only (self : VALUE) (mp0 : modem_params) :
  preserves untouched (get_modem_params_impl self mp0) /\
  preserves untouched (sp_get_flow_control_impl self) /\
  preserves untouched (sp_get_read_timeout_impl self).
Proof.
  pose proof Linux_get_custom_baud_rate_untouched.
  pose proof Darwin_get_custom_baud_rate_untouched.
  split; [| split].
  - unfold get_modem_params_impl. preserve.
  - unfold sp_get_flow_control_impl. preserve.
  - unfold sp_get_read_timeout_impl. preserve.
Qed.

(** X18: what inspection can report.  The stop bits are 1 or 2, the
    parity is NONE, ODD or EVEN, the data bits are 5 to 8 or 0, the flow
    control is NONE plus HARD and/or SOFT, without HARD on a build that
    has no CRTSCTS, and the read timeout is -1 or a multiple of 100 up to
    25500 (the timing slot holding a byte). *)
Theorem get_modem_params_impl_ranges (self : VALUE) (mp0 mp : modem_params)
    (w w' : world) :
  0 <= get_cc VTIME (tty w) < 256 ->
  get_modem_params_impl self mp0 w = (Ok mp, w') ->
  (stop_bits mp = 1 \/ stop_bits mp = 2) /\
  (parity mp = NONE \/ parity mp = ODD \/ parity mp = EVEN) /\
  (data_bits mp = 0 \/ 5 <= data_bits mp <= 8) /\
  (flow_control mp = NONE \/ flow_control mp = NONE + HARD \/
   flow_control mp = NONE + SOFT \/ flow_control mp = NONE + HARD + SOFT) /\
  (CRTSCTS = None ->
   flow_control mp = NONE \/ flow_control mp = NONE + SOFT) /\
  (read_timeout mp = -1 \/
   0 <= read_timeout mp <= 25500 /\ read_timeout mp mod 100 = 0).
Proof.
  intros Hcc H. unfold get_modem_params_impl in H.
  apply bind_Ok in H. destruct H as (o & w0 & Hg & H).
  unfold tcgetattr in Hg. injection Hg as <- _.
  destruct (tcgetattr_ok (sys w)); [| discriminate].
  apply bind_Ok in H. destruct H as (rate & w1 & _ & H).
  injection H as <- _. simpl.
  split; [destruct (tst (c_cflag (tty w)) CSTOPB); auto |].
  split.
  { unfold decode_parity.
    destruct (tst (c_cflag (tty w)) PARENB),
      (tst (c_cflag (tty w)) PARODD); simpl; auto. }
  split.
  { unfold decode_data_bits.
    repeat match goal with
           | |- context [if ?b then _ else _] => destruct b
           end; lia. }
  split.
  { unfold decode_flow_control.
    destruct CRTSCTS as [c |];
      [destruct (tst (c_cflag (tty w)) c) |];
      destruct (tst (c_iflag (tty w)) (Z.lor (Z.lor IXON IXOFF) IXANY));
      auto. }
  split.
  { intros E. unfold decode_flow_control. rewrite E.
    destruct (tst (c_iflag (tty w)) (Z.lor (Z.lor IXON IXOFF) IXANY));
      auto. }
  unfold decode_read_timeout.
  destruct ((get_cc VTIME (tty w) =? 0) && (get_cc VMIN (tty w) =? 0));
    [left; reflexivity |].
  right. split; [lia |]. apply Z.mod_mul. lia.
Qed.

End Queries.

Lemma get_modem_params_impl_ranges_witness :
  let run := get_modem_params_impl (P := linux_posix_build) a_port mp_blank
               linux_w_7O2 in
  let mp := match fst run with Ok mp => mp | _ => mp_blank end in
  fst run = Ok mp /\ (flow_control mp = 0 \/ flow_control mp = 0 + 1).
Proof.
  intros run mp. split; [reflexivity |].
  destruct (get_modem_params_impl_ranges (P := linux_posix_build) a_port
              mp_blank mp linux_w_7O2 (snd run))
    as (_ & _ & _ & _ & Hf & _).
  - vm_compute. split; [discriminate | reflexivity].
  - reflexivity.
  - apply Hf. reflexivity.
Defined.

(** ** Opening a port *)

Section CreateMore.
Context {P : build}.

Lemma select_port_pure _port : preserves eq (select_port _port).
Proof.
  unfold select_port. destruct (TYPE _port); preserve.
  all: destruct _port; preserve.
Qed.

(** The ways a run of [sp_create_impl] can end, with the calls it has
    issued (newest first). *)
Lemma sp_create_impl_cases klass _port w r w' :
  sp_create_impl klass _port w = (r, w') ->
  (w' = w /\ forall v, r <> Ok v) \/
  exists port,
    select_port _port w = (Ok port, w) /\
    ((open_ok (sys w) port = false /\ r = Raise (rb_sys_fail port) /\
      w' = log (EvOpen port) w) \/
     (open_ok (sys w) port = true /\ isatty_ok (sys w) = false /\
      r = Raise (rb_eArgError "not a serial port") /\
      w' = log EvClose (log (EvOpen port) w)) \/
     (open_ok (sys w) port = true /\ isatty_ok (sys w) = true /\
      tcgetattr_ok (sys w) = false /\
      r = Raise (rb_sys_fail sTcgetattr) /\
      w' = log EvClose (log EvTcgetattr (log EvFcntl (log (EvOpen port) w))))
     \/
     (open_ok (sys w) port = true /\ isatty_ok (sys w) = true /\
      tcgetattr_ok (sys w) = true /\ tcsetattr_ok (sys w) = false /\
      r = Raise (rb_sys_fail sTcsetattr) /\
      w' = log EvClose
             (log (EvTcsetattr (raw_baseline (tty w)))
                (log EvTcgetattr (log EvFcntl (log (EvOpen port) w))))) \/
     (open_ok (sys w) port = true /\ isatty_ok (sys w) = true /\
      tcgetattr_ok (sys w) = true /\ tcsetattr_ok (sys w) = true /\
      (RUBY_1_9 = false /\ fdopen_ok (sys w) = false) /\
      r = Raise (rb_sys_fail "") /\
      w' = put_tty (raw_baseline (tty w))
             (log (EvTcsetattr (raw_baseline (tty w)))
                (log EvTcgetattr (log EvFcntl (log (EvOpen port) w))))) \/
     (open_ok (sys w) port = true /\ isatty_ok (sys w) = true /\
      tcgetattr_ok (sys w) = true /\ tcsetattr_ok (sys w) = true /\
      (RUBY_1_9 = true \/ fdopen_ok (sys w) = true) /\
      r = Ok File /\
      w' = put_tty (raw_baseline (tty w))
             (log (EvTcsetattr (raw_baseline (tty w)))
                (log EvTcgetattr (log EvFcntl (log (EvOpen port) w)))))).
Proof.
  unfold sp_create_impl. intros H. unfold bind at 1 in H.
  destruct (select_port _port w) as [[port | e | u] w0] eqn:Ep;
    pose proof (select_port_pure _ _ _ _ Ep) as <-.
  2,3: injection H as <- <-; left; split; [reflexivity | congruence].
  right. exists port. split; [reflexivity |].
  unfold bind at 1, sys_open in H.
  destruct (open_ok (sys w) port) eqn:Eo; simpl in H.
  2:{ injection H as <- <-. left. auto. }
  right.
  unfold bind at 1, isatty in H. simpl in H.
  destruct (isatty_ok (sys w)) eqn:Ei; simpl in H.
  2:{ injection H as <- <-. left. auto. }
  right.
  unfold bind at 1, fcntl_blocking in H.
  unfold bind at 1, tcgetattr in H. simpl in H.
  destruct (tcgetattr_ok (sys w)) eqn:Eg; simpl in H.
  2:{ injection H as <- <-. left. auto. }
  right.
  unfold bind at 1, tcsetattr in H. simpl in H.
  destruct (tcsetattr_ok (sys w)) eqn:Es; simpl in H.
  2:{ injection H as <- <-. left. repeat split. }
  right.
  unfold bind at 1 in H.
  destruct RUBY_1_9 eqn:Er.
  { injection H as <- <-. right. repeat split. left. reflexivity. }
  unfold rb_fdopen in H. simpl in H.
  destruct (fdopen_ok (sys w)) eqn:Ef; injection H as <- <-.
  - right. repeat split. right. reflexivity.
  - left. repeat split.
Qed.

(** X1: [sp_create_impl] holds one descriptor more when it returns.
    When it raises it holds none more, the descriptor it opened having
    been closed before "not a serial port" and before the system errors
    of [tcgetattr] and [tcsetattr], with one exception: on a build
    without [RUBY_1_9], a failing [rb_fdopen] raises after the commit
    with the descriptor still open. *)
Theorem sp_create_impl_descriptors klass _port w r w' :
  sp_create_impl klass _port w = (r, w') ->
  sys w' = sys w /\
  (forall v, r = Ok v ->
     held (sys w) (trace w') = held (sys w) (trace w) + 1) /\
  ((forall v, r <> Ok v) ->
     RUBY_1_9 = true \/ fdopen_ok (sys w) = true ->
     held (sys w) (trace w') = held (sys w) (trace w)) /\
  ((forall v, r <> Ok v) ->
     held (sys w) (trace w') = held (sys w) (trace w) \/
     (RUBY_1_9 = false /\ fdopen_ok (sys w) = false /\
      r = Raise (rb_sys_fail "") /\
      held (sys w) (trace w') = held (sys w) (trace w) + 1)).
Proof.
  intros H.
  destruct (sp_create_impl_cases _ _ _ _ _ H)
    as [[-> N] | (port & _ & [C | [C | [C | [C | [C | C]]]]])].
  - split; [reflexivity |].
    split; [intros v ->; exfalso; apply (N v); reflexivity |].
    split; [reflexivity | left; reflexivity].
  - destruct C as (Eo & -> & ->). simpl. rewrite Eo.
    split; [reflexivity |]. split; [discriminate |].
    split; [intros; lia | left; lia].
  - destruct C as (Eo & _ & -> & ->). simpl. rewrite Eo.
    split; [reflexivity |]. split; [discriminate |].
    split; [intros; lia | left; lia].
  - destruct C as (Eo & _ & _ & -> & ->). simpl. rewrite Eo.
    split; [reflexivity |]. split; [discriminate |].
    split; [intros; lia | left; lia].
  - destruct C as (Eo & _ & _ & _ & -> & ->). simpl. rewrite Eo.
    split; [reflexivity |]. split; [discriminate |].
    split; [intros; lia | left; lia].
  - destruct C as (Eo & _ & _ & _ & (Er & Ef) & -> & ->). simpl. rewrite Eo.
    split; [reflexivity |]. split; [discriminate |].
    split; [intros _ [E | E]; congruence |].
    right. repeat split; assumption || lia.
  - destruct C as (Eo & _ & _ & _ & _ & -> & ->). simpl. rewrite Eo.
    split; [reflexivity |]. split; [intros; lia |].
    split; intros N; exfalso; apply (N File); reflexivity.
Qed.

(** X2: a port is handed back only with the raw baseline committed:
    output and local flags 0, of the input flags only IXON, IXOFF and
    IXANY, HUPCL off and, HUPCL being another bit, CLOCAL and CREAD on.
    A run that raises leaves the attributes of the line as they were,
    unless it is [rb_fdopen] that fails (no [RUBY_1_9]): it does so
    after the commit, and the line keeps the baseline. *)
Theorem sp_create_impl_baseline klass _port w r w' :
  Z.land HUPCL (Z.lor CLOCAL CREAD) = 0 ->
  sp_create_impl klass _port w = (r, w') ->
  ((forall v, r <> Ok v) ->
     RUBY_1_9 = true \/ fdopen_ok (sys w) = true -> tty w' = tty w) /\
  ((forall v, r <> Ok v) ->
     tty w' = tty w \/
     (RUBY_1_9 = false /\ fdopen_ok (sys w) = false /\
      r = Raise (rb_sys_fail "") /\ tty w' = raw_baseline (tty w))) /\
  (forall v, r = Ok v ->
     v = File /\
     c_oflag (tty w') = 0 /\ c_lflag (tty w') = 0 /\
     Z.land (c_iflag (tty w')) (Z.lnot (Z.lor (Z.lor IXON IXOFF) IXANY)) = 0 /\
     Z.land (c_iflag (tty w')) (Z.lor (Z.lor IXON IXOFF) IXANY)
     = Z.land (c_iflag (tty w)) (Z.lor (Z.lor IXON IXOFF) IXANY) /\
     Z.land (c_cflag (tty w')) HUPCL = 0 /\
     Z.land (c_cflag (tty w')) (Z.lor CLOCAL CREAD) = Z.lor CLOCAL CREAD /\
     c_cc (tty w') = c_cc (tty w) /\
     cfgetospeed (tty w') = cfgetospeed (tty w)).
Proof.
  intros Hd H.
  destruct (sp_create_impl_cases _ _ _ _ _ H)
    as [[-> N] | (port & _ & [C | [C | [C | [C | [C | C]]]]])].
  - split; [reflexivity |]. split; [left; reflexivity |].
    intros v ->. exfalso. apply (N v). reflexivity.
  - destruct C as (_ & -> & ->).
    split; [reflexivity |]. split; [left; reflexivity | discriminate].
  - destruct C as (_ & _ & -> & ->).
    split; [reflexivity |]. split; [left; reflexivity | discriminate].
  - destruct C as (_ & _ & _ & -> & ->).
    split; [reflexivity |]. split; [left; reflexivity | discriminate].
  - destruct C as (_ & _ & _ & _ & -> & ->).
    split; [reflexivity |]. split; [left; reflexivity | discriminate].
  - destruct C as (_ & _ & _ & _ & (Er & Ef) & -> & ->).
    split; [intros _ [E | E]; congruence |].
    split; [right; repeat split; assumption | discriminate].
  - destruct C as (_ & _ & _ & _ & _ & -> & ->).
    split; [intros N; exfalso; apply (N File); reflexivity |].
    split; [intros N; exfalso; apply (N File); reflexivity |].
    intros v [= <-]. simpl.
    repeat split.
    + rewrite <- Z.land_assoc, Z.land_lnot_diag. apply Z.land_0_r.
    + rewrite <- Z.land_assoc, Z.land_diag. reflexivity.
    + apply land_clear_self.
    + rewrite land_clear_keep by exact Hd. apply land_set_self.
Qed.

Hypothesis cok : create_ok P.

(** X3: opening a port does not change what inspection decodes from the
    line: data bits, stop bits, parity, flow control, read timeout and
    speed are those the line had. *)
Theorem sp_create_impl_keeps_params klass _port w v w' :
  sp_create_impl klass _port w = (Ok v, w') ->
  decoded (tty w') = decoded (tty w) /\
  cfgetospeed (tty w') = cfgetospeed (tty w).
Proof.
  intros H.
  destruct (sp_create_impl_cases _ _ _ _ _ H)
    as [[_ N] | (port & _ & [C | [C | [C | [C | [C | C]]]]])].
  1: exfalso; apply (N v); reflexivity.
  1: destruct C as (_ & C & _); discriminate.
  1: destruct C as (_ & _ & C & _); discriminate.
  1: destruct C as (_ & _ & _ & C & _); discriminate.
  1: destruct C as (_ & _ & _ & _ & C & _); discriminate.
  1: destruct C as (_ & _ & _ & _ & _ & C & _); discriminate.
  destruct C as (_ & _ & _ & _ & _ & _ & ->). simpl.
  split; [| reflexivity].
  destruct (ok_hupcl_frame P cok) as (A1 & A2 & A3 & A4).
  destruct (ok_local_frame P cok) as (B1 & B2 & B3 & B4).
  pose proof (ok_create_crtscts P cok) as DC.
  assert (K : forall k,
             Z.land HUPCL k = 0 -> Z.land (Z.lor CLOCAL CREAD) k = 0 ->
             Z.land (c_cflag (raw_baseline (tty w))) k
             = Z.land (c_cflag (tty w)) k).
  { intros k H1 H2. simpl.
    rewrite land_clear_keep by exact H1. apply land_set_keep, H2. }
  assert (I : Z.land (c_iflag (raw_baseline (tty w)))
                     (Z.lor (Z.lor IXON IXOFF) IXANY)
              = Z.land (c_iflag (tty w)) (Z.lor (Z.lor IXON IXOFF) IXANY)).
  { simpl. rewrite <- Z.land_assoc, Z.land_diag. reflexivity. }
  unfold decoded, decode_data_bits, decode_parity, decode_flow_control,
    decode_read_timeout, get_cc, tst.
  rewrite I, (K CSIZE), (K CSTOPB), (K PARENB), (K PARODD) by assumption.
  destruct CRTSCTS as [c |] eqn:Ec; [| reflexivity].
  destruct (DC c eq_refl) as [C1 C2].
  rewrite (K c) by assumption. reflexivity.
Qed.

End CreateMore.

Lemma linux_create_ok : create_ok linux_build.
Proof.
  constructor.
  - reflexivity.
  - repeat split.
  - repeat split.
  - intros c [= <-]. split; reflexivity.
Defined.

Lemma sp_create_impl_descriptors_witness :
  held (sys linux_w_file)
    (trace (snd (sp_create_impl (P := linux_build) a_port (Fixnum 3)
                   linux_w_file)))
  = 0.
Proof.
  destruct (sp_create_impl_descriptors (P := linux_build) a_port (Fixnum 3)
              linux_w_file
              (fst (sp_create_impl (P := linux_build) a_port (Fixnum 3)
                      linux_w_file))
              (snd (sp_create_impl (P := linux_build) a_port (Fixnum 3)
                      linux_w_file)) eq_refl) as (_ & _ & H & _).
  apply H; [discriminate | left; reflexivity].
Defined.

(** The exception at work: Ruby 1.8, every system call succeeds, and
    [rb_fdopen] finds no stream.  The call raises with the descriptor
    open and the baseline written. *)
Lemma sp_create_impl_fdopen_fails :
  let run := sp_create_impl (P := linux_ruby18_build) a_port
               (Str "/dev/ttyUSB0") linux_w_no_stream in
  fst run = Raise (rb_sys_fail "")
  /\ held (sys linux_w_no_stream) (trace (snd run)) = 1
  /\ trace (snd run)
     = [EvTcsetattr (mk_termios 1024 0 (48 + 128 + 2048) 0 (replicate 32 0)
                       13 13);
        EvTcgetattr; EvFcntl; EvOpen "/dev/ttyUSB0"]
  /\ tty (snd run)
     = mk_termios 1024 0 (48 + 128 + 2048) 0 (replicate 32 0) 13 13
  /\ tty linux_w_no_stream
     = mk_termios (256 + 1024) 5 (48 + 128 + 1024) 35387 (replicate 32 0)
         13 13.
Proof. vm_compute. repeat split. Qed.

Lemma sp_create_impl_baseline_witness :
  Z.land (c_cflag (tty (snd (sp_create_impl (P := linux_build) a_port
                               (Str "/dev/ttyUSB0") linux_w_7O2))))
         (HUPCL (build := linux_build)) = 0.
Proof.
  destruct (sp_create_impl_baseline (P := linux_build) a_port
              (Str "/dev/ttyUSB0") linux_w_7O2 (Ok File)
              (snd (sp_create_impl (P := linux_build) a_port
                      (Str "/dev/ttyUSB0") linux_w_7O2)) eq_refl eq_refl)
    as (_ & _ & H).
  destruct (H File eq_refl) as (_ & _ & _ & _ & _ & Hh & _).
  exact Hh.
Defined.

Lemma sp_create_impl_keeps_params_witness :
  decoded (P := linux_build)
    (tty (snd (sp_create_impl (P := linux_build) a_port (Fixnum 0)
                 linux_w_7O2)))
  = (7, 2, 2, 0, -1).
Proof.
  destruct (sp_create_impl_keeps_params (P := linux_build) linux_create_ok
              a_port (Fixnum 0) linux_w_7O2 File
              (snd (sp_create_impl (P := linux_build) a_port (Fixnum 0)
                      linux_w_7O2)) eq_refl) as (H & _).
  rewrite H. reflexivity.
Defined.

(** ** Modem lines *)

Section ModemLines.
Context {T : Modem.tiocm}.

(** The ways a run of [set_signal_impl] can end. *)
Lemma set_signal_impl_cases obj val sig s r s' :
  Modem.set_signal_impl obj val sig s = (r, s') ->
  (Modem.status s' = Modem.status s /\
   modem_writes (Modem.mtrace s') = modem_writes (Modem.mtrace s) /\
   forall v, r <> Ok v) \/
  (Modem.status s' = Modem.status s /\
   Modem.tiocmset_ok s = false /\ r = Raise (rb_sys_fail Modem.sIoctl)) \/
  (exists b,
      val = Fixnum b /\ (b = 0 \/ b = 1) /\ r = Ok val /\
      Modem.tiocmget_ok s' = Modem.tiocmget_ok s /\
      Modem.tiocmget_ok s = true /\
      Modem.status s'
      = (if b =? 0 then Z.land (Modem.status s) (Z.lnot sig)
         else Z.lor (Modem.status s) sig) /\
      modem_writes (Modem.mtrace s')
      = Modem.status s' :: modem_writes (Modem.mtrace s)).
Proof.
  unfold Modem.set_signal_impl. intros H.
  unfold Modem.bind at 1, Modem.Check_Type in H.
  destruct val as [| b | | | |]; simpl in H;
    try (injection H as <- <-; left; repeat split; congruence).
  unfold Modem.bind at 1, Modem.ioctl_TIOCMGET in H.
  destruct (Modem.tiocmget_ok s) eqn:Eg; simpl in H.
  2:{ injection H as <- <-. left. repeat split. congruence. }
  unfold Modem.bind at 1, Modem.FIX2INT in H.
  destruct ((INT_MIN <=? b) && (b <=? INT_MAX)); simpl in H.
  2:{ injection H as <- <-. left. repeat split. congruence. }
  unfold Modem.bind at 1 in H.
  destruct (Z.eqb_spec b 0) as [-> | N0]; simpl in H.
  - unfold Modem.bind, Modem.ioctl_TIOCMSET in H. simpl in H.
    destruct (Modem.tiocmset_ok s) eqn:Es; simpl in H;
      injection H as <- <-; simpl.
    + right. right. exists 0. rewrite Eg. repeat split. auto.
    + right. left. auto.
  - destruct (Z.eqb_spec b 1) as [-> | N1]; simpl in H.
    + unfold Modem.bind, Modem.ioctl_TIOCMSET in H. simpl in H.
      destruct (Modem.tiocmset_ok s) eqn:Es; simpl in H;
        injection H as <- <-; simpl.
      * right. right. exists 1. rewrite Eg. repeat split. auto.
      * right. left. auto.
    + injection H as <- <-. left. repeat split. congruence.
Qed.

(** X22: [set_signal_impl] writes the status word only when it returns.
    A value that is not a Fixnum is refused before any ioctl, and a
    number other than 0 and 1 raises "invalid value" after the status
    was read, with no TIOCMSET issued; the lines stay as they were, also
    when an ioctl fails. *)
Theorem set_signal_impl_failure obj val sig s r s' :
  Modem.set_signal_impl obj val sig s = (r, s') ->
  ((forall v, r <> Ok v) -> Modem.status s' = Modem.status s) /\
  (TYPE val <> T_FIXNUM ->
   r = Raise (rb_eTypeError "wrong argument type") /\ s' = s) /\
  (forall b, val = Fixnum b -> INT_MIN <= b <= INT_MAX -> b <> 0 -> b <> 1 ->
     Modem.tiocmget_ok s = true ->
     r = Raise (rb_eArgError "invalid value") /\
     modem_writes (Modem.mtrace s') = modem_writes (Modem.mtrace s)).
Proof.
  intros H. split; [| split].
  - intros N.
    destruct (set_signal_impl_cases _ _ _ _ _ _ H)
      as [(E & _) | [(E & _) | (b & _ & _ & -> & _)]]; try exact E.
    exfalso. apply (N val). reflexivity.
  - intros Ht. unfold Modem.set_signal_impl, Modem.bind, Modem.Check_Type in H.
    destruct val; simpl in *; try congruence; injection H as <- <-; auto.
  - intros b -> Hfit N0 N1 Hg.
    unfold Modem.set_signal_impl, Modem.bind, Modem.Check_Type,
      Modem.ioctl_TIOCMGET, Modem.FIX2INT in H. simpl in H.
    rewrite Hg in H.
    replace ((INT_MIN <=? b) && (b <=? INT_MAX)) with true in H
      by (symmetry; apply andb_true_iff; split; apply Z.leb_le; lia).
    simpl in H.
    replace (b =? 0) with false in H by (symmetry; apply Z.eqb_neq; exact N0).
    replace (b =? 1) with false in H by (symmetry; apply Z.eqb_neq; exact N1).
    simpl in H. injection H as <- <-. auto.
Qed.

(** The status word after a returning [set_signal_impl], bit by bit. *)
Lemma set_signal_impl_Ok obj val sig s v s' :
  Modem.set_signal_impl obj val sig s = (Ok v, s') ->
  exists b,
    val = Fixnum b /\ v = val /\ (b = 0 \/ b = 1) /\
    Modem.tiocmget_ok s' = true /\
    (sig <> 0 -> tst (Modem.status s') sig = (b =? 1)) /\
    (forall k, Z.land sig k = 0 ->
               tst (Modem.status s') k = tst (Modem.status s) k).
Proof.
  intros H.
  destruct (set_signal_impl_cases _ _ _ _ _ _ H)
    as [(_ & _ & N) | [(_ & _ & E) | (b & -> & Hb & E & Eg & Eg' & Es & _)]].
  { exfalso. apply (N v). reflexivity. }
  { discriminate. }
  injection E as ->.
  exists b. repeat split; try assumption; try congruence.
  - intros Hs. rewrite Es. destruct Hb as [-> | ->]; simpl.
    + apply tst_clear.
    + apply tst_set, Hs.
  - intros k Hk. rewrite Es. unfold tst.
    destruct Hb as [-> | ->]; simpl.
    + rewrite land_clear_keep by exact Hk. reflexivity.
    + rewrite land_set_keep by exact Hk. reflexivity.
Qed.

(** X20: the value [sp_set_rts_impl] (or [sp_set_dtr_impl]) has written
    is the value [sp_get_rts_impl] (or [sp_get_dtr_impl]) returns next,
    and it is 0 or 1. *)
Theorem set_then_get_signal self val s v s' :
  Modem.TIOCM_RTS <> 0 -> Modem.TIOCM_DTR <> 0 ->
  (Modem.sp_set_rts_impl self val s = (Ok v, s') ->
   Modem.sp_get_rts_impl self s' = (Ok val, Modem.mlog Modem.EvTIOCMGET s')
   /\ (val = Fixnum 0 \/ val = Fixnum 1)) /\
  (Modem.sp_set_dtr_impl self val s = (Ok v, s') ->
   Modem.sp_get_dtr_impl self s' = (Ok val, Modem.mlog Modem.EvTIOCMGET s')
   /\ (val = Fixnum 0 \/ val = Fixnum 1)).
Proof.
  intros Hr Hd. split; intros H.
  - unfold Modem.sp_set_rts_impl in H.
    destruct (set_signal_impl_Ok _ _ _ _ _ _ H)
      as (b & -> & _ & Hb & Hg & Ht & _).
    unfold Modem.sp_get_rts_impl, Modem.get_line_signals_helper_impl,
      Modem.bind, Modem.ioctl_TIOCMGET. rewrite Hg. simpl.
    rewrite (Ht Hr).
    destruct Hb as [-> | ->]; simpl; auto.
  - unfold Modem.sp_set_dtr_impl in H.
    destruct (set_signal_impl_Ok _ _ _ _ _ _ H)
      as (b & -> & _ & Hb & Hg & Ht & _).
    unfold Modem.sp_get_dtr_impl, Modem.get_line_signals_helper_impl,
      Modem.bind, Modem.ioctl_TIOCMGET. rewrite Hg. simpl.
    rewrite (Ht Hd).
    destruct Hb as [-> | ->]; simpl; auto.
Qed.

(** X21: setting RTS changes RTS alone: DTR, CTS, DSR, DCD and RI, as
    [get_line_signals_helper_impl] reads them, are after the call what
    they were before it, each of their masks being another bit than
    TIOCM_RTS. *)
Theorem set_rts_keeps_other_lines self val s v s' ls ls' sa sb :
  Z.land Modem.TIOCM_RTS Modem.TIOCM_DTR = 0 ->
  Z.land Modem.TIOCM_RTS Modem.TIOCM_CTS = 0 ->
  Z.land Modem.TIOCM_RTS Modem.TIOCM_DSR = 0 ->
  Z.land Modem.TIOCM_RTS Modem.TIOCM_CD = 0 ->
  Z.land Modem.TIOCM_RTS Modem.TIOCM_RI = 0 ->
  Modem.get_line_signals_helper_impl self s = (Ok ls, sa) ->
  Modem.sp_set_rts_impl self val s = (Ok v, s') ->
  Modem.get_line_signals_helper_impl self s' = (Ok ls', sb) ->
  Modem.dtr ls' = Modem.dtr ls /\ Modem.cts ls' = Modem.cts ls /\
  Modem.dsr ls' = Modem.dsr ls /\ Modem.dcd ls' = Modem.dcd ls /\
  Modem.ri ls' = Modem.ri ls.
Proof.
  intros D1 D2 D3 D4 D5 Hg H Hg'.
  unfold Modem.sp_set_rts_impl in H.
  destruct (set_signal_impl_Ok _ _ _ _ _ _ H)
    as (b & _ & _ & _ & _ & _ & K).
  unfold Modem.get_line_signals_helper_impl, Modem.bind,
    Modem.ioctl_TIOCMGET in Hg, Hg'.
  destruct (Modem.tiocmget_ok s); [| discriminate].
  destruct (Modem.tiocmget_ok s'); [| discriminate].
  simpl in Hg, Hg'. injection Hg as <- _. injection Hg' as <- _. simpl.
  rewrite !K by assumption. repeat split.
Qed.

(** X23: [sp_break_impl] asks [tcsendbreak] for a third of the time it
    is given, rounded toward zero, so that the times -2 to 2 all ask for
    the duration 0; it returns [nil] when the call works and raises the
    system error when it does not. *)
Theorem sp_break_impl_duration self t s :
  INT_MIN <= t <= INT_MAX ->
  Modem.sp_break_impl self (Fixnum t) s
  = (if Modem.tcsendbreak_ok s then Ok Qnil
     else Raise (rb_sys_fail "tcsendbreak"),
     Modem.mlog (Modem.EvTcsendbreak (Z.quot t 3)) s) /\
  (-3 < t < 3 -> Z.quot t 3 = 0) /\
  (0 <= t -> 3 * Z.quot t 3 <= t < 3 * Z.quot t 3 + 3) /\
  (t <= 0 -> t <= 3 * Z.quot t 3 < t + 3).
Proof.
  intros Hfit. split; [| split; [| split]].
  - unfold Modem.sp_break_impl, Modem.bind, Modem.Check_Type, Modem.FIX2INT,
      Modem.tcsendbreak. simpl.
    replace ((INT_MIN <=? t) && (t <=? INT_MAX)) with true
      by (symmetry; apply andb_true_iff; split; apply Z.leb_le; lia).
    simpl. destruct (Modem.tcsendbreak_ok s); reflexivity.
  - intros H. apply Z.quot_small_iff; [lia |]. lia.
  - intros H. rewrite Z.quot_div_nonneg by lia.
    pose proof (Z.div_mod t 3 ltac:(lia)).
    pose proof (Z.mod_pos_bound t 3 ltac:(lia)). lia.
  - intros H.
    pose proof (Z.quot_rem t 3 ltac:(lia)).
    pose proof (Z.rem_nonpos t 3 ltac:(lia) H).
    pose proof (Z.rem_bound_abs t 3 ltac:(lia)). lia.
Qed.

End ModemLines.

Lemma set_signal_impl_failure_witness :
  Modem.status
    (snd (Modem.set_signal_impl a_port (Fixnum 2) 4 Modem.lines0))
  = Modem.status Modem.lines0.
Proof.
  destruct (set_signal_impl_failure a_port (Fixnum 2) 4 Modem.lines0
              (fst (Modem.set_signal_impl a_port (Fixnum 2) 4 Modem.lines0))
              (snd (Modem.set_signal_impl a_port (Fixnum 2) 4 Modem.lines0))
              eq_refl) as (H & _).
  apply H. intros v. vm_compute. discriminate.
Defined.

Lemma set_then_get_signal_witness :
  Modem.sp_get_rts_impl (T := Modem.linux_tiocm) a_port
    (snd (Modem.sp_set_rts_impl (T := Modem.linux_tiocm) a_port (Fixnum 1)
            Modem.lines0))
  = (Ok (Fixnum 1),
     Modem.mlog Modem.EvTIOCMGET
       (snd (Modem.sp_set_rts_impl (T := Modem.linux_tiocm) a_port (Fixnum 1)
               Modem.lines0))).
Proof.
  destruct (set_then_get_signal (T := Modem.linux_tiocm) a_port (Fixnum 1)
              Modem.lines0 (Fixnum 1)
              (snd (Modem.sp_set_rts_impl (T := Modem.linux_tiocm) a_port
                      (Fixnum 1) Modem.lines0)))
    as (H & _).
  - discriminate.
  - discriminate.
  - destruct (H eq_refl) as (Hg & _). exact Hg.
Defined.

Lemma set_rts_keeps_other_lines_witness :
  let s' := snd (Modem.sp_set_rts_impl (T := Modem.linux_tiocm) a_port
                   (Fixnum 1) Modem.lines0) in
  let before := Modem.mk_line_signals 0 1 1 0 0 0 in
  let after := Modem.mk_line_signals 1 1 1 0 0 0 in
  Modem.dtr after = Modem.dtr before /\ Modem.cts after = Modem.cts before.
Proof.
  intros s' before after.
  destruct (set_rts_keeps_other_lines (T := Modem.linux_tiocm) a_port
              (Fixnum 1) Modem.lines0 (Fixnum 1) s' before after
              (Modem.mlog Modem.EvTIOCMGET Modem.lines0)
              (Modem.mlog Modem.EvTIOCMGET s')
              eq_refl eq_refl eq_refl eq_refl eq_refl eq_refl eq_refl eq_refl)
    as (H1 & H2 & _).
  split; assumption.
Defined.

Lemma sp_break_impl_duration_witness :
  Modem.sp_break_impl a_port (Fixnum 2) Modem.lines0
  = (Ok Qnil, Modem.mlog (Modem.EvTcsendbreak 0) Modem.lines0).
Proof.
  destruct (sp_break_impl_duration a_port 2 Modem.lines0) as (H & _).
  - unfold INT_MIN, INT_MAX. lia.
  - exact H.
Defined.

(** ** A configure call without a rate *)

Section NoRate.
Context {P : build}.

(** X25: a configure call that carries no rate and returns keeps the
    speed of the line on every build but Darwin; on Darwin it leaves the
    speed constant B9600, whatever speed the line had, because
    [clear_custom_baud_rate] has reset the in-memory attributes to B9600
    before the steps run. *)
Theorem configure_without_rate argv self w v w' :
  argv <> [] ->
  data_rate_arg argv = Qnil ->
  sp_set_modem_params_impl argv self w = (Ok v, w') ->
  (is_darwin = false -> cfgetospeed (tty w') = cfgetospeed (tty w)) /\
  (is_darwin = true -> cfgetospeed (tty w') = B9600).
Proof.
  intros Hne Er H.
  destruct (sp_set_modem_params_impl_cases _ _ _ _ _ H)
    as [(-> & _) | [(_ & _ & N) | (pc & w1 & _ & _ & Hf & E & _)]].
  { congruence. }
  { exfalso. apply (N v). reflexivity. }
  rewrite E. clear E H.
  unfold fill_params, fill_framing in Hf. rewrite Er in Hf.
  apply bind_Ok in Hf. destruct Hf as (pc0 & wz & H0 & Hf).
  apply bind_Ok in Hf. destruct Hf as (p5 & wa & Hfl & Hf).
  apply bind_Ok in Hf. destruct Hf as (p6 & wb & Ht & Hf).
  injection Hf as <- <-.
  apply bind_Ok in H0. destruct H0 as (pa & wc & Ha & H0).
  apply bind_Ok in H0. destruct H0 as (pc1 & wd & Hr & H0).
  apply bind_Ok in H0. destruct H0 as (p2 & we & Hb & H0).
  apply bind_Ok in H0. destruct H0 as (p3 & wf & Hst & H0).
  apply bind_Ok in H0. destruct H0 as (p4 & wg & Hp & H0).
  injection H0 as <- <-.
  unfold SetDataRate in Hr. simpl in Hr. injection Hr as <- _.
  simpl in *. unfold cfgetospeed.
  rewrite (SetReadTimeout_ospeed _ _ _ _ _ Ht),
    (SetFlowControl_ospeed _ _ _ _ _ Hfl), (SetParity_ospeed _ _ _ _ _ Hp),
    (SetStopBits_ospeed _ _ _ _ _ Hst), (SetDataBits_ospeed _ _ _ _ _ Hb).
  destruct is_darwin.
  - split; [discriminate | intros _].
    apply bind_Ok in Ha. destruct Ha as (c0 & ? & _ & Ha).
    apply bind_Ok in Ha. destruct Ha as (p0 & ? & Hc & Ha).
    injection Ha as <- _.
    unfold Darwin.clear_custom_baud_rate, bind, rb_iv_set_custom_baud, ret
      in Hc.
    injection Hc as <- _. reflexivity.
  - split; [intros _ | discriminate].
    injection Ha as <- _. reflexivity.
Qed.

End NoRate.

Lemma configure_without_rate_witness :
  cfgetospeed
    (tty (snd (sp_set_modem_params_impl (P := darwin_build)
                 [Hash (fun k => match k with
                                 | sDataBits => Fixnum 7
                                 | _ => Qnil
                                 end)]
                 a_port
                 (put_tty (cfsetospeed 19200 darwin_tty0)
                    (put_iv Qnil darwin_w_custom)))))
  = 9600.
Proof.
  destruct (configure_without_rate (P := darwin_build)
              [Hash (fun k => match k with
                              | sDataBits => Fixnum 7
                              | _ => Qnil
                              end)]
              a_port
              (put_tty (cfsetospeed 19200 darwin_tty0)
                 (put_iv Qnil darwin_w_custom))
              (Hash (fun k => match k with
                              | sDataBits => Fixnum 7
                              | _ => Qnil
                              end))
              (snd (sp_set_modem_params_impl (P := darwin_build)
                      [Hash (fun k => match k with
                                      | sDataBits => Fixnum 7
                                      | _ => Qnil
                                      end)]
                      a_port
                      (put_tty (cfsetospeed 19200 darwin_tty0)
                         (put_iv Qnil darwin_w_custom)))))
    as (_ & H).
  - discriminate.
  - reflexivity.
  - reflexivity.
  - apply H. reflexivity.
Defined.
